(** * Trading journal: derived fields, validation, store and analytics

    A shallow embedding of the analytics core of the trading journal:
    - [js/data-manager.js]  (class [TradeDataManager]): module [DataManager];
    - [js/calculations.js]  (class [TradeCalculator]):  module [Calculator];
    - the trade form's [validateFormData]:             module [TradeForm].

    Numbers.  A JavaScript number is modelled by [num]: an exact rational,
    one of the two infinities, or NaN.  Rounding of IEEE doubles and the
    sign of zero are abstracted away, and with the rounding the overflow of
    a large result to an infinity and the underflow of a small one to zero;
    division by zero, the propagation of NaN and the comparisons with NaN
    follow the language.  The results on sums and quotients are therefore
    phrased with the code's own operations in the code's order, or with
    comparisons.

    Fields.  A numeric source field of a trade is [option Q]: [None] is a
    field that is absent ([undefined]), which every use made of it by the
    modelled code treats like NaN (falsy, NaN in arithmetic, false in any
    comparison).  A derived field is a [num], with NaN also standing for an
    absent one. *)

From Stdlib Require Import QArith Qminmax Qabs ZArith List String Ascii Bool Lia Lqa.
From Stdlib Require Import Sorted Permutation.
Import ListNotations.

Open Scope Q_scope.

(** ** JavaScript numbers *)

Module JS.

Inductive num : Type :=
| Fin (q : Q)
| PInf
| NInf
| NaN.

Definition Qltb (a b : Q) : bool := negb (Qle_bool b a).

Definition isZero (q : Q) : bool := Qeq_bool q 0.

(** [-x] *)
Definition neg (x : num) : num :=
  match x with
  | Fin q => Fin (- q)
  | PInf => NInf
  | NInf => PInf
  | NaN => NaN
  end.

(** [x + y] *)
Definition add (x y : num) : num :=
  match x, y with
  | NaN, _ | _, NaN => NaN
  | Fin a, Fin b => Fin (a + b)
  | PInf, NInf | NInf, PInf => NaN
  | PInf, _ | _, PInf => PInf
  | NInf, _ | _, NInf => NInf
  end.

(** [x - y] *)
Definition sub (x y : num) : num := add x (neg y).

(** Sign of a rational as a comparison with zero. *)
Definition sgn (q : Q) : comparison := 0 ?= q.

(** An infinity with the sign of [q]; NaN for [q = 0]. *)
Definition inf_signed (positive : bool) (q : Q) : num :=
  match sgn q with
  | Eq => NaN
  | Lt => if positive then PInf else NInf
  | Gt => if positive then NInf else PInf
  end.

(** [x * y] *)
Definition mul (x y : num) : num :=
  match x, y with
  | NaN, _ | _, NaN => NaN
  | Fin a, Fin b => Fin (a * b)
  | PInf, Fin b => inf_signed true b
  | NInf, Fin b => inf_signed false b
  | Fin a, PInf => inf_signed true a
  | Fin a, NInf => inf_signed false a
  | PInf, PInf | NInf, NInf => PInf
  | PInf, NInf | NInf, PInf => NInf
  end.

(** [x / y]: a finite number over zero is an infinity of its sign, zero
    over zero is NaN. *)
Definition div (x y : num) : num :=
  match x, y with
  | NaN, _ | _, NaN => NaN
  | Fin a, Fin b => if isZero b then inf_signed true a else Fin (a / b)
  | Fin _, (PInf | NInf) => Fin 0
  | PInf, Fin b => if Qltb b 0 then NInf else PInf
  | NInf, Fin b => if Qltb b 0 then PInf else NInf
  | (PInf | NInf), (PInf | NInf) => NaN
  end.

(** [x < y]; false as soon as one side is NaN. *)
Definition lt (x y : num) : bool :=
  match x, y with
  | NaN, _ | _, NaN => false
  | Fin a, Fin b => Qltb a b
  | NInf, NInf => false
  | NInf, _ => true
  | _, PInf => match x with PInf => false | _ => true end
  | _, _ => false
  end.

(** [x > y] *)
Definition gt (x y : num) : bool := lt y x.

(** [x <= y]; false as soon as one side is NaN. *)
Definition le (x y : num) : bool :=
  match x, y with
  | NaN, _ | _, NaN => false
  | _, _ => negb (lt y x)
  end.

(** [x === 0] *)
Definition strictZero (x : num) : bool :=
  match x with
  | Fin q => isZero q
  | _ => false
  end.

(** Truthiness of a number: false for 0 and NaN. *)
Definition truthy (x : num) : bool :=
  match x with
  | Fin q => negb (isZero q)
  | NaN => false
  | _ => true
  end.

(** [Math.max(x, y)] *)
Definition max (x y : num) : num :=
  match x, y with
  | NaN, _ | _, NaN => NaN
  | _, _ => if lt x y then y else x
  end.

(** [Math.min(x, y)] *)
Definition min (x y : num) : num :=
  match x, y with
  | NaN, _ | _, NaN => NaN
  | _, _ => if lt y x then y else x
  end.

(** [Math.abs(x)] *)
Definition abs (x : num) : num :=
  match x with
  | Fin q => Fin (Qabs q)
  | PInf | NInf => PInf
  | NaN => NaN
  end.

(** [x || d] on numbers. *)
Definition orElse (x d : num) : num := if truthy x then x else d.

(** The length of an array as a number. *)
Definition ofNat (n : nat) : num := Fin (inject_Z (Z.of_nat n)).

Definition isFinite (x : num) : bool :=
  match x with Fin _ => true | _ => false end.

(** [x < 0] holds. *)
Definition negative (x : num) : Prop := lt x (Fin 0) = true.

(** Equality of numbers up to the representation of the rational. *)
Definition eqv (x y : num) : Prop :=
  match x, y with
  | Fin a, Fin b => a == b
  | PInf, PInf | NInf, NInf | NaN, NaN => True
  | _, _ => False
  end.

(** *** Numeric source fields: a finite number or absent *)

Definition field := option Q.

(** The value of a field inside arithmetic ([undefined] becomes NaN). *)
Definition toNum (f : field) : num :=
  match f with
  | Some q => Fin q
  | None => NaN
  end.

(** Truthiness of a field: absent and 0 are falsy. *)
Definition present (f : field) : bool := truthy (toNum f).

(** [f || g] on fields. *)
Definition fieldOr (f g : field) : field := if present f then f else g.

(** *** Text fields *)

Definition text := option string.

(** Truthiness of a text field: absent and the empty string are falsy. *)
Definition nonEmpty (s : text) : bool :=
  match s with
  | Some EmptyString => false
  | Some _ => true
  | None => false
  end.

(** [s === lit] *)
Definition textIs (s : text) (lit : string) : bool :=
  match s with
  | Some v => String.eqb v lit
  | None => false
  end.

(** White space removed by [String.prototype.trim], within ASCII. *)
Definition isSpace (c : ascii) : bool :=
  let n := nat_of_ascii c in
  (Nat.eqb n 32 || Nat.eqb n 9 || Nat.eqb n 10 || Nat.eqb n 11
   || Nat.eqb n 12 || Nat.eqb n 13)%bool.

(** [s.trim() === ""] *)
Definition trimIsEmpty (s : string) : bool :=
  forallb isSpace (list_ascii_of_string s).

(** *** Dates *)

(** A date field as the code reads it: absent or empty (falsy), a text
    that [new Date] cannot parse, or an instant in milliseconds. *)
Inductive date : Type :=
| NoDate
| BadDate
| Instant (ms : Z).

Definition hasDate (d : date) : bool :=
  match d with NoDate => false | _ => true end.

(** [new Date(d).valueOf()] *)
Definition timeOf (d : date) : num :=
  match d with
  | Instant ms => Fin (inject_Z ms)
  | _ => NaN
  end.

End JS.

Import JS.

(** ** The trade record *)

(** The fields a trade is entered with.  The journaling fields (strategy,
    rationale, tags, rating, ...) are left out: none of the functions below
    reads them. *)
Record Source : Type := mkSource {
  id : text;
  assetType : text;
  symbol : text;
  direction : text;
  status : text;
  positionSize : field;
  entryPrice : field;
  entryDate : date;
  exitPrice : field;
  exitDate : date;
  commission : field;
  stopLoss : field;
  takeProfit : field;
  accountSize : field;
  createdAt : option Z;
  updatedAt : option Z
}.

(** The six fields the store computes. *)
Record Derived : Type := mkDerived {
  profitLoss : num;
  profitLossPercent : num;
  riskAmount : num;
  rewardAmount : num;
  riskRewardRatio : num;
  riskPercent : num
}.

Record Trade : Type := mkTrade {
  source :> Source;
  derived :> Derived
}.

(** A trade object none of whose derived fields is set. *)
Definition noDerived : Derived := mkDerived NaN NaN NaN NaN NaN NaN.

(** Assignments [trade.field = v] to the derived fields. *)
Definition set_profitLoss (v : num) (t : Trade) : Trade :=
  mkTrade t (mkDerived v (profitLossPercent t) (riskAmount t)
                       (rewardAmount t) (riskRewardRatio t) (riskPercent t)).
Definition set_profitLossPercent (v : num) (t : Trade) : Trade :=
  mkTrade t (mkDerived (profitLoss t) v (riskAmount t)
                       (rewardAmount t) (riskRewardRatio t) (riskPercent t)).
Definition set_riskAmount (v : num) (t : Trade) : Trade :=
  mkTrade t (mkDerived (profitLoss t) (profitLossPercent t) v
                       (rewardAmount t) (riskRewardRatio t) (riskPercent t)).
Definition set_rewardAmount (v : num) (t : Trade) : Trade :=
  mkTrade t (mkDerived (profitLoss t) (profitLossPercent t) (riskAmount t)
                       v (riskRewardRatio t) (riskPercent t)).
Definition set_riskRewardRatio (v : num) (t : Trade) : Trade :=
  mkTrade t (mkDerived (profitLoss t) (profitLossPercent t) (riskAmount t)
                       (rewardAmount t) v (riskPercent t)).
Definition set_riskPercent (v : num) (t : Trade) : Trade :=
  mkTrade t (mkDerived (profitLoss t) (profitLossPercent t) (riskAmount t)
                       (rewardAmount t) (riskRewardRatio t) v).

(** The settings object, reduced to what the calculations read. *)
Record Settings : Type := mkSettings {
  settingsAccountSize : field;
  riskPerTrade : field
}.

(** ** Conditions shared by the two validators *)

(** [if (failed) errors.push(message)] *)
Definition check (failed : bool) (message : string) (errors : list string)
  : list string :=
  if failed then errors ++ [message] else errors.

(** [!f || f <= 0] on a numeric field. *)
Definition missingOrNotPositive (f : field) : bool :=
  (negb (present f) || le (toNum f) (Fin 0))%bool.

(** [f && f <= 0] on a numeric field. *)
Definition presentNotPositive (f : field) : bool :=
  (present f && le (toNum f) (Fin 0))%bool.

(** [!s || s.trim() === ""] *)
Definition blank (s : text) : bool :=
  (negb (nonEmpty s)
   || match s with Some v => trimIsEmpty v | None => false end)%bool.

(** [exitDate && entryDate] and [new Date(exitDate) < new Date(entryDate)] *)
Definition exitBeforeEntry (t : Trade) : bool :=
  (hasDate (exitDate t) && hasDate (entryDate t)
   && lt (timeOf (exitDate t)) (timeOf (entryDate t)))%bool.

(** ** Objects and arrays *)

(** The empty object [{}]. *)
Definition emptyTrade : Trade :=
  mkTrade (mkSource None None None None None None None NoDate None NoDate
                    None None None None None None)
          noDerived.

(** The [updates] object of [updateTrade]: for each key, [None] when the
    object does not have it, [Some v] when it maps it to [v]. *)
Record Updates : Type := mkUpdates {
  u_id : option text;
  u_assetType : option text;
  u_symbol : option text;
  u_direction : option text;
  u_status : option text;
  u_positionSize : option field;
  u_entryPrice : option field;
  u_entryDate : option date;
  u_exitPrice : option field;
  u_exitDate : option date;
  u_commission : option field;
  u_stopLoss : option field;
  u_takeProfit : option field;
  u_accountSize : option field;
  u_createdAt : option (option Z);
  u_updatedAt : option (option Z);
  u_profitLoss : option num;
  u_profitLossPercent : option num;
  u_riskAmount : option num;
  u_rewardAmount : option num;
  u_riskRewardRatio : option num;
  u_riskPercent : option num
}.

Definition override {A : Type} (new : option A) (old : A) : A :=
  match new with
  | Some v => v
  | None => old
  end.

(** The spread [{...trade, ...updates}]. *)
Definition spread (trade : Trade) (updates : Updates) : Trade :=
  mkTrade
    (mkSource (override (u_id updates) (id trade))
              (override (u_assetType updates) (assetType trade))
              (override (u_symbol updates) (symbol trade))
              (override (u_direction updates) (direction trade))
              (override (u_status updates) (status trade))
              (override (u_positionSize updates) (positionSize trade))
              (override (u_entryPrice updates) (entryPrice trade))
              (override (u_entryDate updates) (entryDate trade))
              (override (u_exitPrice updates) (exitPrice trade))
              (override (u_exitDate updates) (exitDate trade))
              (override (u_commission updates) (commission trade))
              (override (u_stopLoss updates) (stopLoss trade))
              (override (u_takeProfit updates) (takeProfit trade))
              (override (u_accountSize updates) (accountSize trade))
              (override (u_createdAt updates) (createdAt trade))
              (override (u_updatedAt updates) (updatedAt trade)))
    (mkDerived (override (u_profitLoss updates) (profitLoss trade))
               (override (u_profitLossPercent updates) (profitLossPercent trade))
               (override (u_riskAmount updates) (riskAmount trade))
               (override (u_rewardAmount updates) (rewardAmount trade))
               (override (u_riskRewardRatio updates) (riskRewardRatio trade))
               (override (u_riskPercent updates) (riskPercent trade))).

(** [{...trade, updatedAt: now}] *)
Definition withUpdatedAt (now : Z) (t : Trade) : Trade :=
  mkTrade
    (mkSource (id t) (assetType t) (symbol t) (direction t) (status t)
              (positionSize t) (entryPrice t) (entryDate t) (exitPrice t)
              (exitDate t) (commission t) (stopLoss t) (takeProfit t)
              (accountSize t) (createdAt t) (Some now))
    t.

(** [{id: newId, ...tradeData, createdAt: created, updatedAt: updated}] *)
Definition newTradeObject (newId : string) (created updated : Z)
                          (tradeData : Trade) : Trade :=
  mkTrade
    (mkSource (match id tradeData with Some i => Some i | None => Some newId end)
              (assetType tradeData) (symbol tradeData) (direction tradeData)
              (status tradeData) (positionSize tradeData)
              (entryPrice tradeData) (entryDate tradeData)
              (exitPrice tradeData) (exitDate tradeData)
              (commission tradeData) (stopLoss tradeData)
              (takeProfit tradeData) (accountSize tradeData)
              (Some created) (Some updated))
    tradeData.

(** [array.findIndex(p)], with [None] for -1. *)
Fixpoint findIndex {A : Type} (p : A -> bool) (l : list A) : option nat :=
  match l with
  | [] => None
  | x :: r => if p x then Some O else option_map S (findIndex p r)
  end.

(** [array[i] = v] for an index inside the array. *)
Fixpoint setAt {A : Type} (i : nat) (v : A) (l : list A) : list A :=
  match l, i with
  | [], _ => []
  | _ :: r, O => v :: r
  | x :: r, S j => x :: setAt j v r
  end.

(** [array.sort(compare)]: the sort is stable, and an element moves behind
    another only when the comparator is positive on the pair (a NaN result
    counts as 0).  For a comparator that orders the elements consistently
    every stable sort returns this list.  Where the comparator is not
    consistent (its result is NaN on trades without an exit date) the
    order is left to the engine and this list is one possible outcome:
    what is proved below either does not depend on the order or is stated
    for trades that all have an exit date. *)
Fixpoint insertSorted {A : Type} (compare : A -> A -> num) (x : A) (l : list A)
  : list A :=
  match l with
  | [] => [x]
  | y :: r => if gt (compare x y) (Fin 0)
              then y :: insertSorted compare x r
              else x :: y :: r
  end.

Definition sortBy {A : Type} (compare : A -> A -> num) (l : list A) : list A :=
  fold_right (insertSorted compare) [] l.

(** [array.reduce((sum, x) => sum + f(x), 0)] *)
Definition sumOf {A : Type} (f : A -> num) (l : list A) : num :=
  fold_left (fun sum x => add sum (f x)) l (Fin 0).

(** [Math.max(...values)] and [Math.min(...values)] *)
Definition maxOf (values : list num) : num := fold_left max values NInf.
Definition minOf (values : list num) : num := fold_left min values PInf.

(** ** The record store *)

(** The trades kept under the storage key.  Writing them as JSON and reading
    them back is taken as the identity, and a write as succeeding. *)
Definition Store : Type := list Trade.

Inductive outcome (A : Type) : Type :=
| Returned (a : A)
| Thrown (message : string).

Arguments Returned {A} a.
Arguments Thrown {A} message.

(** A method of the store: it runs on the stored trades and ends with the
    trades it leaves and with a result or a thrown error. *)
Definition Op (A : Type) : Type := Store -> Store * outcome A.

Definition ret {A : Type} (a : A) : Op A := fun s => (s, Returned a).

Definition throw {A : Type} (message : string) : Op A :=
  fun s => (s, Thrown message).

Definition bind {A B : Type} (m : Op A) (k : A -> Op B) : Op B :=
  fun s =>
    match m s with
    | (s', Returned a) => k a s'
    | (s', Thrown e) => (s', Thrown e)
    end.

Notation "x <- m ;; k" := (bind m (fun x => k))
  (at level 61, m at next level, right associativity).

(** The result record of [calculateStreaks]. *)
Record Streaks : Type := mkStreaks {
  current : Z;
  best : Z;
  worst : Z
}.

(** The result record of [getPerformanceSummary]. *)
Record PerformanceSummary : Type := mkSummary {
  totalTrades : nat;
  winningTrades : nat;
  losingTrades : nat;
  winRate : num;
  totalProfit : num;
  totalLoss : num;
  netProfit : num;
  profitFactor : num;
  averageWin : num;
  averageLoss : num;
  largestWin : num;
  largestLoss : num;
  averageRiskReward : num;
  maxDrawdown : num;
  currentStreak : Z;
  bestStreak : Z;
  worstStreak : Z
}.

(** [trade.status === "closed"] *)
Definition isClosed (trade : Trade) : bool := textIs (status trade) "closed".

(** The entry value [entryPrice * positionSize] as the code computes it. *)
Definition entryValue (trade : Trade) : num :=
  mul (toNum (entryPrice trade)) (toNum (positionSize trade)).

(** [trade.profitLoss > 0] and [trade.profitLoss < 0] *)
Definition isWinner (trade : Trade) : bool := gt (profitLoss trade) (Fin 0).
Definition isLoser (trade : Trade) : bool := lt (profitLoss trade) (Fin 0).

(** ** Derived fields, as the store computes them (data-manager.js) *)

Module DataManager.

(** [getDefaultSettings] *)
Definition getDefaultSettings : Settings :=
  mkSettings (Some 10000) (Some 2).

(** [calculateProfitLoss] *)
Definition calculateProfitLoss (trade : Trade) : num :=
  if (negb (present (exitPrice trade)) || textIs (status trade) "open")%bool
  then Fin 0
  else
    let priceDiff :=
      if textIs (direction trade) "long"
      then sub (toNum (exitPrice trade)) (toNum (entryPrice trade))
      else sub (toNum (entryPrice trade)) (toNum (exitPrice trade)) in
    let grossPL := mul priceDiff (toNum (positionSize trade)) in
    let netPL := sub grossPL (toNum (fieldOr (commission trade) (Some 0))) in
    netPL.

(** [calculateProfitLossPercent]: no test on [entryValue] here. *)
Definition calculateProfitLossPercent (trade : Trade) : num :=
  if (negb (present (exitPrice trade)) || textIs (status trade) "open")%bool
  then Fin 0
  else
    let entryValue := mul (toNum (entryPrice trade)) (toNum (positionSize trade)) in
    let netPL := calculateProfitLoss trade in
    mul (div netPL entryValue) (Fin 100).

(** [calculateRiskAmount] *)
Definition calculateRiskAmount (trade : Trade) : num :=
  if negb (present (stopLoss trade)) then Fin 0
  else
    let priceRisk :=
      if textIs (direction trade) "long"
      then sub (toNum (entryPrice trade)) (toNum (stopLoss trade))
      else sub (toNum (stopLoss trade)) (toNum (entryPrice trade)) in
    mul priceRisk (toNum (positionSize trade)).

(** [calculateRewardAmount] *)
Definition calculateRewardAmount (trade : Trade) : num :=
  if negb (present (takeProfit trade)) then Fin 0
  else
    let priceReward :=
      if textIs (direction trade) "long"
      then sub (toNum (takeProfit trade)) (toNum (entryPrice trade))
      else sub (toNum (entryPrice trade)) (toNum (takeProfit trade)) in
    mul priceReward (toNum (positionSize trade)).

(** [calculateRiskRewardRatio] *)
Definition calculateRiskRewardRatio (trade : Trade) : num :=
  let riskAmount := calculateRiskAmount trade in
  let rewardAmount := calculateRewardAmount trade in
  if strictZero riskAmount then Fin 0
  else div rewardAmount riskAmount.

(** [calculateRiskPercent]: the fallback is the literal 10000. *)
Definition calculateRiskPercent (trade : Trade) : num :=
  let riskAmount := calculateRiskAmount trade in
  let accountSize := toNum (fieldOr (accountSize trade) (Some 10000)) in
  if strictZero accountSize then Fin 0
  else mul (div riskAmount accountSize) (Fin 100).

(** [TradeDataManager.validateTrade] *)
Definition validateTrade (trade : Trade) : list string :=
  let errors := [] in
  (* Required fields *)
  let errors := check (negb (nonEmpty (assetType trade)))
                      "Asset type is required" errors in
  let errors := check (blank (symbol trade)) "Symbol is required" errors in
  let errors := check (negb (nonEmpty (direction trade)))
                      "Direction is required" errors in
  let errors := check (missingOrNotPositive (positionSize trade))
                      "Position size must be greater than 0" errors in
  let errors := check (missingOrNotPositive (entryPrice trade))
                      "Entry price must be greater than 0" errors in
  let errors := check (negb (hasDate (entryDate trade)))
                      "Entry date is required" errors in
  (* Optional fields validation *)
  let errors := check (presentNotPositive (exitPrice trade))
                      "Exit price must be greater than 0" errors in
  let errors := check (presentNotPositive (stopLoss trade))
                      "Stop loss must be greater than 0" errors in
  let errors := check (presentNotPositive (takeProfit trade))
                      "Take profit must be greater than 0" errors in
  (* Business logic validation *)
  let errors := check (exitBeforeEntry trade)
                      "Exit date cannot be before entry date" errors in
  (* Risk validation *)
  let errors := check (present (accountSize trade)
                       && truthy (riskAmount trade)
                       && gt (riskAmount trade) (toNum (accountSize trade)))%bool
                      "Risk amount cannot exceed account size" errors in
  errors.

(** *** Reading and writing the stored trades *)

(** [loadTrades] *)
Definition loadTrades : Op (list Trade) := fun s => (s, Returned s).

(** [saveTrades] *)
Definition saveTrades (trades : list Trade) : Op bool :=
  fun _ => (trades, Returned true).

(** [validationErrors.join(", ")] *)
Definition joinErrors (errors : list string) : string :=
  String.concat ", " errors.

(** The six assignments that follow the comment "Calculate derived fields"
    in [addTrade] and "Recalculate derived fields" in [updateTrade], in the
    order of the source. *)
Definition recalculate (trade : Trade) : Trade :=
  let trade := set_profitLoss (calculateProfitLoss trade) trade in
  let trade := set_profitLossPercent (calculateProfitLossPercent trade) trade in
  let trade := set_riskAmount (calculateRiskAmount trade) trade in
  let trade := set_rewardAmount (calculateRewardAmount trade) trade in
  let trade := set_riskRewardRatio (calculateRiskRewardRatio trade) trade in
  let trade := set_riskPercent (calculateRiskPercent trade) trade in
  trade.

(** [addTrade]; [newId] is what [generateId] returns and [created],
    [updated] are the two readings of the clock. *)
Definition addTrade (newId : string) (created updated : Z) (tradeData : Trade)
  : Op Trade :=
  trades <- loadTrades ;;
  let validationErrors := validateTrade tradeData in
  if Nat.ltb 0 (List.length validationErrors)
  then throw (joinErrors validationErrors)
  else
    let newTrade := newTradeObject newId created updated tradeData in
    let newTrade := recalculate newTrade in
    _ <- saveTrades (trades ++ [newTrade]) ;;
    ret newTrade.

(** [updateTrade]; [now] is the reading of the clock. *)
Definition updateTrade (now : Z) (tradeId : string) (updates : Updates)
  : Op Trade :=
  trades <- loadTrades ;;
  match findIndex (fun trade : Trade => textIs (id trade) tradeId) trades with
  | None => throw "Trade not found"
  | Some index =>
      let validationErrors :=
        validateTrade (spread (nth index trades emptyTrade) updates) in
      if Nat.ltb 0 (List.length validationErrors)
      then throw (joinErrors validationErrors)
      else
        let updated :=
          withUpdatedAt now (spread (nth index trades emptyTrade) updates) in
        let updated := recalculate updated in
        let trades := setAt index updated trades in
        _ <- saveTrades trades ;;
        ret (nth index trades emptyTrade)
  end.

(** [deleteTrade] *)
Definition deleteTrade (tradeId : string) : Op bool :=
  trades <- loadTrades ;;
  let filteredTrades :=
    filter (fun trade : Trade => negb (textIs (id trade) tradeId)) trades in
  if Nat.eqb (List.length filteredTrades) (List.length trades)
  then throw "Trade not found"
  else
    _ <- saveTrades filteredTrades ;;
    ret true.

(** [getTrade] *)
Definition getTrade (tradeId : string) : Op Trade :=
  trades <- loadTrades ;;
  match find (fun trade : Trade => textIs (id trade) tradeId) trades with
  | None => throw "Trade not found"
  | Some trade => ret trade
  end.

(** *** Streaks and drawdown *)

(** The comparator of [calculateStreaks]: latest exit first. *)
Definition byExitDateDescending (a b : Trade) : num :=
  sub (timeOf (exitDate b)) (timeOf (exitDate a)).

(** The comparator of [calculateMaxDrawdown]: earliest exit first. *)
Definition byExitDateAscending (a b : Trade) : num :=
  sub (timeOf (exitDate a)) (timeOf (exitDate b)).

(** One turn of the loop of [calculateStreaks] on the variables
    [(tempStreak, bestStreak, worstStreak)]. *)
Definition streakStep (state : Z * Z * Z) (trade : Trade) : Z * Z * Z :=
  let '(tempStreak, bestStreak, worstStreak) := state in
  let tempStreak :=
    if gt (profitLoss trade) (Fin 0)
    then (if (0 <=? tempStreak)%Z then tempStreak + 1 else 1)%Z
    else if lt (profitLoss trade) (Fin 0)
    then (if (tempStreak <=? 0)%Z then tempStreak - 1 else -1)%Z
    else tempStreak in
  (tempStreak, Z.max bestStreak tempStreak, Z.min worstStreak tempStreak).

(** [calculateStreaks] *)
Definition calculateStreaks (trades : list Trade) : Streaks :=
  if Nat.eqb (List.length trades) 0 then mkStreaks 0 0 0
  else
    let sortedTrades := sortBy byExitDateDescending trades in
    let '(tempStreak, bestStreak, worstStreak) :=
      fold_left streakStep sortedTrades (0, 0, 0)%Z in
    let currentStreak := tempStreak in
    mkStreaks currentStreak bestStreak worstStreak.

(** The array handed to [calculateStreaks] once the call has returned: the
    sort is done in place. *)
Definition afterCalculateStreaks (trades : list Trade) : list Trade :=
  if Nat.eqb (List.length trades) 0 then trades
  else sortBy byExitDateDescending trades.

(** One turn of the loop of [calculateMaxDrawdown] on the variables
    [(peak, maxDrawdown, runningTotal)]. *)
Definition drawdownStep (state : num * num * num) (trade : Trade)
  : num * num * num :=
  let '(peak, maxDrawdown, runningTotal) := state in
  let runningTotal := add runningTotal (profitLoss trade) in
  let peak := max peak runningTotal in
  let drawdown := sub peak runningTotal in
  let maxDrawdown := max maxDrawdown drawdown in
  (peak, maxDrawdown, runningTotal).

(** [calculateMaxDrawdown]: the caller passes the closed trades. *)
Definition calculateMaxDrawdown (trades : list Trade) : num :=
  if Nat.eqb (List.length trades) 0 then Fin 0
  else
    let sortedTrades := sortBy byExitDateAscending trades in
    let '(_, maxDrawdown, _) :=
      fold_left drawdownStep sortedTrades (Fin 0, Fin 0, Fin 0) in
    maxDrawdown.

(** *** The performance summary *)

Definition emptySummary : PerformanceSummary :=
  mkSummary 0 0 0 (Fin 0) (Fin 0) (Fin 0) (Fin 0) (Fin 0) (Fin 0) (Fin 0)
            (Fin 0) (Fin 0) (Fin 0) (Fin 0) 0 0 0.

(** The body of [getPerformanceSummary] on the trades to analyse. *)
Definition summaryOf (tradesToAnalyze : list Trade) : PerformanceSummary :=
  if Nat.eqb (List.length tradesToAnalyze) 0 then emptySummary
  else
    let closedTrades := filter isClosed tradesToAnalyze in
    let winningTrades := filter isWinner closedTrades in
    let losingTrades := filter isLoser closedTrades in
    let totalProfit := sumOf (fun trade : Trade => profitLoss trade) winningTrades in
    let totalLoss := abs (sumOf (fun trade : Trade => profitLoss trade) losingTrades) in
    let netProfit := sub totalProfit totalLoss in
    let averageWin :=
      if Nat.ltb 0 (List.length winningTrades)
      then div totalProfit (ofNat (List.length winningTrades)) else Fin 0 in
    let averageLoss :=
      if Nat.ltb 0 (List.length losingTrades)
      then div totalLoss (ofNat (List.length losingTrades)) else Fin 0 in
    let largestWin :=
      if Nat.ltb 0 (List.length winningTrades)
      then maxOf (map (fun t : Trade => profitLoss t) winningTrades) else Fin 0 in
    let largestLoss :=
      if Nat.ltb 0 (List.length losingTrades)
      then minOf (map (fun t : Trade => profitLoss t) losingTrades) else Fin 0 in
    let profitFactor :=
      if gt totalLoss (Fin 0) then div totalProfit totalLoss else Fin 0 in
    let averageRiskReward :=
      if Nat.ltb 0 (List.length closedTrades)
      then div (sumOf (fun trade : Trade => orElse (riskRewardRatio trade) (Fin 0))
                      closedTrades)
               (ofNat (List.length closedTrades))
      else Fin 0 in
    let streaks := calculateStreaks closedTrades in
    (* [closedTrades] is now in the order [calculateStreaks] left it in *)
    let closedTrades' := afterCalculateStreaks closedTrades in
    mkSummary
      (List.length tradesToAnalyze)
      (List.length winningTrades)
      (List.length losingTrades)
      (if Nat.ltb 0 (List.length closedTrades)
       then mul (div (ofNat (List.length winningTrades))
                     (ofNat (List.length closedTrades))) (Fin 100)
       else Fin 0)
      totalProfit totalLoss netProfit profitFactor averageWin averageLoss
      largestWin largestLoss averageRiskReward
      (calculateMaxDrawdown closedTrades')
      (current streaks) (best streaks) (worst streaks).

(** [getPerformanceSummary]: the trades passed, or the stored ones. *)
Definition getPerformanceSummary (trades : option (list Trade))
  : Op PerformanceSummary :=
  tradesToAnalyze <- match trades with
                     | Some given => ret given
                     | None => loadTrades
                     end ;;
  ret (summaryOf tradesToAnalyze).

End DataManager.

(** ** Results of the calculator's analyses *)

(** The object built for each group by [getPerformanceByAssetType],
    [getPerformanceByStrategy] and [getPerformanceByEmotionalState]. *)
Record GroupPerformance : Type := mkGroup {
  groupTotalTrades : nat;
  groupWinningTrades : nat;
  groupLosingTrades : nat;
  groupWinRate : num;
  groupTotalPL : num;
  groupProfitFactor : num;
  groupAverageRR : num
}.

(** A point of the equity curve.  The point that stands for an empty
    history has a date and an equity only. *)
Record EquityPoint : Type := mkPoint {
  pointDate : date;
  equity : num;
  pointTradeId : text;
  pointSymbol : text;
  pointPL : option num
}.

(** The object kept for each month by [getMonthlyPerformance]; [winRate]
    and [profitFactor] are NaN until the second pass sets them. *)
Record MonthData : Type := mkMonth {
  month : string;
  monthTrades : list Trade;
  monthTotalPL : num;
  monthWinningTrades : nat;
  monthLosingTrades : nat;
  monthWinRate : num;
  monthProfitFactor : num
}.

(** A trade object together with the two journaling fields the grouped
    analyses read. *)
Record JournalTrade : Type := mkJournalTrade {
  journalTrade :> Trade;
  strategy : text;
  emotionalState : text
}.

(** [[...new Set(values)]]: the distinct values in the order of their first
    occurrence. *)
Fixpoint distinct (values : list string) : list string :=
  match values with
  | [] => []
  | v :: rest => v :: filter (fun w => negb (String.eqb w v)) (distinct rest)
  end.

(** [values.filter(Boolean)] on text values: the non-empty strings. *)
Definition truthyTexts (values : list text) : list string :=
  flat_map (fun v : text =>
              match v with
              | Some s => if nonEmpty v then [s] else []
              | None => []
              end) values.

(** [object[key] = f(object[key])] on an object whose keys are kept in the
    order they were first set. *)
Fixpoint upsert {V : Type} (key : string) (f : option V -> V)
                (object : list (string * V)) : list (string * V) :=
  match object with
  | [] => [(key, f None)]
  | (k, v) :: rest =>
      if String.eqb k key then (k, f (Some v)) :: rest
      else (k, v) :: upsert key f rest
  end.

(** [object[key] = value] gives a plain object an entry under [key] unless
    the key is "__proto__": that name is the accessor inherited from
    [Object.prototype], so the assignment changes the prototype of the
    object and adds no entry to it. *)
Definition ownKey (key : string) : bool := negb (String.eqb key "__proto__").

(** ** Derived fields, as the calculator computes them (calculations.js) *)

Module Calculator.

Section WithSettings.

(** [this.settings], loaded when the calculator is constructed. *)
Variable settings : Settings.

(** [calculateProfitLoss] *)
Definition calculateProfitLoss (trade : Trade) : num :=
  if (negb (present (exitPrice trade)) || textIs (status trade) "open")%bool
  then Fin 0
  else
    let priceDiff :=
      if textIs (direction trade) "long"
      then sub (toNum (exitPrice trade)) (toNum (entryPrice trade))
      else sub (toNum (entryPrice trade)) (toNum (exitPrice trade)) in
    let grossPL := mul priceDiff (toNum (positionSize trade)) in
    let netPL := sub grossPL (toNum (fieldOr (commission trade) (Some 0))) in
    netPL.

(** [calculateProfitLossPercent]: guarded by [entryValue > 0]. *)
Definition calculateProfitLossPercent (trade : Trade) : num :=
  if (negb (present (exitPrice trade)) || textIs (status trade) "open")%bool
  then Fin 0
  else
    let entryValue := mul (toNum (entryPrice trade)) (toNum (positionSize trade)) in
    let netPL := calculateProfitLoss trade in
    if gt entryValue (Fin 0) then mul (div netPL entryValue) (Fin 100) else Fin 0.

(** [calculateRiskAmount] *)
Definition calculateRiskAmount (trade : Trade) : num :=
  if negb (present (stopLoss trade)) then Fin 0
  else
    let priceRisk :=
      if textIs (direction trade) "long"
      then sub (toNum (entryPrice trade)) (toNum (stopLoss trade))
      else sub (toNum (stopLoss trade)) (toNum (entryPrice trade)) in
    mul priceRisk (toNum (positionSize trade)).

(** [calculateRewardAmount] *)
Definition calculateRewardAmount (trade : Trade) : num :=
  if negb (present (takeProfit trade)) then Fin 0
  else
    let priceReward :=
      if textIs (direction trade) "long"
      then sub (toNum (takeProfit trade)) (toNum (entryPrice trade))
      else sub (toNum (entryPrice trade)) (toNum (takeProfit trade)) in
    mul priceReward (toNum (positionSize trade)).

(** [calculateRiskRewardRatio] *)
Definition calculateRiskRewardRatio (trade : Trade) : num :=
  let riskAmount := calculateRiskAmount trade in
  let rewardAmount := calculateRewardAmount trade in
  if strictZero riskAmount then Fin 0
  else div rewardAmount riskAmount.

(** [calculateRiskPercent]: the fallback is [this.settings.accountSize]. *)
Definition calculateRiskPercent (trade : Trade) : num :=
  let riskAmount := calculateRiskAmount trade in
  let accountSize :=
    toNum (fieldOr (accountSize trade) (settingsAccountSize settings)) in
  if strictZero accountSize then Fin 0
  else mul (div riskAmount accountSize) (Fin 100).

(** [calculateWinRate] *)
Definition calculateWinRate (trades : list Trade) : num :=
  let closedTrades := filter isClosed trades in
  if Nat.eqb (List.length closedTrades) 0 then Fin 0
  else
    let winningTrades := filter isWinner closedTrades in
    mul (div (ofNat (List.length winningTrades))
             (ofNat (List.length closedTrades))) (Fin 100).

(** [calculateProfitFactor] *)
Definition calculateProfitFactor (trades : list Trade) : num :=
  let closedTrades := filter isClosed trades in
  if Nat.eqb (List.length closedTrades) 0 then Fin 0
  else
    let winningTrades := filter isWinner closedTrades in
    let losingTrades := filter isLoser closedTrades in
    let totalProfit := sumOf (fun trade : Trade => profitLoss trade) winningTrades in
    let totalLoss :=
      abs (sumOf (fun trade : Trade => profitLoss trade) losingTrades) in
    if gt totalLoss (Fin 0) then div totalProfit totalLoss else Fin 0.

(** The comparator of [calculateMaxDrawdown]: earliest exit first. *)
Definition byExitDateAscending (a b : Trade) : num :=
  sub (timeOf (exitDate a)) (timeOf (exitDate b)).

(** One turn of the loop of [calculateMaxDrawdown] on the variables
    [(peak, maxDrawdown, runningTotal)]. *)
Definition drawdownStep (state : num * num * num) (trade : Trade)
  : num * num * num :=
  let '(peak, maxDrawdown, runningTotal) := state in
  let runningTotal := add runningTotal (profitLoss trade) in
  let peak := max peak runningTotal in
  let drawdown := sub peak runningTotal in
  let maxDrawdown := max maxDrawdown drawdown in
  (peak, maxDrawdown, runningTotal).

(** [calculateMaxDrawdown]: keeps the closed trades itself. *)
Definition calculateMaxDrawdown (trades : list Trade) : num :=
  let closedTrades := filter isClosed trades in
  if Nat.eqb (List.length closedTrades) 0 then Fin 0
  else
    let sortedTrades := sortBy byExitDateAscending closedTrades in
    let '(_, maxDrawdown, _) :=
      fold_left drawdownStep sortedTrades (Fin 0, Fin 0, Fin 0) in
    maxDrawdown.

(** [calculateAverageWin] *)
Definition calculateAverageWin (trades : list Trade) : num :=
  let winningTrades :=
    filter (fun trade => isClosed trade && isWinner trade)%bool trades in
  if Nat.eqb (List.length winningTrades) 0 then Fin 0
  else
    let totalProfit := sumOf (fun trade : Trade => profitLoss trade) winningTrades in
    div totalProfit (ofNat (List.length winningTrades)).

(** [calculateAverageLoss]: the sum is not made positive here. *)
Definition calculateAverageLoss (trades : list Trade) : num :=
  let losingTrades :=
    filter (fun trade => isClosed trade && isLoser trade)%bool trades in
  if Nat.eqb (List.length losingTrades) 0 then Fin 0
  else
    let totalLoss := sumOf (fun trade : Trade => profitLoss trade) losingTrades in
    div totalLoss (ofNat (List.length losingTrades)).

(** [calculateLargestWin] *)
Definition calculateLargestWin (trades : list Trade) : num :=
  let winningTrades :=
    filter (fun trade => isClosed trade && isWinner trade)%bool trades in
  if Nat.eqb (List.length winningTrades) 0 then Fin 0
  else maxOf (map (fun trade : Trade => profitLoss trade) winningTrades).

(** [calculateLargestLoss] *)
Definition calculateLargestLoss (trades : list Trade) : num :=
  let losingTrades :=
    filter (fun trade => isClosed trade && isLoser trade)%bool trades in
  if Nat.eqb (List.length losingTrades) 0 then Fin 0
  else minOf (map (fun trade : Trade => profitLoss trade) losingTrades).

(** [calculateAverageRiskReward] *)
Definition calculateAverageRiskReward (trades : list Trade) : num :=
  let closedTrades := filter isClosed trades in
  if Nat.eqb (List.length closedTrades) 0 then Fin 0
  else
    let totalRR :=
      sumOf (fun trade : Trade => orElse (riskRewardRatio trade) (Fin 0))
            closedTrades in
    div totalRR (ofNat (List.length closedTrades)).

(** One turn of the loop of [calculateMaxDrawdownPercent] on the variables
    [(peak, maxDrawdownPercent, runningTotal)]. *)
Definition drawdownPercentStep (state : num * num * num) (trade : Trade)
  : num * num * num :=
  let '(peak, maxDrawdownPercent, runningTotal) := state in
  let runningTotal := add runningTotal (profitLoss trade) in
  let peak := max peak runningTotal in
  let maxDrawdownPercent :=
    if gt peak (Fin 0)
    then
      let drawdownPercent := mul (div (sub peak runningTotal) peak) (Fin 100) in
      max maxDrawdownPercent drawdownPercent
    else maxDrawdownPercent in
  (peak, maxDrawdownPercent, runningTotal).

(** [calculateMaxDrawdownPercent] *)
Definition calculateMaxDrawdownPercent (trades : list Trade) : num :=
  let closedTrades := filter isClosed trades in
  if Nat.eqb (List.length closedTrades) 0 then Fin 0
  else
    let sortedTrades := sortBy byExitDateAscending closedTrades in
    let '(_, maxDrawdownPercent, _) :=
      fold_left drawdownPercentStep sortedTrades (Fin 0, Fin 0, Fin 0) in
    maxDrawdownPercent.

(** The object literal that the three grouped analyses build for the
    trades of one group. *)
Definition groupPerformance (groupTrades : list Trade) : GroupPerformance :=
  mkGroup (List.length groupTrades)
          (List.length (filter isWinner groupTrades))
          (List.length (filter isLoser groupTrades))
          (calculateWinRate groupTrades)
          (sumOf (fun t : Trade => orElse (profitLoss t) (Fin 0)) groupTrades)
          (calculateProfitFactor groupTrades)
          (calculateAverageRiskReward groupTrades).

(** The asset types [getPerformanceByAssetType] iterates over. *)
Definition assetTypes : list string :=
  ["stocks"; "forex"; "crypto"; "options"]%string.

(** [getPerformanceByAssetType]: the result object as its entries in the
    order they are set. *)
Definition getPerformanceByAssetType (trades : list Trade)
  : list (string * GroupPerformance) :=
  map (fun key : string =>
         let assetTrades :=
           filter (fun trade : Trade => textIs (assetType trade) key) trades in
         (key, groupPerformance assetTrades))
      assetTypes.

(** [getPerformanceByStrategy]: the result object as its entries in the order
    they are set (an enumeration would list integer-like keys first; nothing
    proved below depends on the order).  The assignment made for a strategy
    named "__proto__" leaves no entry. *)
Definition getPerformanceByStrategy (trades : list JournalTrade)
  : list (string * GroupPerformance) :=
  let strategies :=
    distinct (truthyTexts (map (fun trade : JournalTrade => strategy trade)
                               trades)) in
  map (fun key : string =>
         let strategyTrades :=
           filter (fun trade : JournalTrade => textIs (strategy trade) key)
                  trades in
         (key, groupPerformance (map journalTrade strategyTrades)))
      (filter ownKey strategies).

(** [getPerformanceByEmotionalState] *)
Definition getPerformanceByEmotionalState (trades : list JournalTrade)
  : list (string * GroupPerformance) :=
  let emotionalStates :=
    distinct (truthyTexts (map (fun trade : JournalTrade => emotionalState trade)
                               trades)) in
  map (fun key : string =>
         let stateTrades :=
           filter (fun trade : JournalTrade => textIs (emotionalState trade) key)
                  trades in
         (key, groupPerformance (map journalTrade stateTrades)))
      (filter ownKey emotionalStates).

(** One turn of the loop of [getEquityCurveData] on [runningEquity] and the
    points pushed so far. *)
Definition equityStep (state : num * list EquityPoint) (trade : Trade)
  : num * list EquityPoint :=
  let '(runningEquity, equityData) := state in
  let runningEquity := add runningEquity (orElse (profitLoss trade) (Fin 0)) in
  (runningEquity,
   equityData ++ [mkPoint (exitDate trade) runningEquity (id trade)
                          (symbol trade)
                          (Some (orElse (profitLoss trade) (Fin 0)))]).

(** [getEquityCurveData]; [now] is the reading of the clock and
    [initialCapital] the second argument, 10000 when it is not passed. *)
Definition getEquityCurveData (now : Z) (trades : list Trade)
                              (initialCapital : option Q) : list EquityPoint :=
  let initialCapital :=
    match initialCapital with Some c => Fin c | None => Fin 10000 end in
  let closedTrades := filter isClosed trades in
  if Nat.eqb (List.length closedTrades) 0
  then [mkPoint (Instant now) initialCapital None None None]
  else
    let sortedTrades := sortBy byExitDateAscending closedTrades in
    snd (fold_left equityStep sortedTrades (initialCapital, [])).

Section Calendar.

(** The key ["YYYY-MM"] of the month a date falls in, in the time zone of
    the host ("NaN-NaN" for a date that cannot be read). *)
Variable monthKey : date -> string.

(** The first pass of [getMonthlyPerformance] on one closed trade. *)
Definition monthStep (monthlyData : list (string * MonthData)) (trade : Trade)
  : list (string * MonthData) :=
  let key := monthKey (exitDate trade) in
  upsert key
    (fun found =>
       let data :=
         match found with
         | Some data => data
         | None => mkMonth key [] (Fin 0) 0 0 NaN NaN
         end in
       mkMonth (month data)
               (monthTrades data ++ [trade])
               (add (monthTotalPL data) (orElse (profitLoss trade) (Fin 0)))
               (if gt (profitLoss trade) (Fin 0)
                then S (monthWinningTrades data)
                else monthWinningTrades data)
               (if gt (profitLoss trade) (Fin 0)
                then monthLosingTrades data
                else if lt (profitLoss trade) (Fin 0)
                then S (monthLosingTrades data)
                else monthLosingTrades data)
               (monthWinRate data)
               (monthProfitFactor data))
    monthlyData.

(** The second pass of [getMonthlyPerformance] on one month. *)
Definition monthMetrics (data : MonthData) : MonthData :=
  mkMonth (month data) (monthTrades data) (monthTotalPL data)
          (monthWinningTrades data) (monthLosingTrades data)
          (if Nat.ltb 0 (List.length (monthTrades data))
           then mul (div (ofNat (monthWinningTrades data))
                         (ofNat (List.length (monthTrades data)))) (Fin 100)
           else Fin 0)
          (calculateProfitFactor (monthTrades data)).

(** [getMonthlyPerformance] *)
Definition getMonthlyPerformance (trades : list Trade)
  : list (string * MonthData) :=
  let closedTrades := filter isClosed trades in
  let monthlyData := fold_left monthStep closedTrades [] in
  map (fun entry : string * MonthData => (fst entry, monthMetrics (snd entry)))
      monthlyData.

End Calendar.

End WithSettings.

End Calculator.

Module TradeForm.

Definition stopLossMessage : string :=
  "Stop loss must be below entry price for long positions and above for short positions".

Definition takeProfitMessage : string :=
  "Take profit must be above entry price for long positions and below for short positions".

(** [validateFormData] of the trade form: the same leading checks as the
    store's [validateTrade], then the side of stop loss and take profit and
    the position value. *)
Definition validateFormData (formData : Trade) : list string :=
  let errors := [] in
  (* Required fields *)
  let errors := check (negb (nonEmpty (assetType formData)))
                      "Asset type is required" errors in
  let errors := check (blank (symbol formData)) "Symbol is required" errors in
  let errors := check (negb (nonEmpty (direction formData)))
                      "Trade direction is required" errors in
  let errors := check (missingOrNotPositive (positionSize formData))
                      "Position size must be greater than 0" errors in
  let errors := check (missingOrNotPositive (entryPrice formData))
                      "Entry price must be greater than 0" errors in
  let errors := check (negb (hasDate (entryDate formData)))
                      "Entry date is required" errors in
  (* Optional fields validation *)
  let errors := check (presentNotPositive (exitPrice formData))
                      "Exit price must be greater than 0" errors in
  let errors := check (presentNotPositive (stopLoss formData))
                      "Stop loss must be greater than 0" errors in
  let errors := check (presentNotPositive (takeProfit formData))
                      "Take profit must be greater than 0" errors in
  (* Business logic validation *)
  let errors := check (exitBeforeEntry formData)
                      "Exit date cannot be before entry date" errors in
  (* Stop loss and take profit validation *)
  let errors :=
    if (present (stopLoss formData) && present (entryPrice formData))%bool
    then
      let isValidSL :=
        if textIs (direction formData) "long"
        then lt (toNum (stopLoss formData)) (toNum (entryPrice formData))
        else gt (toNum (stopLoss formData)) (toNum (entryPrice formData)) in
      check (negb isValidSL) stopLossMessage errors
    else errors in
  let errors :=
    if (present (takeProfit formData) && present (entryPrice formData))%bool
    then
      let isValidTP :=
        if textIs (direction formData) "long"
        then gt (toNum (takeProfit formData)) (toNum (entryPrice formData))
        else lt (toNum (takeProfit formData)) (toNum (entryPrice formData)) in
      check (negb isValidTP) takeProfitMessage errors
    else errors in
  (* Risk validation *)
  let errors :=
    if (present (accountSize formData) && present (positionSize formData)
        && present (entryPrice formData) && present (stopLoss formData))%bool
    then
      let positionValue :=
        mul (toNum (positionSize formData)) (toNum (entryPrice formData)) in
      check (gt positionValue (toNum (accountSize formData)))
            "Position value cannot exceed account size" errors
    else errors in
  errors.

End TradeForm.

(** ** The rules of the store's validator *)

(** The rules of [validateTrade], each with the condition under which it is
    violated and its message, in the order of the source. *)
Definition storeRules (trade : Trade) : list (bool * string) :=
  [ (negb (nonEmpty (assetType trade)), "Asset type is required"%string);
    (blank (symbol trade), "Symbol is required"%string);
    (negb (nonEmpty (direction trade)), "Direction is required"%string);
    (missingOrNotPositive (positionSize trade),
     "Position size must be greater than 0"%string);
    (missingOrNotPositive (entryPrice trade),
     "Entry price must be greater than 0"%string);
    (negb (hasDate (entryDate trade)), "Entry date is required"%string);
    (presentNotPositive (exitPrice trade),
     "Exit price must be greater than 0"%string);
    (presentNotPositive (stopLoss trade),
     "Stop loss must be greater than 0"%string);
    (presentNotPositive (takeProfit trade),
     "Take profit must be greater than 0"%string);
    (exitBeforeEntry trade, "Exit date cannot be before entry date"%string);
    ((present (accountSize trade) && truthy (riskAmount trade)
      && gt (riskAmount trade) (toNum (accountSize trade)))%bool,
     "Risk amount cannot exceed account size"%string) ].

(** The messages of the rules that are violated. *)
Definition violations (rules : list (bool * string)) : list string :=
  flat_map (fun rule : bool * string => if fst rule then [snd rule] else [])
           rules.

(** The rules of the form's [validateFormData] in the order of the source;
    the last three are tested only when the fields they compare are set. *)
Definition formRules (formData : Trade) : list (bool * string) :=
  [ (negb (nonEmpty (assetType formData)), "Asset type is required"%string);
    (blank (symbol formData), "Symbol is required"%string);
    (negb (nonEmpty (direction formData)), "Trade direction is required"%string);
    (missingOrNotPositive (positionSize formData),
     "Position size must be greater than 0"%string);
    (missingOrNotPositive (entryPrice formData),
     "Entry price must be greater than 0"%string);
    (negb (hasDate (entryDate formData)), "Entry date is required"%string);
    (presentNotPositive (exitPrice formData),
     "Exit price must be greater than 0"%string);
    (presentNotPositive (stopLoss formData),
     "Stop loss must be greater than 0"%string);
    (presentNotPositive (takeProfit formData),
     "Take profit must be greater than 0"%string);
    (exitBeforeEntry formData, "Exit date cannot be before entry date"%string);
    ((present (stopLoss formData) && present (entryPrice formData)
      && negb (if textIs (direction formData) "long"
               then lt (toNum (stopLoss formData)) (toNum (entryPrice formData))
               else gt (toNum (stopLoss formData)) (toNum (entryPrice formData))))%bool,
     TradeForm.stopLossMessage);
    ((present (takeProfit formData) && present (entryPrice formData)
      && negb (if textIs (direction formData) "long"
               then gt (toNum (takeProfit formData)) (toNum (entryPrice formData))
               else lt (toNum (takeProfit formData)) (toNum (entryPrice formData))))%bool,
     TradeForm.takeProfitMessage);
    ((present (accountSize formData) && present (positionSize formData)
      && present (entryPrice formData) && present (stopLoss formData)
      && gt (mul (toNum (positionSize formData)) (toNum (entryPrice formData)))
            (toNum (accountSize formData)))%bool,
     "Position value cannot exceed account size"%string) ].

(** The stop loss is on the profit side of the entry price, or on it. *)
Definition stopOnProfitSide (trade : Trade) : bool :=
  (present (stopLoss trade) && present (entryPrice trade)
   && negb (if textIs (direction trade) "long"
            then lt (toNum (stopLoss trade)) (toNum (entryPrice trade))
            else gt (toNum (stopLoss trade)) (toNum (entryPrice trade))))%bool.

(** The take profit is on the loss side of the entry price, or on it. *)
Definition targetOnLossSide (trade : Trade) : bool :=
  (present (takeProfit trade) && present (entryPrice trade)
   && negb (if textIs (direction trade) "long"
            then gt (toNum (takeProfit trade)) (toNum (entryPrice trade))
            else lt (toNum (takeProfit trade)) (toNum (entryPrice trade))))%bool.

(** ** What a write must leave behind *)

(** Each stored derived field is what the store's own function computes
    from the trade as it is stored. *)
Definition derivedConsistent (t : Trade) : Prop :=
  profitLoss t = DataManager.calculateProfitLoss t
  /\ profitLossPercent t = DataManager.calculateProfitLossPercent t
  /\ riskAmount t = DataManager.calculateRiskAmount t
  /\ rewardAmount t = DataManager.calculateRewardAmount t
  /\ riskRewardRatio t = DataManager.calculateRiskRewardRatio t
  /\ riskPercent t = DataManager.calculateRiskPercent t.

(** No stored trade has the identifier [tradeId]. *)
Definition absentId (tradeId : string) (store : Store) : Prop :=
  Forall (fun t : Trade => id t <> Some tradeId) store.

(** ** Histories in chronological order *)

(** Exit instants of a list of trades, when every trade has one. *)
Inductive exitsAt : list Trade -> list Z -> Prop :=
| exitsAt_nil : exitsAt [] []
| exitsAt_cons (t : Trade) (ms : Z) (r : list Trade) (rs : list Z) :
    exitDate t = Instant ms -> exitsAt r rs -> exitsAt (t :: r) (ms :: rs).

(** The exit instant of a trade that has one. *)
Definition exitMs (t : Trade) : Z :=
  match exitDate t with
  | Instant ms => ms
  | _ => 0%Z
  end.

Definition hasExitInstant (t : Trade) : Prop :=
  exists ms, exitDate t = Instant ms.

(** [a] does not exit after [b]. *)
Definition exitsNoLater (a b : Trade) : Prop := (exitMs a <= exitMs b)%Z.

(** The trade exits at the instant [ms]. *)
Definition exitsOn (ms : Z) (t : Trade) : bool := (exitMs t =? ms)%Z.

(** [sorted] holds the trades of [trades] in ascending order of exit
    instant, the trades that exit at one instant in the order they have in
    [trades].  (The second part, taken at every instant, also makes
    [sorted] hold the trades of [trades] and no other.) *)
Definition inExitOrder (trades sorted : list Trade) : Prop :=
  StronglySorted exitsNoLater sorted
  /\ forall ms : Z, filter (exitsOn ms) sorted = filter (exitsOn ms) trades.

(** Strictly increasing instants: the list is in chronological order. *)
Fixpoint increasing (l : list Z) : Prop :=
  match l with
  | [] => True
  | a :: r => Forall (fun b => (a < b)%Z) r /\ increasing r
  end.

(** ** The specification's wording of the aggregates *)

Module Spec.

(** Number of trades of a collection that satisfy [p]. *)
Fixpoint countIf (p : Trade -> bool) (trades : list Trade) : nat :=
  match trades with
  | [] => O
  | t :: rest => if p t then S (countIf p rest) else countIf p rest
  end.

(** Closed trades; winners and losers among them (strict comparisons). *)
Definition closedCount : list Trade -> nat := countIf isClosed.
Definition winningCount : list Trade -> nat :=
  countIf (fun t => isClosed t && isWinner t)%bool.
Definition losingCount : list Trade -> nat :=
  countIf (fun t => isClosed t && isLoser t)%bool.

(** Sum of the profit/loss of the closed winners, and of the closed losers. *)
Definition winnersProfit (trades : list Trade) : num :=
  sumOf (fun t : Trade => profitLoss t)
        (filter (fun t => isClosed t && isWinner t)%bool trades).
Definition losersProfit (trades : list Trade) : num :=
  sumOf (fun t : Trade => profitLoss t)
        (filter (fun t => isClosed t && isLoser t)%bool trades).

(** "A running equity total starting at 0": the totals after each trade. *)
Fixpoint runningTotals (total : Q) (pls : list Q) : list Q :=
  match pls with
  | [] => []
  | pl :: rest => (total + pl) :: runningTotals (total + pl) rest
  end.

(** "The running peak (high-water mark of the running total)". *)
Fixpoint runningPeaks (peak : Q) (totals : list Q) : list Q :=
  match totals with
  | [] => []
  | total :: rest => Qmax peak total :: runningPeaks (Qmax peak total) rest
  end.

(** "Absolute drawdown at each step = peak - runningTotal". *)
Fixpoint stepDrawdowns (peaks totals : list Q) : list Q :=
  match peaks, totals with
  | peak :: ps, total :: ts => (peak - total) :: stepDrawdowns ps ts
  | _, _ => []
  end.

Definition drawdowns (pls : list Q) : list Q :=
  let totals := runningTotals 0 pls in
  stepDrawdowns (runningPeaks 0 totals) totals.

(** "Keep the maximum seen". *)
Definition maxDrawdown (pls : list Q) : Q :=
  fold_left Qmax (drawdowns pls) 0.

(** The streak that ends at the last trade of a chronological sequence of
    profit/loss: the signed length of the final run of results of one sign,
    a result of exactly zero passing through. *)
Fixpoint streakEndingAt (chronological : list Q) (streak : Z) : Z :=
  match chronological with
  | [] => streak
  | pl :: rest =>
      streakEndingAt rest
        (if Qltb 0 pl then (if (0 <=? streak)%Z then streak + 1 else 1)%Z
         else if Qltb pl 0 then (if (streak <=? 0)%Z then streak - 1 else -1)%Z
         else streak)
  end.

End Spec.

(** ** Finite profit/loss as rationals *)

(** The stored profit/loss of a trade is a finite number. *)
Definition finitePL (t : Trade) : Prop := isFinite (profitLoss t) = true.

(** That number. *)
Definition plQ (t : Trade) : Q :=
  match profitLoss t with
  | Fin q => q
  | _ => 0
  end.

(** ** The equity curve and the groups, read as lists *)

(** The amount a trade adds to the equity: [trade.profitLoss || 0]. *)
Definition equityChange (t : Trade) : num := orElse (profitLoss t) (Fin 0).

(** The sums of the amounts so far, after each amount. *)
Fixpoint runningSums (start : num) (amounts : list num) : list num :=
  match amounts with
  | [] => []
  | a :: rest => add start a :: runningSums (add start a) rest
  end.

(** ** The drawdown of a sequence of amounts *)

(** The high-water marks of a sequence of totals, from a first mark. *)
Fixpoint highWaterMarks (peak : num) (totals : list num) : list num :=
  match totals with
  | [] => []
  | total :: rest => max peak total :: highWaterMarks (max peak total) rest
  end.

(** Peak minus total, step by step. *)
Fixpoint declines (peaks totals : list num) : list num :=
  match peaks, totals with
  | peak :: ps, total :: ts => sub peak total :: declines ps ts
  | _, _ => []
  end.

(** The drawdown at each step of a sequence of profit/loss: the running
    total starts at 0 and the peak, its high-water mark, at 0 too. *)
Definition stepDeclines (pls : list num) : list num :=
  let totals := runningSums (Fin 0) pls in
  declines (highWaterMarks (Fin 0) totals) totals.

(** The largest of them, and 0 when there is no step. *)
Definition largestDecline (pls : list num) : num :=
  fold_left max (stepDeclines pls) (Fin 0).

(** The points pushed for a list of trades from a running equity. *)
Fixpoint curveFrom (runningEquity : num) (trades : list Trade)
  : list EquityPoint :=
  match trades with
  | [] => []
  | t :: rest =>
      mkPoint (exitDate t) (add runningEquity (equityChange t)) (id t)
              (symbol t) (Some (equityChange t))
      :: curveFrom (add runningEquity (equityChange t)) rest
  end.

(** The equity a curve starts from. *)
Definition startingEquity (initialCapital : option Q) : Q :=
  match initialCapital with
  | Some c => c
  | None => 10000
  end.

(** The sum of [totalTrades] over the groups of a result. *)
Definition groupedTotal (result : list (string * GroupPerformance)) : nat :=
  fold_right (fun entry n => (groupTotalTrades (snd entry) + n)%nat) O result.

(** The trades whose key, read by [keyOf], is [key]. *)
Definition withKey {A : Type} (keyOf : A -> text) (key : string) (l : list A)
  : list A :=
  filter (fun x => textIs (keyOf x) key) l.

(** The trades whose key is one of [keys]. *)
Definition withKeyIn {A : Type} (keyOf : A -> text) (keys : list string)
           (l : list A) : list A :=
  filter (fun x => existsb (textIs (keyOf x)) keys) l.

(** ** The months of the monthly analysis *)

(** [object[key]] on an object kept as its entries. *)
Definition entryOf {V : Type} (key : string) (object : list (string * V))
  : option V :=
  match find (fun entry => String.eqb (fst entry) key) object with
  | Some entry => Some (snd entry)
  | None => None
  end.

(** The month key of a trade as a text to group by. *)
Definition monthKeyOf (monthKey : date -> string) (t : Trade) : text :=
  Some (monthKey (exitDate t)).

(** What the first pass has gathered for a month once it has met the
    trades [ts] of that month. *)
Definition monthOf (key : string) (ts : list Trade) : MonthData :=
  mkMonth key ts
          (fold_left add (map equityChange ts) (Fin 0))
          (List.length (filter isWinner ts))
          (List.length (filter isLoser ts))
          NaN NaN.

(** What the first pass holds after the trades [pre]: for each key, the
    month of the trades of [pre] with that key, if there is any. *)
Definition gathered (monthKey : date -> string) (pre : list Trade)
           (acc : list (string * MonthData)) : Prop :=
  NoDup (map fst acc)
  /\ forall key,
       entryOf key acc
       = match withKey (monthKeyOf monthKey) key pre with
         | [] => None
         | _ :: _ => Some (monthOf key (withKey (monthKeyOf monthKey) key pre))
         end.

(** The sum of the numbers of trades over the months of a result. *)
Definition monthlyTotal (result : list (string * MonthData)) : nat :=
  fold_right (fun entry n => (List.length (monthTrades (snd entry)) + n)%nat)
             O result.

(** ** Sample trades *)

Module Samples.

Local Open Scope string_scope.

(** A closed trade with the given stored profit/loss and exit instant. *)
Definition closedTrade (pl : Q) (exit : Z) : Trade :=
  mkTrade (mkSource None (Some "stocks") (Some "AAPL") (Some "long")
                    (Some "closed") (Some 1) (Some 100) (Instant 0)
                    (Some (100 + pl)) (Instant exit) None None None None
                    None None)
          (mkDerived (Fin pl) NaN NaN NaN NaN NaN).

(** Profit/loss +1, +1, -1, +1 at exit instants 1, 2, 3, 4. *)
Definition fourTrades : list Trade :=
  [closedTrade 1 1; closedTrade 1 2; closedTrade (-1) 3; closedTrade 1 4].

(** Profit/loss +520, -47, +300. *)
Definition threeTrades : list Trade :=
  [closedTrade 520 1; closedTrade (-47) 2; closedTrade 300 3].

(** Profit/loss +100, -150, +50 in exit-date order. *)
Definition drawdownTrades : list Trade :=
  [closedTrade 100 1; closedTrade (-150) 2; closedTrade 50 3].

(** A closed trade object without a [profitLoss]. *)
Definition closedWithoutPL : Trade :=
  mkTrade (source (closedTrade 0 1)) noDerived.

(** A closed trade that broke even. *)
Definition breakeven : Trade := closedTrade 0 5.

(** Two losing trades, and two winning ones. *)
Definition twoLosers : list Trade := [closedTrade (-1) 1; closedTrade (-2) 2].
Definition twoWinners : list Trade := [closedTrade 1 1; closedTrade 2 2].

(** The first sample trade of the dashboard: long 100 AAPL, 150.25 to
    155.50, commission 5, stop 148, target 155, account 10000. *)
Definition aapl : Trade :=
  mkTrade (mkSource None (Some "stocks") (Some "AAPL") (Some "long")
                    (Some "closed") (Some 100) (Some (15025 # 100))
                    (Instant 10) (Some (1555 # 10)) (Instant 20) (Some 5)
                    (Some 148) (Some 155) (Some 10000) None None)
          noDerived.

(** The same position, still open: no exit price. *)
Definition aaplOpen : Trade :=
  mkTrade (mkSource None (Some "stocks") (Some "AAPL") (Some "long")
                    (Some "open") (Some 100) (Some (15025 # 100))
                    (Instant 10) None NoDate (Some 5)
                    (Some 148) (Some 155) (Some 10000) None None)
          noDerived.

(** A cancelled trade that carries an exit price: long 1 unit, 100 to 110. *)
Definition cancelledWithExit : Trade :=
  mkTrade (mkSource None (Some "stocks") (Some "AAPL") (Some "long")
                    (Some "cancelled") (Some 1) (Some 100)
                    (Instant 10) (Some 110) (Instant 20) None
                    None None None None None)
          noDerived.

(** A closed trade object whose entry price is 0. *)
Definition zeroEntry : Trade :=
  mkTrade (mkSource None (Some "stocks") (Some "AAPL") (Some "long")
                    (Some "closed") (Some 10) (Some 0)
                    (Instant 10) (Some 5) (Instant 20) None
                    None None None None None)
          noDerived.

(** A long trade whose stop loss (160) is above its entry price (150). *)
Definition longStopAbove : Trade :=
  mkTrade (mkSource None (Some "stocks") (Some "AAPL") (Some "long")
                    (Some "open") (Some 10) (Some 150)
                    (Instant 10) None NoDate None
                    (Some 160) None None None None)
          noDerived.

(** A short trade whose take profit (160) is above its entry price (150). *)
Definition shortTargetAbove : Trade :=
  mkTrade (mkSource None (Some "stocks") (Some "AAPL") (Some "short")
                    (Some "open") (Some 10) (Some 150)
                    (Instant 10) None NoDate None
                    None (Some 160) None None None)
          noDerived.

(** The first sample trade without an account size of its own. *)
Definition aaplNoAccount : Trade :=
  mkTrade (mkSource None (Some "stocks") (Some "AAPL") (Some "long")
                    (Some "closed") (Some 100) (Some (15025 # 100))
                    (Instant 10) (Some (1555 # 10)) (Instant 20) (Some 5)
                    (Some 148) (Some 155) None None None)
          noDerived.

(** Settings in which the user has set the account size to 50000. *)
Definition largeAccount : Settings := mkSettings (Some 50000) (Some 2).

(** An object with no field at all: it fails validation. *)
Definition invalidData : Trade := emptyTrade.

(** An update that sets the exit price to 156. *)
Definition exitAt156 : Updates :=
  mkUpdates None None None None None None None None (Some (Some 156)) None
            None None None None None None None None None None None None.

(** An update that sets the position size to 0: it fails validation. *)
Definition sizeToZero : Updates :=
  mkUpdates None None None None None (Some (Some 0)) None None None None
            None None None None None None None None None None None None.

(** The first sample trade as [addTrade] stores it. *)
Definition storedAapl : Trade :=
  DataManager.recalculate (newTradeObject "trade_1" 30 30 aapl).

(** The same trade after the update of its exit price at instant 40. *)
Definition updatedAapl : Trade :=
  DataManager.recalculate (withUpdatedAt 40 (spread storedAapl exitAt156)).

(** The store after the first sample trade has been added. *)
Definition oneTradeStore : Store :=
  fst (DataManager.addTrade "trade_1" 30 30 aapl []).

(** The first sample trade with 10 shares: its value fits the account. *)
Definition aaplTenShares : Trade :=
  mkTrade (mkSource None (Some "stocks") (Some "AAPL") (Some "long")
                    (Some "closed") (Some 10) (Some (15025 # 100))
                    (Instant 10) (Some (1555 # 10)) (Instant 20) (Some 5)
                    (Some 148) (Some 155) (Some 10000) None None)
          noDerived.

(** The first sample trade, closed and stored, with its journal entries. *)
Definition journalAapl : JournalTrade :=
  mkJournalTrade storedAapl (Some "Momentum Breakout") (Some "calm").

(** A closed winning trade entered with no strategy. *)
Definition journalUntagged : JournalTrade :=
  mkJournalTrade (closedTrade 5 7) None (Some "calm").

(** A closed trade whose strategy is named "__proto__". *)
Definition journalProto : JournalTrade :=
  mkJournalTrade (closedTrade 3 8) (Some "__proto__") (Some "calm").

(** A calendar for the examples: every exit instant below 2 falls in
    January 2024, every other one in February. *)
Definition sampleMonthKey (d : date) : string :=
  match d with
  | Instant ms => if (ms <? 2)%Z then "2024-01" else "2024-02"
  | _ => "NaN-NaN"
  end.

End Samples.

(** * Properties *)

(** ** Numbers, fields and text *)

Section NumberFacts.

Lemma Qltb_lt (a b : Q) : Qltb a b = true <-> a < b.
Proof.
  unfold Qltb. rewrite negb_true_iff. split; intro H.
  - apply Qnot_le_lt. intro Hle. apply Qle_bool_iff in Hle. congruence.
  - destruct (Qle_bool b a) eqn:E; [|reflexivity].
    apply Qle_bool_iff in E. exfalso. apply (Qlt_not_le _ _ H E).
Qed.

Lemma Qltb_ge (a b : Q) : Qltb a b = false <-> b <= a.
Proof.
  unfold Qltb. rewrite negb_false_iff. apply Qle_bool_iff.
Qed.

Lemma Qltb_irrefl (a : Q) : Qltb a a = false.
Proof. apply Qltb_ge. apply Qle_refl. Qed.

Lemma isZero_false (q : Q) : isZero q = false <-> ~ q == 0.
Proof.
  unfold isZero. split; intro H.
  - apply Qeq_bool_neq. exact H.
  - destruct (Qeq_bool q 0) eqn:E; [|reflexivity].
    apply Qeq_bool_iff in E. contradiction.
Qed.

Lemma le_Fin (a b : Q) : a <= b -> le (Fin a) (Fin b) = true.
Proof.
  intro H. unfold le, lt. apply negb_true_iff. apply Qltb_ge. exact H.
Qed.

(** [Math.max] on two finite numbers is the maximum of the rationals. *)
Lemma max_Fin (a b : Q) : max (Fin a) (Fin b) = Fin (Qmax a b).
Proof.
  unfold max, lt, Qltb, Qmax, GenericMinMax.gmax, Qle_bool, Qcompare.
  destruct (Z.compare_spec (Qnum a * QDen b) (Qnum b * QDen a));
    destruct (Z.leb_spec (Qnum b * QDen a) (Qnum a * QDen b));
    simpl; try reflexivity; lia.
Qed.

Lemma sub_Fin (a b : Q) : sub (Fin a) (Fin b) = Fin (a - b).
Proof. reflexivity. Qed.

Lemma eqv_refl (x : num) : eqv x x.
Proof. destruct x; simpl; auto. apply Qeq_refl. Qed.

Lemma textIs_true (s : text) (lit : string) :
  textIs s lit = true <-> s = Some lit.
Proof.
  destruct s as [v|]; simpl.
  - rewrite String.eqb_eq. split; [intros ->; reflexivity|].
    intro H. injection H. auto.
  - split; discriminate.
Qed.

End NumberFacts.

(** ** Profit/loss of a trade that is open or has no exit price *)

Section ProfitLossGuards.

(** The first test of the four functions: it fires on a status "open" and
    on an exit price that is absent or 0. *)
Lemma exit_guard_fires (trade : Trade) :
  textIs (status trade) "open" = true \/ present (exitPrice trade) = false ->
  (negb (present (exitPrice trade)) || textIs (status trade) "open")%bool = true.
Proof.
  intros [H|H]; rewrite H; [apply orb_true_r | reflexivity].
Qed.

Lemma calculator_percent_zero_on_guard (trade : Trade) :
  textIs (status trade) "open" = true \/ present (exitPrice trade) = false ->
  Calculator.calculateProfitLossPercent trade = Fin 0.
Proof.
  intro H. unfold Calculator.calculateProfitLossPercent.
  rewrite (exit_guard_fires trade H). reflexivity.
Qed.

Lemma dataManager_percent_zero_on_guard (trade : Trade) :
  textIs (status trade) "open" = true \/ present (exitPrice trade) = false ->
  DataManager.calculateProfitLossPercent trade = Fin 0.
Proof.
  intro H. unfold DataManager.calculateProfitLossPercent.
  rewrite (exit_guard_fires trade H). reflexivity.
Qed.

(** C2, as the code has it: the store's and the calculator's [calculateProfitLoss]
    and [calculateProfitLossPercent] return exactly 0 for every trade whose
    status is "open" or whose exit price is absent (or 0, which the test
    [!trade.exitPrice] also catches). *)
Theorem profitLoss_zero_when_open_or_no_exit (trade : Trade) :
  textIs (status trade) "open" = true \/ present (exitPrice trade) = false ->
  DataManager.calculateProfitLoss trade = Fin 0
  /\ DataManager.calculateProfitLossPercent trade = Fin 0
  /\ Calculator.calculateProfitLoss trade = Fin 0
  /\ Calculator.calculateProfitLossPercent trade = Fin 0.
Proof.
  intro H. split; [|split; [|split]].
  - unfold DataManager.calculateProfitLoss.
    rewrite (exit_guard_fires trade H). reflexivity.
  - apply dataManager_percent_zero_on_guard. exact H.
  - unfold Calculator.calculateProfitLoss.
    rewrite (exit_guard_fires trade H). reflexivity.
  - apply calculator_percent_zero_on_guard. exact H.
Qed.

Lemma profitLoss_zero_when_open_or_no_exit_witness :
  DataManager.calculateProfitLoss Samples.aaplOpen = Fin 0
  /\ DataManager.calculateProfitLossPercent Samples.aaplOpen = Fin 0
  /\ Calculator.calculateProfitLoss Samples.aaplOpen = Fin 0
  /\ Calculator.calculateProfitLossPercent Samples.aaplOpen = Fin 0.
Proof.
  apply (profitLoss_zero_when_open_or_no_exit Samples.aaplOpen).
  left. reflexivity.
Defined.

(** C2 as stated fails: a cancelled trade is not closed, yet once it
    carries an exit price both implementations compute its profit/loss
    (here (110 - 100) * 1 = 10). *)
Lemma profitLoss_cancelled_with_exit_nonzero :
  isClosed Samples.cancelledWithExit = false
  /\ DataManager.calculateProfitLoss Samples.cancelledWithExit = Fin 10
  /\ Calculator.calculateProfitLoss Samples.cancelledWithExit = Fin 10
  /\ ~ (forall trade : Trade,
          isClosed trade = false \/ exitPrice trade = None ->
          DataManager.calculateProfitLoss trade = Fin 0).
Proof.
  repeat split; try reflexivity.
  intro H. specialize (H Samples.cancelledWithExit (or_introl eq_refl)).
  vm_compute in H. discriminate H.
Qed.

End ProfitLossGuards.

(** ** The percentage and its division *)

Section ProfitLossPercent.




(** The store's function has no test on the entry value: on the closed
    trade object whose entry price is 0 it divides by zero. *)
Lemma dataManager_profitLossPercent_zero_entry :
  DataManager.calculateProfitLossPercent Samples.zeroEntry = PInf
  /\ Calculator.calculateProfitLossPercent Samples.zeroEntry = Fin 0.
Proof. split; reflexivity. Qed.

End ProfitLossPercent.

(** ** Validation of the side of stop loss and take profit *)

Section ValidationSides.

Lemma check_app (failed : bool) (message : string) (errors : list string) :
  check failed message errors = errors ++ (if failed then [message] else []).
Proof.
  unfold check. destruct failed; [reflexivity | symmetry; apply app_nil_r].
Qed.

(** The store's validator runs every rule and collects the messages of all
    those violated, in order: no rule hides another. *)
Lemma validateTrade_collects (trade : Trade) :
  DataManager.validateTrade trade = violations (storeRules trade).
Proof.
  unfold DataManager.validateTrade, violations, storeRules.
  rewrite !check_app. cbn [flat_map fst snd app].
  rewrite <- !app_assoc, app_nil_r. reflexivity.
Qed.

Lemma violations_nil (rules : list (bool * string)) :
  violations rules = []
  <-> Forall (fun rule : bool * string => fst rule = false) rules.
Proof.
  unfold violations. induction rules as [|[c m] r IH]; cbn [flat_map fst snd].
  - split; [constructor | reflexivity].
  - destruct c; cbn [app].
    + split; [discriminate | intro H; inversion H; discriminate].
    + rewrite IH. split; [constructor; auto | intro H; inversion H; auto].
Qed.

Lemma in_check_keep (m failed_m : string) (failed : bool) (errors : list string) :
  In m errors -> In m (check failed failed_m errors).
Proof.
  intro H. rewrite check_app. apply in_or_app. left. exact H.
Qed.

Lemma in_check_new (m : string) (errors : list string) :
  In m (check true m errors).
Proof.
  rewrite check_app. apply in_or_app. right. left. reflexivity.
Qed.

(** The form's validator reports every stop loss on the wrong side. *)
Lemma validateFormData_reports_stop (formData : Trade) :
  stopOnProfitSide formData = true ->
  In TradeForm.stopLossMessage (TradeForm.validateFormData formData).
Proof.
  unfold stopOnProfitSide. intro H.
  apply andb_true_iff in H. destruct H as [Hp Hside].
  unfold TradeForm.validateFormData. cbv zeta. rewrite Hp, Hside. cbv iota.
  repeat first
    [ apply in_check_new
    | apply in_check_keep
    | match goal with
      | |- In _ (if ?c then _ else _) => destruct c
      end ].
Qed.

(** The form's validator reports every take profit on the wrong side. *)
Lemma validateFormData_reports_target (formData : Trade) :
  targetOnLossSide formData = true ->
  In TradeForm.takeProfitMessage (TradeForm.validateFormData formData).
Proof.
  unfold targetOnLossSide. intro H.
  apply andb_true_iff in H. destruct H as [Hp Hside].
  unfold TradeForm.validateFormData. cbv zeta. rewrite Hp, Hside. cbv iota.
  repeat first
    [ apply in_check_new
    | apply in_check_keep
    | match goal with
      | |- In _ (if ?c then _ else _) => destruct c
      end ].
Qed.

(** C4 on the store's validator.  [validateTrade] returns the messages of
    its eleven rules that are violated, all of them and in order, and no
    rule looks at the side of the stop loss or of the take profit: a long
    trade with its stop loss above the entry price, and a short trade with
    its take profit above the entry price, pass it with no message at all,
    and [addTrade] stores the first.  The form's [validateFormData] reports
    every trade of either kind. *)
Theorem validateTrade_accepts_wrong_side :
  (forall trade : Trade,
     DataManager.validateTrade trade = violations (storeRules trade))
  /\ (forall formData : Trade,
        stopOnProfitSide formData = true ->
        In TradeForm.stopLossMessage (TradeForm.validateFormData formData))
  /\ (forall formData : Trade,
        targetOnLossSide formData = true ->
        In TradeForm.takeProfitMessage (TradeForm.validateFormData formData))
  /\ stopOnProfitSide Samples.longStopAbove = true
  /\ targetOnLossSide Samples.shortTargetAbove = true
  /\ DataManager.validateTrade Samples.longStopAbove = []
  /\ DataManager.validateTrade Samples.shortTargetAbove = []
  /\ TradeForm.validateFormData Samples.longStopAbove
     = [TradeForm.stopLossMessage]
  /\ TradeForm.validateFormData Samples.shortTargetAbove
     = [TradeForm.takeProfitMessage]
  /\ exists stored,
       DataManager.addTrade "trade_2" 30 30 Samples.longStopAbove []
       = ([stored], Returned stored)
       /\ stopLoss stored = Some 160 /\ entryPrice stored = Some 150
       /\ direction stored = Some "long"%string.
Proof.
  split; [exact validateTrade_collects|].
  split; [exact validateFormData_reports_stop|].
  split; [exact validateFormData_reports_target|].
  do 6 (split; [reflexivity|]).
  eexists. split; [vm_compute; reflexivity|].
  repeat split; reflexivity.
Qed.

Lemma validateTrade_accepts_wrong_side_witness :
  In TradeForm.stopLossMessage
     (TradeForm.validateFormData Samples.longStopAbove)
  /\ In TradeForm.takeProfitMessage
        (TradeForm.validateFormData Samples.shortTargetAbove).
Proof.
  split.
  - apply (proj1 (proj2 validateTrade_accepts_wrong_side)
                 Samples.longStopAbove).
    reflexivity.
  - apply (proj1 (proj2 (proj2 validateTrade_accepts_wrong_side))
                 Samples.shortTargetAbove).
    reflexivity.
Defined.

End ValidationSides.

(** ** The account size behind the risk percentage *)

Section RiskPercent.

(** The calculator follows the settings it was built with. *)
Lemma calculator_riskPercent_uses_settings (settings : Settings) (trade : Trade) :
  present (accountSize trade) = false ->
  Calculator.calculateRiskPercent settings trade
  = if strictZero (toNum (settingsAccountSize settings)) then Fin 0
    else mul (div (Calculator.calculateRiskAmount trade)
                  (toNum (settingsAccountSize settings))) (Fin 100).
Proof.
  intro H. unfold Calculator.calculateRiskPercent, fieldOr.
  rewrite H. reflexivity.
Qed.

(** The store divides by 10000 whatever the settings are. *)
Lemma dataManager_riskPercent_uses_literal (trade : Trade) :
  present (accountSize trade) = false ->
  DataManager.calculateRiskPercent trade
  = mul (div (DataManager.calculateRiskAmount trade) (Fin 10000)) (Fin 100).
Proof.
  intro H. unfold DataManager.calculateRiskPercent, fieldOr.
  rewrite H. reflexivity.
Qed.

(** C8 on the store.  For a trade with no account size of its own the
    store's [calculateRiskPercent] divides the risk amount by the literal
    10000, whatever the settings hold, where the calculator's divides by the
    account size of the settings (and returns 0 when that is 0).  With the
    account size set to 50000 and a risk amount of 225 the store returns
    225 / 10000 * 100 = 2.25 and the calculator 225 / 50000 * 100 = 0.45. *)
Theorem dataManager_riskPercent_ignores_settings :
  (forall trade : Trade,
     present (accountSize trade) = false ->
     DataManager.calculateRiskPercent trade
     = mul (div (DataManager.calculateRiskAmount trade) (Fin 10000)) (Fin 100))
  /\ (forall (settings : Settings) (trade : Trade),
        present (accountSize trade) = false ->
        Calculator.calculateRiskPercent settings trade
        = if strictZero (toNum (settingsAccountSize settings)) then Fin 0
          else mul (div (Calculator.calculateRiskAmount trade)
                        (toNum (settingsAccountSize settings))) (Fin 100))
  /\ accountSize Samples.aaplNoAccount = None
  /\ settingsAccountSize Samples.largeAccount = Some 50000
  /\ eqv (DataManager.calculateRiskAmount Samples.aaplNoAccount) (Fin 225)
  /\ eqv (DataManager.calculateRiskPercent Samples.aaplNoAccount) (Fin (225 # 100))
  /\ eqv (Calculator.calculateRiskPercent Samples.largeAccount Samples.aaplNoAccount)
         (Fin (45 # 100)).
Proof.
  split; [exact dataManager_riskPercent_uses_literal|].
  split; [exact calculator_riskPercent_uses_settings|].
  repeat split; reflexivity.
Qed.

Lemma dataManager_riskPercent_ignores_settings_witness :
  DataManager.calculateRiskPercent Samples.aaplNoAccount
  = mul (div (DataManager.calculateRiskAmount Samples.aaplNoAccount)
             (Fin 10000)) (Fin 100)
  /\ Calculator.calculateRiskPercent Samples.largeAccount Samples.aaplNoAccount
     = mul (div (Calculator.calculateRiskAmount Samples.aaplNoAccount)
                (Fin 50000)) (Fin 100).
Proof.
  split.
  - apply (proj1 dataManager_riskPercent_ignores_settings
                 Samples.aaplNoAccount).
    reflexivity.
  - apply (proj1 (proj2 dataManager_riskPercent_ignores_settings)
                 Samples.largeAccount Samples.aaplNoAccount).
    reflexivity.
Defined.

End RiskPercent.

(** ** Sorting *)

Section Sorting.

Context {A : Type} (compare : A -> A -> num).

Lemma insertSorted_Forall (P : A -> Prop) (x : A) (l : list A) :
  P x -> Forall P l -> Forall P (insertSorted compare x l).
Proof.
  intros Hx Hl. induction Hl as [|y r Hy Hr IH]; cbn [insertSorted].
  - constructor; [exact Hx | constructor].
  - destruct (gt (compare x y) (Fin 0)).
    + constructor; assumption.
    + constructor; [exact Hx|]. constructor; assumption.
Qed.

(** Sorting keeps every property that holds of all the elements. *)
Lemma sortBy_Forall (P : A -> Prop) (l : list A) :
  Forall P l -> Forall P (sortBy compare l).
Proof.
  intro H. induction H as [|x r Hx Hr IH]; simpl.
  - constructor.
  - apply insertSorted_Forall; assumption.
Qed.

Lemma insertSorted_length (x : A) (l : list A) :
  List.length (insertSorted compare x l) = S (List.length l).
Proof.
  induction l as [|y r IH]; cbn [insertSorted]; [reflexivity|].
  destruct (gt (compare x y) (Fin 0)); cbn [List.length]; [rewrite IH|];
    reflexivity.
Qed.

Lemma sortBy_length (l : list A) :
  List.length (sortBy compare l) = List.length l.
Proof.
  induction l as [|x r IH]; simpl; [reflexivity|].
  rewrite insertSorted_length, IH. reflexivity.
Qed.

End Sorting.

(** ** Streaks *)

Section Streaks.

Lemma winner_not_loser (t : Trade) : isWinner t = true -> isLoser t = false.
Proof.
  unfold isWinner, isLoser, gt.
  destruct (profitLoss t) as [q| | |]; simpl; try discriminate; try reflexivity.
  intro H. apply Qltb_lt in H. apply Qltb_ge. apply Qlt_le_weak. exact H.
Qed.

Lemma loser_not_winner (t : Trade) : isLoser t = true -> isWinner t = false.
Proof.
  intro H. destruct (isWinner t) eqn:E; [|reflexivity].
  apply winner_not_loser in E. congruence.
Qed.

Lemma streakStep_eq (t b w : Z) (x : Trade) :
  DataManager.streakStep (t, b, w) x
  = let t' :=
      if gt (profitLoss x) (Fin 0)
      then (if (0 <=? t)%Z then t + 1 else 1)%Z
      else if lt (profitLoss x) (Fin 0)
      then (if (t <=? 0)%Z then t - 1 else -1)%Z
      else t in
    (t', Z.max b t', Z.min w t').
Proof. reflexivity. Qed.

(** The loop keeps [bestStreak] at or above 0 and [worstStreak] at or
    below 0. *)
Lemma streak_loop_signs (l : list Trade) :
  forall t b w : Z,
    (0 <= b)%Z -> (w <= 0)%Z ->
    (0 <= snd (fst (fold_left DataManager.streakStep l (t, b, w))))%Z
    /\ (snd (fold_left DataManager.streakStep l (t, b, w)) <= 0)%Z.
Proof.
  induction l as [|x r IH]; intros t b w Hb Hw; cbn [fold_left].
  - split; assumption.
  - rewrite streakStep_eq. cbv zeta. apply IH; lia.
Qed.

(** With no winner in sight the counter never rises above 0. *)
Lemma streak_loop_no_winner (l : list Trade) :
  Forall (fun x => isWinner x = false) l ->
  forall t w : Z,
    (t <= 0)%Z ->
    snd (fst (fold_left DataManager.streakStep l (t, 0%Z, w))) = 0%Z.
Proof.
  intro H. induction H as [|x r Hx Hr IH]; intros t w Ht; cbn [fold_left].
  - reflexivity.
  - rewrite streakStep_eq. cbv zeta. unfold isWinner in Hx. rewrite Hx.
    destruct (lt (profitLoss x) (Fin 0)).
    + destruct (Z.leb_spec t 0); [|lia].
      replace (Z.max 0 (t - 1)) with 0%Z by lia. apply IH. lia.
    + replace (Z.max 0 t) with 0%Z by lia. apply IH. exact Ht.
Qed.

(** With no loser in sight the counter never falls below 0. *)
Lemma streak_loop_no_loser (l : list Trade) :
  Forall (fun x => isLoser x = false) l ->
  forall t b : Z,
    (0 <= t)%Z ->
    snd (fold_left DataManager.streakStep l (t, b, 0%Z)) = 0%Z.
Proof.
  intro H. induction H as [|x r Hx Hr IH]; intros t b Ht; cbn [fold_left].
  - reflexivity.
  - rewrite streakStep_eq. cbv zeta. unfold isLoser in Hx. rewrite Hx.
    destruct (gt (profitLoss x) (Fin 0)).
    + destruct (Z.leb_spec 0 t); [|lia].
      replace (Z.min 0 (t + 1)) with 0%Z by lia. apply IH. lia.
    + replace (Z.min 0 t) with 0%Z by lia. apply IH. exact Ht.
Qed.

(** The three results of [calculateStreaks] in terms of its loop. *)
Lemma calculateStreaks_unfold (trades : list Trade) :
  trades <> [] ->
  let final := fold_left DataManager.streakStep
                 (sortBy DataManager.byExitDateDescending trades) (0, 0, 0)%Z in
  DataManager.calculateStreaks trades
  = mkStreaks (fst (fst final)) (snd (fst final)) (snd final).
Proof.
  intro Hne. unfold DataManager.calculateStreaks.
  destruct trades as [|x r]; [contradiction|].
  cbn [List.length Nat.eqb].
  destruct (fold_left _ _ _) as [[t b] w]. reflexivity.
Qed.

Lemma calculateStreaks_signs (trades : list Trade) :
  (0 <= best (DataManager.calculateStreaks trades))%Z
  /\ (worst (DataManager.calculateStreaks trades) <= 0)%Z.
Proof.
  destruct trades as [|x r].
  - simpl. lia.
  - rewrite calculateStreaks_unfold by discriminate. cbn [best worst].
    apply streak_loop_signs; lia.
Qed.

Lemma calculateStreaks_no_winner (trades : list Trade) :
  Forall (fun x => isWinner x = false) trades ->
  best (DataManager.calculateStreaks trades) = 0%Z.
Proof.
  intro H. destruct trades as [|x r]; [reflexivity|].
  rewrite calculateStreaks_unfold by discriminate. cbn [best].
  apply streak_loop_no_winner; [|lia].
  apply sortBy_Forall. exact H.
Qed.

Lemma calculateStreaks_no_loser (trades : list Trade) :
  Forall (fun x => isLoser x = false) trades ->
  worst (DataManager.calculateStreaks trades) = 0%Z.
Proof.
  intro H. destruct trades as [|x r]; [reflexivity|].
  rewrite calculateStreaks_unfold by discriminate. cbn [worst].
  apply streak_loop_no_loser; [|lia].
  apply sortBy_Forall. exact H.
Qed.

(** The streak fields of the summary are those of [calculateStreaks] on the
    closed trades. *)
Lemma summaryOf_streaks (trades : list Trade) :
  let streaks := DataManager.calculateStreaks (filter isClosed trades) in
  currentStreak (DataManager.summaryOf trades) = current streaks
  /\ bestStreak (DataManager.summaryOf trades) = best streaks
  /\ worstStreak (DataManager.summaryOf trades) = worst streaks.
Proof.
  unfold DataManager.summaryOf.
  destruct trades as [|x r]; [repeat split; reflexivity|].
  cbn [List.length Nat.eqb]. repeat split; reflexivity.
Qed.

Lemma closed_all (P : Trade -> Prop) (trades : list Trade) :
  Forall (fun t => isClosed t = true -> P t) trades ->
  Forall P (filter isClosed trades).
Proof.
  intro H. induction H as [|x r Hx Hr IH]; simpl.
  - constructor.
  - destruct (isClosed x) eqn:E; [constructor; auto | exact IH].
Qed.

(** C10.  [calculateStreaks] returns [best >= 0] and [worst <= 0] on every
    collection; when every trade it is given has a negative profit/loss
    [best] is 0, and when every one has a positive profit/loss [worst] is 0.
    The same holds of [bestStreak] and [worstStreak] in the performance
    summary, which runs it on the closed trades of the collection. *)
Theorem streak_extremes_signs :
  (forall trades : list Trade,
     (0 <= best (DataManager.calculateStreaks trades))%Z
     /\ (worst (DataManager.calculateStreaks trades) <= 0)%Z)
  /\ (forall trades : list Trade,
        Forall (fun t => isLoser t = true) trades ->
        best (DataManager.calculateStreaks trades) = 0%Z)
  /\ (forall trades : list Trade,
        Forall (fun t => isWinner t = true) trades ->
        worst (DataManager.calculateStreaks trades) = 0%Z)
  /\ (forall trades : list Trade,
        (0 <= bestStreak (DataManager.summaryOf trades))%Z
        /\ (worstStreak (DataManager.summaryOf trades) <= 0)%Z)
  /\ (forall trades : list Trade,
        Forall (fun t => isClosed t = true -> isLoser t = true) trades ->
        bestStreak (DataManager.summaryOf trades) = 0%Z)
  /\ (forall trades : list Trade,
        Forall (fun t => isClosed t = true -> isWinner t = true) trades ->
        worstStreak (DataManager.summaryOf trades) = 0%Z).
Proof.
  split; [exact calculateStreaks_signs|].
  split.
  { intros trades H. apply calculateStreaks_no_winner.
    eapply Forall_impl; [|exact H]. intros t. apply loser_not_winner. }
  split.
  { intros trades H. apply calculateStreaks_no_loser.
    eapply Forall_impl; [|exact H]. intros t. apply winner_not_loser. }
  split.
  { intro trades. destruct (summaryOf_streaks trades) as [_ [Hb Hw]].
    rewrite Hb, Hw. apply calculateStreaks_signs. }
  split.
  { intros trades H. destruct (summaryOf_streaks trades) as [_ [Hb _]].
    rewrite Hb. apply calculateStreaks_no_winner.
    eapply Forall_impl; [|apply closed_all; exact H].
    intros t. apply loser_not_winner. }
  { intros trades H. destruct (summaryOf_streaks trades) as [_ [_ Hw]].
    rewrite Hw. apply calculateStreaks_no_loser.
    eapply Forall_impl; [|apply closed_all; exact H].
    intros t. apply winner_not_loser. }
Qed.

Lemma streak_extremes_signs_witness :
  best (DataManager.calculateStreaks Samples.twoLosers) = 0%Z
  /\ worst (DataManager.calculateStreaks Samples.twoWinners) = 0%Z
  /\ bestStreak (DataManager.summaryOf Samples.twoLosers) = 0%Z
  /\ worstStreak (DataManager.summaryOf Samples.twoWinners) = 0%Z.
Proof.
  split; [|split; [|split]].
  - apply (proj1 (proj2 streak_extremes_signs) Samples.twoLosers).
    repeat constructor.
  - apply (proj1 (proj2 (proj2 streak_extremes_signs)) Samples.twoWinners).
    repeat constructor.
  - apply (proj1 (proj2 (proj2 (proj2 (proj2 streak_extremes_signs))))
                 Samples.twoLosers).
    repeat constructor.
  - apply (proj2 (proj2 (proj2 (proj2 (proj2 streak_extremes_signs))))
                 Samples.twoWinners).
    repeat constructor.
Defined.

End Streaks.

(** ** Which end of the history the current streak is read at *)

Section CurrentStreak.

Lemma descending_comparator (a b : Trade) (ta tb : Z) :
  exitDate a = Instant ta -> exitDate b = Instant tb ->
  gt (DataManager.byExitDateDescending a b) (Fin 0) = (ta <? tb)%Z.
Proof.
  intros Ha Hb. unfold DataManager.byExitDateDescending. rewrite Ha, Hb.
  cbn [timeOf]. rewrite sub_Fin. unfold gt. cbn [lt].
  destruct (Z.ltb_spec ta tb) as [H|H].
  - apply Qltb_lt. rewrite Zlt_Qlt in H. lra.
  - apply Qltb_ge. rewrite Zle_Qle in H. lra.
Qed.

Lemma insertSorted_behind_all {A : Type} (c : A -> A -> num) (x : A) (l : list A) :
  Forall (fun y => gt (c x y) (Fin 0) = true) l ->
  insertSorted c x l = l ++ [x].
Proof.
  intro H. induction H as [|y r Hy Hr IH]; cbn [insertSorted app].
  - reflexivity.
  - rewrite Hy, IH. reflexivity.
Qed.

Lemma exitsAt_Forall (l : list Trade) (ms : list Z) (P : Z -> Prop) :
  exitsAt l ms -> Forall P ms ->
  Forall (fun t : Trade => exists m, exitDate t = Instant m /\ P m) l.
Proof.
  intro H. induction H as [|t m r rs Ht Hr IH]; intro HP.
  - constructor.
  - inversion HP; subst. constructor; [exists m; auto | auto].
Qed.

(** [calculateStreaks] scans a chronological history backwards. *)
Lemma streaks_scan_backwards (l : list Trade) (ms : list Z) :
  exitsAt l ms -> increasing ms ->
  sortBy DataManager.byExitDateDescending l = rev l.
Proof.
  intro H. induction H as [|t m r rs Ht Hr IH]; intro Hinc.
  - reflexivity.
  - destruct Hinc as [Hlt Hinc]. cbn [sortBy fold_right rev].
    fold (sortBy DataManager.byExitDateDescending r). rewrite (IH Hinc).
    apply insertSorted_behind_all.
    apply Forall_rev.
    eapply Forall_impl; [|exact (exitsAt_Forall r rs _ Hr Hlt)].
    intros y [my [Hy Hmy]]. cbv beta.
    rewrite (descending_comparator t y m my Ht Hy).
    apply Z.ltb_lt. exact Hmy.
Qed.

(** The counter of the loop on trades of finite profit/loss is the
    specification's streak over the sequence scanned. *)
Lemma streak_loop_counter (l : list Trade) (pls : list Q) :
  map (fun t : Trade => profitLoss t) l = map Fin pls ->
  forall t b w : Z,
    fst (fst (fold_left DataManager.streakStep l (t, b, w)))
    = Spec.streakEndingAt pls t.
Proof.
  revert pls. induction l as [|x r IH]; intros [|q qs] H t b w;
    try discriminate H.
  - reflexivity.
  - cbn [map] in H. injection H as Hx Hr.
    cbn [fold_left Spec.streakEndingAt]. rewrite streakStep_eq. cbv zeta.
    rewrite (IH qs Hr). rewrite Hx. reflexivity.
Qed.

(** On a history given in chronological order, [calculateStreaks] returns
    as [current] the streak of the history read backwards: the run that
    ends at the earliest exit. *)
Lemma calculateStreaks_current_backwards (l : list Trade) (ms : list Z)
      (pls : list Q) :
  exitsAt l ms -> increasing ms ->
  map (fun t : Trade => profitLoss t) l = map Fin pls ->
  current (DataManager.calculateStreaks l) = Spec.streakEndingAt (rev pls) 0.
Proof.
  intros Hex Hinc Hpl. destruct l as [|x r].
  - destruct pls; [reflexivity | discriminate Hpl].
  - rewrite calculateStreaks_unfold by discriminate. cbn [current].
    rewrite (streaks_scan_backwards _ _ Hex Hinc).
    apply streak_loop_counter.
    rewrite map_rev, Hpl, map_rev. reflexivity.
Qed.

(** C1 on the code.  On every history given in chronological order (exit
    instants strictly increasing, profit/loss finite) [calculateStreaks]
    returns as [current] the streak of the history read backwards, the run
    ending at the earliest exit.  For +1, +1, -1, +1 the streak ending at
    the most recent exit is +1, and [calculateStreaks] returns [current = 2]
    (with [best = 2], [worst = -1]), both directly and through the
    performance summary, in whatever order the four trades are passed. *)
Theorem calculateStreaks_current_is_earliest_run :
  (forall (history : list Trade) (ms : list Z) (pls : list Q),
     exitsAt history ms -> increasing ms ->
     map (fun t : Trade => profitLoss t) history = map Fin pls ->
     current (DataManager.calculateStreaks history)
     = Spec.streakEndingAt (rev pls) 0)
  /\ Spec.streakEndingAt [1; 1; -1; 1] 0 = 1%Z
  /\ Spec.streakEndingAt (rev [1; 1; -1; 1]) 0 = 2%Z
  /\ DataManager.calculateStreaks Samples.fourTrades = mkStreaks 2 2 (-1)
  /\ DataManager.calculateStreaks (rev Samples.fourTrades) = mkStreaks 2 2 (-1)
  /\ currentStreak (DataManager.summaryOf Samples.fourTrades) = 2%Z
  /\ bestStreak (DataManager.summaryOf Samples.fourTrades) = 2%Z
  /\ worstStreak (DataManager.summaryOf Samples.fourTrades) = (-1)%Z.
Proof.
  split; [exact calculateStreaks_current_backwards|].
  repeat split; vm_compute; reflexivity.
Qed.

Lemma calculateStreaks_current_is_earliest_run_witness :
  current (DataManager.calculateStreaks Samples.fourTrades)
  = Spec.streakEndingAt (rev [1; 1; -1; 1]) 0.
Proof.
  apply (proj1 calculateStreaks_current_is_earliest_run
               Samples.fourTrades [1; 2; 3; 4]%Z [1; 1; -1; 1]).
  - repeat constructor.
  - cbn [increasing]. repeat split; repeat constructor.
  - reflexivity.
Defined.

End CurrentStreak.

(** ** Maximum drawdown *)

Section Drawdown.

(** The two classes have the same loop body. *)
Lemma drawdownStep_same :
  Calculator.drawdownStep = DataManager.drawdownStep.
Proof. reflexivity. Qed.

Lemma byExitDateAscending_same :
  Calculator.byExitDateAscending = DataManager.byExitDateAscending.
Proof. reflexivity. Qed.

Lemma drawdownStep_eq (p m r : num) (x : Trade) :
  DataManager.drawdownStep (p, m, r) x
  = let r' := add r (profitLoss x) in
    let p' := max p r' in
    (p', max m (sub p' r'), r').
Proof. reflexivity. Qed.

(** The running maximum dominates its start and every element, and is one
    of them. *)
Lemma running_max_ge_start (ds : list Q) :
  forall m : Q, m <= fold_left Qmax ds m.
Proof.
  induction ds as [|d r IH]; intro m; cbn [fold_left].
  - apply Qle_refl.
  - eapply Qle_trans; [apply Q.le_max_l | apply IH].
Qed.

Lemma running_max_ge_all (ds : list Q) :
  forall m : Q, Forall (fun d => d <= fold_left Qmax ds m) ds.
Proof.
  induction ds as [|d r IH]; intro m; cbn [fold_left].
  - constructor.
  - constructor; [|apply IH].
    eapply Qle_trans; [apply Q.le_max_r | apply running_max_ge_start].
Qed.

Lemma running_max_attained (ds : list Q) :
  forall m : Q, fold_left Qmax ds m = m \/ In (fold_left Qmax ds m) ds.
Proof.
  induction ds as [|d r IH]; intro m; cbn [fold_left].
  - left. reflexivity.
  - destruct (IH (Qmax m d)) as [H|H].
    + rewrite H. unfold Qmax, GenericMinMax.gmax.
      destruct (m ?= d); [left | right; left | left]; reflexivity.
    + right. right. exact H.
Qed.

(** A value that is not below zero: NaN counts, as no comparison holds of it. *)
Lemma max_not_negative (m d : num) :
  lt m (Fin 0) = false -> lt (max m d) (Fin 0) = false.
Proof.
  intro Hm. destruct m as [a| | |], d as [b| | |];
    try reflexivity; try exact Hm; try discriminate Hm.
  rewrite max_Fin. cbn [lt] in *. apply Qltb_ge. apply Qltb_ge in Hm.
  eapply Qle_trans; [exact Hm | apply Q.le_max_l].
Qed.

Lemma drawdown_loop_not_negative (l : list Trade) :
  forall p m r : num,
    lt m (Fin 0) = false ->
    lt (snd (fst (fold_left DataManager.drawdownStep l (p, m, r)))) (Fin 0)
    = false.
Proof.
  induction l as [|x rest IH]; intros p m r Hm; cbn [fold_left].
  - exact Hm.
  - rewrite drawdownStep_eq. cbv zeta. apply IH.
    apply max_not_negative. exact Hm.
Qed.

Lemma dataManager_maxDrawdown_unfold (trades : list Trade) :
  DataManager.calculateMaxDrawdown trades
  = if Nat.eqb (List.length trades) 0 then Fin 0
    else snd (fst (fold_left DataManager.drawdownStep
                     (sortBy DataManager.byExitDateAscending trades)
                     (Fin 0, Fin 0, Fin 0))).
Proof.
  unfold DataManager.calculateMaxDrawdown.
  destruct (Nat.eqb (List.length trades) 0); [reflexivity|].
  destruct (fold_left _ _ _) as [[p m] r]. reflexivity.
Qed.

(** The calculator's function is the store's on the closed trades. *)
Lemma calculator_maxDrawdown_unfold (trades : list Trade) :
  Calculator.calculateMaxDrawdown trades
  = DataManager.calculateMaxDrawdown (filter isClosed trades).
Proof. reflexivity. Qed.

Lemma dataManager_maxDrawdown_not_negative (trades : list Trade) :
  lt (DataManager.calculateMaxDrawdown trades) (Fin 0) = false.
Proof.
  rewrite dataManager_maxDrawdown_unfold.
  destruct (Nat.eqb (List.length trades) 0); [reflexivity|].
  apply drawdown_loop_not_negative. reflexivity.
Qed.

End Drawdown.

(** ** The order the drawdown is scanned in *)

Section AscendingOrder.

Lemma ascending_comparator (a b : Trade) :
  hasExitInstant a -> hasExitInstant b ->
  gt (DataManager.byExitDateAscending a b) (Fin 0) = (exitMs b <? exitMs a)%Z.
Proof.
  intros [ta Ha] [tb Hb]. unfold DataManager.byExitDateAscending, exitMs.
  rewrite Ha, Hb. cbn [timeOf]. rewrite sub_Fin. unfold gt. cbn [lt].
  destruct (Z.ltb_spec tb ta) as [H|H].
  - apply Qltb_lt. rewrite Zlt_Qlt in H. lra.
  - apply Qltb_ge. rewrite Zle_Qle in H. lra.
Qed.

Lemma insertSorted_Permutation {A : Type} (c : A -> A -> num) (x : A) (l : list A) :
  Permutation (x :: l) (insertSorted c x l).
Proof.
  induction l as [|y r IH]; cbn [insertSorted].
  - apply Permutation_refl.
  - destruct (gt (c x y) (Fin 0)).
    + eapply Permutation_trans; [apply perm_swap|].
      apply perm_skip. exact IH.
    + apply Permutation_refl.
Qed.

(** The sorted array holds the same trades. *)
Lemma sortBy_Permutation {A : Type} (c : A -> A -> num) (l : list A) :
  Permutation l (sortBy c l).
Proof.
  induction l as [|x r IH]; cbn [sortBy fold_right].
  - apply Permutation_refl.
  - eapply Permutation_trans; [apply perm_skip; exact IH|].
    apply insertSorted_Permutation.
Qed.

Lemma insertSorted_ascending (x : Trade) (l : list Trade) :
  hasExitInstant x -> Forall hasExitInstant l ->
  StronglySorted exitsNoLater l ->
  StronglySorted exitsNoLater
    (insertSorted DataManager.byExitDateAscending x l).
Proof.
  intros Hx Hl Hs. induction Hs as [|y r Hr IH Hy]; cbn [insertSorted].
  - constructor; constructor.
  - inversion Hl as [|y' r' Hiy Hir]; subst.
    rewrite (ascending_comparator x y Hx Hiy).
    destruct (Z.ltb_spec (exitMs y) (exitMs x)) as [H|H].
    + constructor; [apply IH; exact Hir|].
      apply insertSorted_Forall; [|exact Hy].
      unfold exitsNoLater. lia.
    + constructor; [constructor; assumption|].
      constructor; [exact H|].
      eapply Forall_impl; [|exact Hy].
      intros z Hz. unfold exitsNoLater in *. lia.
Qed.

(** On trades that all have an exit instant the comparator of
    [calculateMaxDrawdown] leaves the array in ascending exit order. *)
Lemma sortBy_ascending (l : list Trade) :
  Forall hasExitInstant l ->
  StronglySorted exitsNoLater (sortBy DataManager.byExitDateAscending l).
Proof.
  intro H. induction H as [|x r Hx Hr IH]; cbn [sortBy fold_right].
  - constructor.
  - apply insertSorted_ascending; [exact Hx | | exact IH].
    apply sortBy_Forall. exact Hr.
Qed.

End AscendingOrder.

(** ** The one ascending order of the closed trades *)

Section ExitOrder.

(** An element that only moves behind elements exiting at another instant
    leaves the trades of each instant in their order. *)
Lemma insertSorted_keeps_ties (c : Trade -> Trade -> num) (ms : Z)
      (x : Trade) (l : list Trade) :
  Forall (fun y => gt (c x y) (Fin 0) = true -> exitMs y <> exitMs x) l ->
  filter (exitsOn ms) (insertSorted c x l) = filter (exitsOn ms) (x :: l).
Proof.
  induction l as [|y r IH]; intro H; cbn [insertSorted]; [reflexivity|].
  inversion H as [|y' r' Hy Hr]; subst.
  destruct (gt (c x y) (Fin 0)) eqn:G; [|reflexivity].
  cbn [filter]. rewrite (IH Hr). cbn [filter]. unfold exitsOn.
  destruct (Z.eqb_spec (exitMs y) ms) as [Ey|Ey];
    destruct (Z.eqb_spec (exitMs x) ms) as [Ex|Ex]; try reflexivity.
  exfalso. apply (Hy eq_refl). congruence.
Qed.

Lemma sortBy_keeps_ties (c : Trade -> Trade -> num) (ms : Z) (l : list Trade) :
  (forall x y, In x l -> In y l ->
               gt (c x y) (Fin 0) = true -> exitMs y <> exitMs x) ->
  filter (exitsOn ms) (sortBy c l) = filter (exitsOn ms) l.
Proof.
  induction l as [|x r IH]; intro H; cbn [sortBy fold_right]; [reflexivity|].
  fold (sortBy c r). rewrite insertSorted_keeps_ties.
  - cbn [filter]. rewrite IH; [reflexivity|].
    intros a b Ha Hb. apply H; right; assumption.
  - apply Forall_forall. intros y Hy. apply H; [left; reflexivity|].
    right. apply (Permutation_in y (Permutation_sym (sortBy_Permutation c r))).
    exact Hy.
Qed.

Lemma hasExitInstant_exitMs (t : Trade) :
  hasExitInstant t -> exitDate t = Instant (exitMs t).
Proof. intros [ms H]. unfold exitMs. rewrite H. reflexivity. Qed.

Lemma ascending_keeps_ties (ms : Z) (l : list Trade) :
  Forall hasExitInstant l ->
  filter (exitsOn ms) (sortBy DataManager.byExitDateAscending l)
  = filter (exitsOn ms) l.
Proof.
  intro H. apply sortBy_keeps_ties. intros x y Hx Hy G.
  rewrite Forall_forall in H.
  rewrite (ascending_comparator x y (H x Hx) (H y Hy)) in G.
  apply Z.ltb_lt in G. lia.
Qed.

Lemma descending_keeps_ties (ms : Z) (l : list Trade) :
  Forall hasExitInstant l ->
  filter (exitsOn ms) (sortBy DataManager.byExitDateDescending l)
  = filter (exitsOn ms) l.
Proof.
  intro H. apply sortBy_keeps_ties. intros x y Hx Hy G.
  rewrite Forall_forall in H.
  rewrite (descending_comparator x y (exitMs x) (exitMs y)
             (hasExitInstant_exitMs x (H x Hx))
             (hasExitInstant_exitMs y (H y Hy))) in G.
  apply Z.ltb_lt in G. lia.
Qed.

Lemma filter_exitsOn_cons (ms : Z) (x : Trade) (r : list Trade) :
  filter (exitsOn ms) (x :: r)
  = if (exitMs x =? ms)%Z then x :: filter (exitsOn ms) r
    else filter (exitsOn ms) r.
Proof. reflexivity. Qed.

Lemma filter_exitsOn_head (ms : Z) (x : Trade) (r : list Trade) :
  filter (exitsOn (exitMs x)) (x :: r) = x :: filter (exitsOn (exitMs x)) r.
Proof. cbn [filter]. unfold exitsOn at 1. rewrite Z.eqb_refl. reflexivity. Qed.

Lemma filter_exitsOn_In (ms : Z) (x : Trade) (l : list Trade) :
  In x l -> In x (filter (exitsOn (exitMs x)) l).
Proof.
  intro H. apply filter_In. split; [exact H|]. unfold exitsOn.
  apply Z.eqb_refl.
Qed.

(** Two lists in ascending exit order that agree instant by instant are
    the same list. *)
Lemma exit_order_unique (s1 : list Trade) :
  forall s2 : list Trade,
    StronglySorted exitsNoLater s1 -> StronglySorted exitsNoLater s2 ->
    (forall ms, filter (exitsOn ms) s1 = filter (exitsOn ms) s2) ->
    s1 = s2.
Proof.
  induction s1 as [|x r1 IH]; intros s2 H1 H2 E.
  - destruct s2 as [|y r2]; [reflexivity|].
    specialize (E (exitMs y)). rewrite (filter_exitsOn_head 0) in E.
    discriminate E.
  - destruct s2 as [|y r2].
    { specialize (E (exitMs x)). rewrite (filter_exitsOn_head 0) in E.
      discriminate E. }
    apply StronglySorted_inv in H1. destruct H1 as [S1 F1].
    apply StronglySorted_inv in H2. destruct H2 as [S2 F2].
    assert (Hxy : (exitMs x <= exitMs y)%Z).
    { assert (Hin : In y (x :: r1)).
      { pose proof (E (exitMs y)) as Ey.
        assert (Hy : In y (filter (exitsOn (exitMs y)) (x :: r1))).
        { rewrite Ey. apply (filter_exitsOn_In 0). left. reflexivity. }
        apply filter_In in Hy. exact (proj1 Hy). }
      destruct Hin as [->|Hin]; [lia|].
      rewrite Forall_forall in F1. exact (F1 y Hin). }
    assert (Hyx : (exitMs y <= exitMs x)%Z).
    { assert (Hin : In x (y :: r2)).
      { pose proof (E (exitMs x)) as Ex.
        assert (Hx : In x (filter (exitsOn (exitMs x)) (y :: r2))).
        { rewrite <- Ex. apply (filter_exitsOn_In 0). left. reflexivity. }
        apply filter_In in Hx. exact (proj1 Hx). }
      destruct Hin as [->|Hin]; [lia|].
      rewrite Forall_forall in F2. exact (F2 x Hin). }
    assert (Hms : exitMs y = exitMs x) by lia.
    assert (Hhead : x = y /\ forall ms, filter (exitsOn ms) r1
                                        = filter (exitsOn ms) r2).
    { pose proof (E (exitMs x)) as Ex.
      rewrite !filter_exitsOn_cons, Hms, Z.eqb_refl in Ex.
      injection Ex as Hx Hr. split; [exact Hx|]. intro ms.
      destruct (Z.eq_dec ms (exitMs x)) as [->|Hne]; [exact Hr|].
      pose proof (E ms) as Em. rewrite !filter_exitsOn_cons, Hms in Em.
      destruct (Z.eqb_spec (exitMs x) ms) as [Heq|_]; [congruence|].
      exact Em. }
    destruct Hhead as [<- Hrest]. f_equal.
    apply IH; assumption.
Qed.

(** On trades that all have an exit instant the sort of
    [calculateMaxDrawdown] returns the trades in exit order, and so does
    that sort applied to what [calculateStreaks] left behind. *)
Lemma sortBy_inExitOrder (l : list Trade) :
  Forall hasExitInstant l ->
  inExitOrder l (sortBy DataManager.byExitDateAscending l).
Proof.
  intro H. split; [apply sortBy_ascending; exact H|].
  intro ms. apply ascending_keeps_ties. exact H.
Qed.

Lemma sortBy_is_exit_order (l sorted : list Trade) :
  Forall hasExitInstant l -> inExitOrder l sorted ->
  sortBy DataManager.byExitDateAscending l = sorted.
Proof.
  intros H [Hs He]. destruct (sortBy_inExitOrder l H) as [Hs' He'].
  apply exit_order_unique; [exact Hs' | exact Hs|].
  intro ms. rewrite He', He. reflexivity.
Qed.

Lemma sortBy_after_streaks (l sorted : list Trade) :
  Forall hasExitInstant l -> inExitOrder l sorted ->
  sortBy DataManager.byExitDateAscending (DataManager.afterCalculateStreaks l)
  = sorted.
Proof.
  intros H [Hs He]. unfold DataManager.afterCalculateStreaks.
  destruct (Nat.eqb (List.length l) 0);
    [apply sortBy_is_exit_order; [exact H | split; assumption]|].
  assert (Hd : Forall hasExitInstant
                 (sortBy DataManager.byExitDateDescending l))
    by (apply sortBy_Forall; exact H).
  apply exit_order_unique; [apply sortBy_ascending; exact Hd | exact Hs|].
  intro ms. rewrite (ascending_keeps_ties ms _ Hd).
  rewrite (descending_keeps_ties ms l H), He. reflexivity.
Qed.

End ExitOrder.

(** ** The drawdown as the largest decline from the peak *)

Section LargestDecline.

(** The loop fuses the four passes: running totals, high-water marks,
    decline at each step, largest seen. *)
Lemma drawdown_loop_declines (l : list Trade) :
  forall p m r : num,
    snd (fst (fold_left DataManager.drawdownStep l (p, m, r)))
    = fold_left max
        (declines
           (highWaterMarks p
              (runningSums r (map (fun t : Trade => profitLoss t) l)))
           (runningSums r (map (fun t : Trade => profitLoss t) l)))
        m.
Proof.
  induction l as [|x rest IH]; intros p m r; [reflexivity|].
  cbn [fold_left map runningSums highWaterMarks declines].
  rewrite drawdownStep_eq. cbv zeta. apply IH.
Qed.

Lemma dataManager_maxDrawdown_declines (trades : list Trade) :
  DataManager.calculateMaxDrawdown trades
  = largestDecline
      (map (fun t : Trade => profitLoss t)
           (sortBy DataManager.byExitDateAscending trades)).
Proof.
  rewrite dataManager_maxDrawdown_unfold.
  destruct (Nat.eqb (List.length trades) 0) eqn:E.
  - apply Nat.eqb_eq in E. apply length_zero_iff_nil in E. subst trades.
    reflexivity.
  - apply drawdown_loop_declines.
Qed.

Lemma summary_maxDrawdown_unfold (trades : list Trade) :
  maxDrawdown (DataManager.summaryOf trades)
  = DataManager.calculateMaxDrawdown
      (DataManager.afterCalculateStreaks (filter isClosed trades)).
Proof.
  unfold DataManager.summaryOf.
  destruct (Nat.eqb (List.length trades) 0) eqn:E; [|reflexivity].
  apply Nat.eqb_eq in E. apply length_zero_iff_nil in E. subst trades.
  reflexivity.
Qed.

(** Running totals that are all finite come from finite amounts. *)
Lemma finite_totals_amounts (pls : list num) :
  forall r : Q,
    Forall (fun total => isFinite total = true) (runningSums (Fin r) pls) ->
    exists qs : list Q, pls = map Fin qs.
Proof.
  induction pls as [|a rest IH]; intros r H; [exists []; reflexivity|].
  cbn [runningSums] in H. inversion H as [|t ts Ha Hrest]; subst.
  destruct a as [q| | |]; try discriminate Ha.
  cbn [add] in Hrest. destruct (IH _ Hrest) as [qs ->].
  exists (q :: qs). reflexivity.
Qed.

Lemma declines_Fin (qs : list Q) :
  forall p r : Q,
    declines (highWaterMarks (Fin p) (runningSums (Fin r) (map Fin qs)))
             (runningSums (Fin r) (map Fin qs))
    = map Fin (Spec.stepDrawdowns
                 (Spec.runningPeaks p (Spec.runningTotals r qs))
                 (Spec.runningTotals r qs)).
Proof.
  induction qs as [|q rest IH]; intros p r; [reflexivity|].
  cbn [map runningSums highWaterMarks declines Spec.runningTotals
       Spec.runningPeaks Spec.stepDrawdowns add].
  rewrite max_Fin, sub_Fin, IH. reflexivity.
Qed.

Lemma fold_max_Fin (ds : list Q) :
  forall m : Q, fold_left max (map Fin ds) (Fin m) = Fin (fold_left Qmax ds m).
Proof.
  induction ds as [|d rest IH]; intro m; [reflexivity|].
  cbn [map fold_left]. rewrite max_Fin. apply IH.
Qed.

(** With finite running totals the largest decline is a number, at least
    0, at least the decline of every step, and 0 or one of them. *)
Lemma largestDecline_of_finite (pls : list num) :
  Forall (fun total => isFinite total = true) (runningSums (Fin 0) pls) ->
  le (Fin 0) (largestDecline pls) = true
  /\ Forall (fun d => le d (largestDecline pls) = true) (stepDeclines pls)
  /\ (largestDecline pls = Fin 0 \/ In (largestDecline pls) (stepDeclines pls)).
Proof.
  intro H. destruct (finite_totals_amounts pls 0 H) as [qs ->].
  unfold largestDecline, stepDeclines. rewrite declines_Fin, fold_max_Fin.
  fold (Spec.drawdowns qs). fold (Spec.maxDrawdown qs).
  split; [|split].
  - apply le_Fin. apply running_max_ge_start.
  - apply Forall_map. eapply Forall_impl; [|apply running_max_ge_all].
    intros d Hd. apply le_Fin. exact Hd.
  - destruct (running_max_attained (Spec.drawdowns qs) 0) as [E|E].
    + left. unfold Spec.maxDrawdown. rewrite E. reflexivity.
    + right. apply in_map. exact E.
Qed.

(** A value that is not below 0 is NaN or at least 0. *)
Lemma not_negative_cases (x : num) :
  lt x (Fin 0) = false -> x = NaN \/ le (Fin 0) x = true.
Proof.
  destruct x as [q| | |]; intro H.
  - right. unfold le. rewrite H. reflexivity.
  - right. reflexivity.
  - discriminate H.
  - left. reflexivity.
Qed.

End LargestDecline.

Section DrawdownResult.

(** C7 on the code.  Take a collection whose closed trades all have a valid
    exit date, and let [sorted] be its closed trades in ascending order of
    exit date, trades of one date in the order of the collection.  Then the
    store's [calculateMaxDrawdown] on the closed trades, the calculator's
    [calculateMaxDrawdown] and the summary's [maxDrawdown] all are the
    largest, from 0, of the declines peak minus running total over
    [sorted], the total running from 0 and the peak being its high-water
    mark from 0.  Whenever every running total is a finite number the
    result is a number that is at least 0, at least the decline of every
    step, and 0 or one of them.  For +100, -150, +50 the declines are
    0, 150, 100 and the result is 150.  On any collection at all the result
    is NaN or at least 0, and NaN does occur: on a closed trade object
    without a [profitLoss] the three results are NaN, where the equity
    curve, which guards its sum with [profitLoss || 0], stays at the
    initial capital.  So the result is not at least 0 on every
    collection. *)
Theorem maxDrawdown_is_largest_peak_to_trough :
  (forall closedTrades sorted : list Trade,
     Forall hasExitInstant closedTrades ->
     inExitOrder closedTrades sorted ->
     DataManager.calculateMaxDrawdown closedTrades
     = largestDecline (map (fun t : Trade => profitLoss t) sorted))
  /\ (forall trades sorted : list Trade,
        Forall hasExitInstant (filter isClosed trades) ->
        inExitOrder (filter isClosed trades) sorted ->
        Calculator.calculateMaxDrawdown trades
        = largestDecline (map (fun t : Trade => profitLoss t) sorted)
        /\ maxDrawdown (DataManager.summaryOf trades)
           = largestDecline (map (fun t : Trade => profitLoss t) sorted))
  /\ (forall pls : list num,
        Forall (fun total => isFinite total = true)
               (runningSums (Fin 0) pls) ->
        le (Fin 0) (largestDecline pls) = true
        /\ Forall (fun d => le d (largestDecline pls) = true)
                  (stepDeclines pls)
        /\ (largestDecline pls = Fin 0
            \/ In (largestDecline pls) (stepDeclines pls)))
  /\ (forall trades : list Trade,
        (Calculator.calculateMaxDrawdown trades = NaN
         \/ le (Fin 0) (Calculator.calculateMaxDrawdown trades) = true)
        /\ (DataManager.calculateMaxDrawdown trades = NaN
            \/ le (Fin 0) (DataManager.calculateMaxDrawdown trades) = true))
  /\ stepDeclines [Fin 100; Fin (-150); Fin 50] = [Fin 0; Fin 150; Fin 100]
  /\ Calculator.calculateMaxDrawdown Samples.drawdownTrades = Fin 150
  /\ DataManager.calculateMaxDrawdown Samples.drawdownTrades = Fin 150
  /\ isClosed Samples.closedWithoutPL = true
  /\ Calculator.calculateMaxDrawdown [Samples.closedWithoutPL] = NaN
  /\ DataManager.calculateMaxDrawdown [Samples.closedWithoutPL] = NaN
  /\ maxDrawdown (DataManager.summaryOf [Samples.closedWithoutPL]) = NaN
  /\ map equity (Calculator.getEquityCurveData 0 [Samples.closedWithoutPL] None)
     = [Fin 10000]
  /\ ~ (forall trades : list Trade,
          le (Fin 0) (Calculator.calculateMaxDrawdown trades) = true).
Proof.
  split.
  { intros closedTrades sorted H Ho.
    rewrite dataManager_maxDrawdown_declines.
    rewrite (sortBy_is_exit_order closedTrades sorted H Ho). reflexivity. }
  split.
  { intros trades sorted H Ho. split.
    - rewrite calculator_maxDrawdown_unfold, dataManager_maxDrawdown_declines.
      rewrite (sortBy_is_exit_order _ sorted H Ho). reflexivity.
    - rewrite summary_maxDrawdown_unfold, dataManager_maxDrawdown_declines.
      rewrite (sortBy_after_streaks _ sorted H Ho). reflexivity. }
  split; [exact largestDecline_of_finite|].
  split.
  { intro trades. split; apply not_negative_cases.
    - rewrite calculator_maxDrawdown_unfold.
      apply dataManager_maxDrawdown_not_negative.
    - apply dataManager_maxDrawdown_not_negative. }
  repeat split; try (vm_compute; reflexivity).
  intro H. specialize (H [Samples.closedWithoutPL]).
  vm_compute in H. discriminate H.
Qed.

Lemma maxDrawdown_is_largest_peak_to_trough_witness :
  Calculator.calculateMaxDrawdown Samples.drawdownTrades
  = largestDecline [Fin 100; Fin (-150); Fin 50]
  /\ maxDrawdown (DataManager.summaryOf Samples.drawdownTrades)
     = largestDecline [Fin 100; Fin (-150); Fin 50]
  /\ le (Fin 0) (largestDecline [Fin 100; Fin (-150); Fin 50]) = true.
Proof.
  assert (Hi : Forall hasExitInstant (filter isClosed Samples.drawdownTrades))
    by (repeat constructor; eexists; reflexivity).
  assert (Ho : inExitOrder (filter isClosed Samples.drawdownTrades)
                           Samples.drawdownTrades).
  { split; [|intro ms; reflexivity].
    repeat (apply SSorted_cons || apply SSorted_nil || apply Forall_cons
            || apply Forall_nil);
      unfold exitsNoLater; vm_compute; discriminate. }
  split; [|split].
  - apply (proj1 (proj2 maxDrawdown_is_largest_peak_to_trough)
                 Samples.drawdownTrades Samples.drawdownTrades Hi Ho).
  - apply (proj1 (proj2 maxDrawdown_is_largest_peak_to_trough)
                 Samples.drawdownTrades Samples.drawdownTrades Hi Ho).
  - apply (proj1 (proj2 (proj2 maxDrawdown_is_largest_peak_to_trough))
                 [Fin 100; Fin (-150); Fin 50]).
    repeat constructor.
Defined.

End DrawdownResult.

(** ** Win rate and profit factor *)

Section WinRateProfitFactor.

Lemma filter_length_countIf (p : Trade -> bool) (l : list Trade) :
  List.length (filter p l) = Spec.countIf p l.
Proof.
  induction l as [|x r IH]; cbn [filter Spec.countIf]; [reflexivity|].
  destruct (p x); cbn [List.length]; rewrite IH; reflexivity.
Qed.

Lemma filter_filter (p q : Trade -> bool) (l : list Trade) :
  filter q (filter p l) = filter (fun t => p t && q t)%bool l.
Proof.
  induction l as [|x r IH]; cbn [filter]; [reflexivity|].
  destruct (p x); cbn [filter andb]; [destruct (q x)|]; rewrite IH; reflexivity.
Qed.

Lemma countIf_le (p q : Trade -> bool) (l : list Trade) :
  (Spec.countIf (fun t => p t && q t)%bool l <= Spec.countIf p l)%nat.
Proof.
  induction l as [|x r IH]; cbn [Spec.countIf]; [lia|].
  destruct (p x), (q x); cbn [andb]; lia.
Qed.

Lemma ofNat_nonzero (n : nat) : n <> O -> isZero (inject_Z (Z.of_nat n)) = false.
Proof.
  intro H. apply isZero_false. intro Hz.
  unfold Qeq in Hz. cbn in Hz. lia.
Qed.

(** The win rate is the count of closed winners over the count of closed
    trades, times 100. *)
Lemma calculateWinRate_counts (trades : list Trade) :
  Calculator.calculateWinRate trades
  = if Nat.eqb (Spec.closedCount trades) 0 then Fin 0
    else Fin (inject_Z (Z.of_nat (Spec.winningCount trades))
              / inject_Z (Z.of_nat (Spec.closedCount trades)) * 100).
Proof.
  unfold Calculator.calculateWinRate, Spec.closedCount, Spec.winningCount.
  rewrite filter_filter, !filter_length_countIf.
  destruct (Nat.eqb_spec (Spec.countIf isClosed trades) 0) as [E|E];
    [reflexivity|].
  unfold ofNat. cbn [div]. rewrite (ofNat_nonzero _ E). reflexivity.
Qed.

Lemma add_negative (x y : num) : negative x -> negative y -> negative (add x y).
Proof.
  unfold negative. destruct x as [a| | |], y as [b| | |];
    cbn [add lt]; try discriminate; try reflexivity.
  intros Ha Hb. apply Qltb_lt in Ha, Hb. apply Qltb_lt. lra.
Qed.

Lemma add_zero_negative (y : num) : negative y -> negative (add (Fin 0) y).
Proof.
  unfold negative. destruct y as [b| | |]; cbn [add lt];
    try discriminate; try reflexivity.
  intro Hb. apply Qltb_lt in Hb. apply Qltb_lt. lra.
Qed.

Lemma sum_negative (l : list Trade) :
  Forall (fun t => isLoser t = true) l ->
  forall acc, negative acc ->
  negative (fold_left (fun sum (t : Trade) => add sum (profitLoss t)) l acc).
Proof.
  intro H. induction H as [|x r Hx Hr IH]; intros acc Hacc; cbn [fold_left].
  - exact Hacc.
  - apply IH. apply add_negative; [exact Hacc | exact Hx].
Qed.

Lemma abs_negative_positive (x : num) : negative x -> gt (abs x) (Fin 0) = true.
Proof.
  unfold negative, gt. destruct x as [a| | |]; cbn [abs lt];
    try discriminate; try reflexivity.
  intro Ha. apply Qltb_lt in Ha. apply Qltb_lt.
  apply Qabs_case; intros; lra.
Qed.

Lemma filter_all (p : Trade -> bool) (l : list Trade) :
  Forall (fun t => p t = true) (filter p l).
Proof.
  induction l as [|x r IH]; cbn [filter]; [constructor|].
  destruct (p x) eqn:E; [constructor; assumption | exact IH].
Qed.

(** The total loss is positive exactly when there is a loser. *)
Lemma total_loss_positive (losers : list Trade) :
  Forall (fun t => isLoser t = true) losers ->
  gt (abs (sumOf (fun t : Trade => profitLoss t) losers)) (Fin 0)
  = negb (Nat.eqb (List.length losers) 0).
Proof.
  intro H. destruct H as [|x r Hx Hr].
  - reflexivity.
  - cbn [List.length Nat.eqb negb]. apply abs_negative_positive.
    unfold sumOf. cbn [fold_left].
    apply sum_negative; [exact Hr|].
    apply add_zero_negative. exact Hx.
Qed.

(** The profit factor is the winners' profit over the absolute value of
    the losers' profit, and 0 when no closed trade lost. *)
Lemma calculateProfitFactor_sums (trades : list Trade) :
  Calculator.calculateProfitFactor trades
  = if Nat.eqb (Spec.losingCount trades) 0 then Fin 0
    else div (Spec.winnersProfit trades) (abs (Spec.losersProfit trades)).
Proof.
  unfold Calculator.calculateProfitFactor, Spec.losingCount,
    Spec.winnersProfit, Spec.losersProfit.
  rewrite !filter_filter.
  assert (Hl : Forall (fun t => isLoser t = true)
                 (filter (fun t => isClosed t && isLoser t)%bool trades)).
  { eapply Forall_impl; [|apply filter_all].
    intros t Ht. apply andb_true_iff in Ht. tauto. }
  rewrite (total_loss_positive _ Hl), !filter_length_countIf.
  pose proof (countIf_le isClosed isLoser trades) as Hle.
  destruct (Nat.eqb_spec (Spec.countIf isClosed trades) 0) as [E|E].
  - rewrite E in Hle.
    destruct (Nat.eqb_spec
                (Spec.countIf (fun t => isClosed t && isLoser t)%bool trades) 0);
      [reflexivity | lia].
  - destruct (Nat.eqb (Spec.countIf (fun t => isClosed t && isLoser t)%bool trades) 0);
      reflexivity.
Qed.

(** A closed trade of profit/loss exactly 0 is neither a winner nor a
    loser. *)
Lemma breakeven_neither (t : Trade) :
  eqv (profitLoss t) (Fin 0) -> isWinner t = false /\ isLoser t = false.
Proof.
  unfold isWinner, isLoser, gt.
  destruct (profitLoss t) as [q| | |]; cbn [eqv lt]; try contradiction.
  intro H. split; apply Qltb_ge; rewrite H; apply Qle_refl.
Qed.

(** The performance summary of the store reports the same two figures. *)
Lemma summary_winRate_profitFactor (trades : list Trade) :
  winRate (DataManager.summaryOf trades) = Calculator.calculateWinRate trades
  /\ profitFactor (DataManager.summaryOf trades)
     = Calculator.calculateProfitFactor trades.
Proof.
  unfold DataManager.summaryOf, Calculator.calculateWinRate,
    Calculator.calculateProfitFactor.
  destruct trades as [|x r]; [split; reflexivity|].
  cbn [List.length Nat.eqb winRate profitFactor].
  destruct (filter isClosed (x :: r)) as [|c cs]; split; reflexivity.
Qed.

(** C6.  [calculateWinRate] is the number of closed trades with
    [profitLoss > 0] over the number of closed trades, times 100, and 0 when
    no trade is closed; a closed trade with profit/loss exactly 0 adds one to
    the closed count and nothing to the winners or the losers.
    [calculateProfitFactor] is the sum of the winners' profit/loss over the
    absolute value of the sum of the losers', and 0 when there is no loser.
    The store's performance summary reports the same two figures.
    For +520, -47, +300 the win rate is 2/3 * 100 and the profit factor
    820/47. *)
Theorem winRate_and_profitFactor :
  (forall trades : list Trade,
     Calculator.calculateWinRate trades
     = if Nat.eqb (Spec.closedCount trades) 0 then Fin 0
       else Fin (inject_Z (Z.of_nat (Spec.winningCount trades))
                 / inject_Z (Z.of_nat (Spec.closedCount trades)) * 100))
  /\ (forall (t : Trade) (trades : list Trade),
        isClosed t = true -> eqv (profitLoss t) (Fin 0) ->
        Spec.closedCount (t :: trades) = S (Spec.closedCount trades)
        /\ Spec.winningCount (t :: trades) = Spec.winningCount trades
        /\ Spec.losingCount (t :: trades) = Spec.losingCount trades)
  /\ (forall trades : list Trade,
        Calculator.calculateProfitFactor trades
        = if Nat.eqb (Spec.losingCount trades) 0 then Fin 0
          else div (Spec.winnersProfit trades)
                   (abs (Spec.losersProfit trades)))
  /\ (forall trades : list Trade,
        winRate (DataManager.summaryOf trades)
        = Calculator.calculateWinRate trades
        /\ profitFactor (DataManager.summaryOf trades)
           = Calculator.calculateProfitFactor trades)
  /\ Calculator.calculateWinRate Samples.threeTrades = Fin (2 / 3 * 100)
  /\ Calculator.calculateProfitFactor Samples.threeTrades = Fin (820 / 47).
Proof.
  split; [exact calculateWinRate_counts|].
  split.
  { intros t trades Hc Hz. destruct (breakeven_neither t Hz) as [Hw Hl].
    unfold Spec.closedCount, Spec.winningCount, Spec.losingCount.
    cbn [Spec.countIf]. rewrite Hc, Hw, Hl. repeat split; reflexivity. }
  split; [exact calculateProfitFactor_sums|].
  split; [exact summary_winRate_profitFactor|].
  split; vm_compute; reflexivity.
Qed.

Lemma winRate_and_profitFactor_witness :
  Spec.closedCount (Samples.breakeven :: Samples.threeTrades) = 4%nat
  /\ Spec.winningCount (Samples.breakeven :: Samples.threeTrades) = 2%nat
  /\ Spec.losingCount (Samples.breakeven :: Samples.threeTrades) = 1%nat.
Proof.
  apply (proj1 (proj2 winRate_and_profitFactor)
               Samples.breakeven Samples.threeTrades).
  - reflexivity.
  - vm_compute. reflexivity.
Defined.

End WinRateProfitFactor.

(** ** Writes to the store *)

Section StoreWrites.

(** The functions that compute the derived fields read source fields only. *)
Lemma calculators_read_source (t t' : Trade) :
  source t = source t' ->
  DataManager.calculateProfitLoss t = DataManager.calculateProfitLoss t'
  /\ DataManager.calculateProfitLossPercent t
     = DataManager.calculateProfitLossPercent t'
  /\ DataManager.calculateRiskAmount t = DataManager.calculateRiskAmount t'
  /\ DataManager.calculateRewardAmount t = DataManager.calculateRewardAmount t'
  /\ DataManager.calculateRiskRewardRatio t
     = DataManager.calculateRiskRewardRatio t'
  /\ DataManager.calculateRiskPercent t = DataManager.calculateRiskPercent t'.
Proof.
  intro H.
  unfold DataManager.calculateProfitLossPercent,
    DataManager.calculateRiskRewardRatio, DataManager.calculateRiskPercent,
    DataManager.calculateProfitLoss, DataManager.calculateRiskAmount,
    DataManager.calculateRewardAmount.
  rewrite H. repeat split; reflexivity.
Qed.

Lemma recalculate_source (t : Trade) :
  source (DataManager.recalculate t) = source t.
Proof. reflexivity. Qed.

(** After the six assignments every derived field agrees with its
    function, whatever the fields held before. *)
Lemma recalculate_consistent (t : Trade) :
  derivedConsistent (DataManager.recalculate t).
Proof.
  destruct (calculators_read_source (DataManager.recalculate t) t
              (recalculate_source t)) as [H1 [H2 [H3 [H4 [H5 H6]]]]].
  unfold derivedConsistent.
  rewrite H1, H2, H3, H4, H5, H6.
  destruct t as [s d]. repeat split; reflexivity.
Qed.

Lemma findIndex_bound {A : Type} (p : A -> bool) (l : list A) (i : nat) :
  findIndex p l = Some i -> (i < List.length l)%nat.
Proof.
  revert i. induction l as [|x r IH]; intros i H; cbn [findIndex] in H.
  - discriminate H.
  - destruct (p x).
    + injection H as <-. cbn. lia.
    + destruct (findIndex p r) as [j|]; [|discriminate H].
      injection H as <-. specialize (IH j eq_refl). cbn. lia.
Qed.

Lemma nth_setAt {A : Type} (l : list A) (i : nat) (v d : A) :
  (i < List.length l)%nat -> nth i (setAt i v l) d = v.
Proof.
  revert i. induction l as [|x r IH]; intros i H; cbn in H; [lia|].
  destruct i as [|j]; cbn [setAt nth]; [reflexivity|].
  apply IH. lia.
Qed.

Lemma addTrade_returned (newId : string) (created updated : Z)
      (tradeData : Trade) (store store' : Store) (t : Trade) :
  DataManager.addTrade newId created updated tradeData store
  = (store', Returned t) ->
  DataManager.validateTrade tradeData = []
  /\ t = DataManager.recalculate (newTradeObject newId created updated tradeData)
  /\ store' = store ++ [t].
Proof.
  unfold DataManager.addTrade, bind, DataManager.loadTrades.
  destruct (DataManager.validateTrade tradeData) as [|e es] eqn:E.
  - cbn [List.length Nat.ltb Nat.leb]. unfold DataManager.saveTrades, ret.
    intro H. injection H as Hs Ht. subst. repeat split; reflexivity.
  - cbn [List.length Nat.ltb Nat.leb]. unfold throw. discriminate.
Qed.

Lemma updateTrade_returned (now : Z) (tradeId : string) (updates : Updates)
      (store store' : Store) (t : Trade) :
  DataManager.updateTrade now tradeId updates store = (store', Returned t) ->
  exists index,
    findIndex (fun trade : Trade => textIs (id trade) tradeId) store = Some index
    /\ DataManager.validateTrade (spread (nth index store emptyTrade) updates) = []
    /\ t = DataManager.recalculate
             (withUpdatedAt now (spread (nth index store emptyTrade) updates))
    /\ store' = setAt index t store
    /\ nth index store' emptyTrade = t.
Proof.
  unfold DataManager.updateTrade, bind, DataManager.loadTrades.
  destruct (findIndex (fun trade : Trade => textIs (id trade) tradeId) store)
    as [index|] eqn:F; [|unfold throw; discriminate].
  destruct (DataManager.validateTrade (spread (nth index store emptyTrade) updates))
    as [|e es] eqn:E.
  - cbn [List.length Nat.ltb Nat.leb]. unfold DataManager.saveTrades, ret.
    intro H. injection H as Hs Ht. exists index.
    pose proof (findIndex_bound _ _ _ F) as Hb.
    rewrite (nth_setAt store index _ emptyTrade Hb) in Ht.
    subst t. split; [reflexivity|]. split; [exact E|].
    split; [reflexivity|]. split; [symmetry; exact Hs|].
    rewrite <- Hs. apply nth_setAt. exact Hb.
  - cbn [List.length Nat.ltb Nat.leb]. unfold throw. discriminate.
Qed.

Lemma div_Fin_nonzero (a b : Q) : ~ b == 0 -> div (Fin a) (Fin b) = Fin (a / b).
Proof.
  intro H. cbn [div]. rewrite (proj2 (isZero_false b) H). reflexivity.
Qed.

(** C5.  When [addTrade] returns, the trade it returns is the last of the
    stored trades and each of its six derived fields equals the store's
    function of that stored trade; when [updateTrade] returns, the same
    holds of the trade it returns, which is stored at the index of the
    identifier. *)
Theorem derived_fields_recomputed_on_write :
  (forall (newId : string) (created updated : Z) (tradeData : Trade)
          (store store' : Store) (t : Trade),
     DataManager.addTrade newId created updated tradeData store
     = (store', Returned t) ->
     store' = store ++ [t] /\ derivedConsistent t)
  /\ (forall (now : Z) (tradeId : string) (updates : Updates)
             (store store' : Store) (t : Trade),
        DataManager.updateTrade now tradeId updates store
        = (store', Returned t) ->
        (exists index,
           findIndex (fun trade : Trade => textIs (id trade) tradeId) store
           = Some index
           /\ nth_error store' index = Some t)
        /\ derivedConsistent t).
Proof.
  split.
  - intros newId created updated tradeData store store' t H.
    destruct (addTrade_returned _ _ _ _ _ _ _ H) as [_ [Ht Hs]].
    split; [exact Hs|]. rewrite Ht. apply recalculate_consistent.
  - intros now tradeId updates store store' t H.
    destruct (updateTrade_returned _ _ _ _ _ _ H)
      as [index [F [_ [Ht [Hs Hn]]]]].
    split.
    + exists index. split; [exact F|].
      pose proof (findIndex_bound _ _ _ F) as Hb.
      assert (Hlen : (index < List.length store')%nat).
      { rewrite Hs. clear -Hb. revert index Hb.
        induction store as [|x r IH]; intros i Hb; cbn in Hb; [lia|].
        destruct i; cbn; [lia|]. specialize (IH i). lia. }
      rewrite <- Hn. apply nth_error_nth'. exact Hlen.
    + rewrite Ht. apply recalculate_consistent.
Qed.

Lemma derived_fields_recomputed_on_write_witness :
  derivedConsistent Samples.storedAapl /\ derivedConsistent Samples.updatedAapl.
Proof.
  split.
  - apply (proj1 derived_fields_recomputed_on_write
                 "trade_1"%string 30%Z 30%Z Samples.aapl []
                 [Samples.storedAapl] Samples.storedAapl).
    reflexivity.
  - apply (proj2 derived_fields_recomputed_on_write
                 40%Z "trade_1"%string Samples.exitAt156
                 [Samples.storedAapl] [Samples.updatedAapl]
                 Samples.updatedAapl).
    reflexivity.
Defined.

End StoreWrites.

(** ** Operations that fail *)

Section FailedOperations.

Lemma textIs_false (s : text) (lit : string) :
  s <> Some lit -> textIs s lit = false.
Proof.
  intro H. destruct (textIs s lit) eqn:E; [|reflexivity].
  apply textIs_true in E. contradiction.
Qed.

Lemma absent_findIndex (tradeId : string) (store : Store) :
  absentId tradeId store ->
  findIndex (fun trade : Trade => textIs (id trade) tradeId) store = None.
Proof.
  intro H. induction H as [|x r Hx Hr IH]; cbn [findIndex]; [reflexivity|].
  rewrite (textIs_false _ _ Hx), IH. reflexivity.
Qed.

Lemma absent_filter (tradeId : string) (store : Store) :
  absentId tradeId store ->
  filter (fun trade : Trade => negb (textIs (id trade) tradeId)) store = store.
Proof.
  intro H. induction H as [|x r Hx Hr IH]; cbn [filter]; [reflexivity|].
  rewrite (textIs_false _ _ Hx), IH. reflexivity.
Qed.

Lemma absent_find (tradeId : string) (store : Store) :
  absentId tradeId store ->
  find (fun trade : Trade => textIs (id trade) tradeId) store = None.
Proof.
  intro H. induction H as [|x r Hx Hr IH]; cbn [find]; [reflexivity|].
  rewrite (textIs_false _ _ Hx), IH. reflexivity.
Qed.

Lemma nonempty_length {A : Type} (l : list A) :
  l <> [] -> Nat.ltb 0 (List.length l) = true.
Proof. destruct l; [contradiction | reflexivity]. Qed.

(** C9.  [addTrade] on data that fails validation, [updateTrade] on an
    update whose merged trade fails validation, and [updateTrade],
    [deleteTrade] and [getTrade] on an identifier that no stored trade has,
    all end with a thrown error and with the stored trades exactly as they
    were. *)
Theorem failed_operations_leave_store_unchanged :
  (forall (newId : string) (created updated : Z) (tradeData : Trade)
          (store : Store),
     DataManager.validateTrade tradeData <> [] ->
     DataManager.addTrade newId created updated tradeData store
     = (store, Thrown (DataManager.joinErrors
                         (DataManager.validateTrade tradeData))))
  /\ (forall (now : Z) (tradeId : string) (updates : Updates) (store : Store)
             (index : nat),
        findIndex (fun trade : Trade => textIs (id trade) tradeId) store
        = Some index ->
        DataManager.validateTrade (spread (nth index store emptyTrade) updates)
        <> [] ->
        DataManager.updateTrade now tradeId updates store
        = (store, Thrown (DataManager.joinErrors
                            (DataManager.validateTrade
                               (spread (nth index store emptyTrade) updates)))))
  /\ (forall (now : Z) (tradeId : string) (updates : Updates) (store : Store),
        absentId tradeId store ->
        DataManager.updateTrade now tradeId updates store
        = (store, Thrown "Trade not found"%string))
  /\ (forall (tradeId : string) (store : Store),
        absentId tradeId store ->
        DataManager.deleteTrade tradeId store
        = (store, Thrown "Trade not found"%string))
  /\ (forall (tradeId : string) (store : Store),
        absentId tradeId store ->
        DataManager.getTrade tradeId store
        = (store, Thrown "Trade not found"%string)).
Proof.
  split.
  { intros newId created updated tradeData store H.
    unfold DataManager.addTrade, bind, DataManager.loadTrades.
    rewrite (nonempty_length _ H). reflexivity. }
  split.
  { intros now tradeId updates store index F H.
    unfold DataManager.updateTrade, bind, DataManager.loadTrades.
    rewrite F, (nonempty_length _ H). reflexivity. }
  split.
  { intros now tradeId updates store H.
    unfold DataManager.updateTrade, bind, DataManager.loadTrades.
    rewrite (absent_findIndex _ _ H). reflexivity. }
  split.
  { intros tradeId store H.
    unfold DataManager.deleteTrade, bind, DataManager.loadTrades.
    rewrite (absent_filter _ _ H), Nat.eqb_refl. reflexivity. }
  { intros tradeId store H.
    unfold DataManager.getTrade, bind, DataManager.loadTrades.
    rewrite (absent_find _ _ H). reflexivity. }
Qed.

Lemma failed_operations_leave_store_unchanged_witness :
  fst (DataManager.addTrade "trade_2" 50 50 Samples.invalidData
                            Samples.oneTradeStore)
  = Samples.oneTradeStore
  /\ fst (DataManager.updateTrade 50 "trade_1" Samples.sizeToZero
                                  Samples.oneTradeStore)
     = Samples.oneTradeStore
  /\ fst (DataManager.updateTrade 50 "trade_9" Samples.exitAt156
                                  Samples.oneTradeStore)
     = Samples.oneTradeStore
  /\ fst (DataManager.deleteTrade "trade_9" Samples.oneTradeStore)
     = Samples.oneTradeStore
  /\ fst (DataManager.getTrade "trade_9" Samples.oneTradeStore)
     = Samples.oneTradeStore.
Proof.
  assert (Habsent : absentId "trade_9" Samples.oneTradeStore).
  { repeat constructor. discriminate. }
  split; [|split; [|split; [|split]]].
  - rewrite (proj1 failed_operations_leave_store_unchanged
                   "trade_2"%string 50%Z 50%Z Samples.invalidData
                   Samples.oneTradeStore); [reflexivity | discriminate].
  - rewrite (proj1 (proj2 failed_operations_leave_store_unchanged)
                   50%Z "trade_1"%string Samples.sizeToZero
                   Samples.oneTradeStore O);
      [reflexivity | reflexivity | discriminate].
  - rewrite (proj1 (proj2 (proj2 failed_operations_leave_store_unchanged))
                   50%Z "trade_9"%string Samples.exitAt156
                   Samples.oneTradeStore Habsent).
    reflexivity.
  - rewrite (proj1 (proj2 (proj2 (proj2 failed_operations_leave_store_unchanged)))
                   "trade_9"%string Samples.oneTradeStore Habsent).
    reflexivity.
  - rewrite (proj2 (proj2 (proj2 (proj2 failed_operations_leave_store_unchanged)))
                   "trade_9"%string Samples.oneTradeStore Habsent).
    reflexivity.
Defined.

End FailedOperations.

(** * Further properties of the store *)

Section StoreRoundTrips.

(** The six assignments depend on the source fields only: trade objects
    with the same source fields are given the same derived fields, whatever
    they carried before, and running the assignments again changes
    nothing. *)
Theorem recalculate_reads_source_only :
  (forall t t' : Trade,
     source t = source t' ->
     derived (DataManager.recalculate t) = derived (DataManager.recalculate t'))
  /\ (forall t : Trade,
        DataManager.recalculate (DataManager.recalculate t)
        = DataManager.recalculate t).
Proof.
  split.
  - intros t t' H.
    destruct (recalculate_consistent t) as [A1 [A2 [A3 [A4 [A5 A6]]]]].
    destruct (recalculate_consistent t') as [B1 [B2 [B3 [B4 [B5 B6]]]]].
    assert (Hs : source (DataManager.recalculate t)
                 = source (DataManager.recalculate t')).
    { rewrite !recalculate_source. exact H. }
    destruct (calculators_read_source _ _ Hs) as [C1 [C2 [C3 [C4 [C5 C6]]]]].
    destruct (derived (DataManager.recalculate t)) as [a1 a2 a3 a4 a5 a6] eqn:Ea.
    destruct (derived (DataManager.recalculate t')) as [b1 b2 b3 b4 b5 b6] eqn:Eb.
    cbn [profitLoss profitLossPercent riskAmount rewardAmount riskRewardRatio
         riskPercent] in *.
    congruence.
  - intro t. destruct t as [s d]. reflexivity.
Qed.

Lemma recalculate_reads_source_only_witness :
  derived (DataManager.recalculate Samples.aapl)
  = derived (DataManager.recalculate
               (set_profitLoss (Fin 1) Samples.aapl)).
Proof.
  apply (proj1 recalculate_reads_source_only). reflexivity.
Defined.

Lemma newTradeObject_id (newId : string) (created updated : Z) (tradeData : Trade) :
  id tradeData = None ->
  id (DataManager.recalculate (newTradeObject newId created updated tradeData))
  = Some newId.
Proof. intro H. cbn. rewrite H. reflexivity. Qed.

Lemma find_after_absent (tradeId : string) (store : Store) (t : Trade) :
  absentId tradeId store -> id t = Some tradeId ->
  find (fun trade : Trade => textIs (id trade) tradeId) (store ++ [t]) = Some t.
Proof.
  intros H Ht. induction H as [|x r Hx Hr IH]; cbn [app find].
  - rewrite (proj2 (textIs_true _ _) Ht). reflexivity.
  - rewrite (textIs_false _ _ Hx). exact IH.
Qed.

Lemma filter_after_absent (tradeId : string) (store : Store) (t : Trade) :
  absentId tradeId store -> id t = Some tradeId ->
  filter (fun trade : Trade => negb (textIs (id trade) tradeId)) (store ++ [t])
  = store.
Proof.
  intros H Ht. rewrite filter_app, (absent_filter _ _ H). cbn [filter].
  rewrite (proj2 (textIs_true _ _) Ht). cbn [negb]. apply app_nil_r.
Qed.

(** After [addTrade] has returned for data that carries no identifier of
    its own, with a generated identifier no stored trade has yet, [getTrade]
    on that identifier returns the added trade, and [deleteTrade] on it
    returns [true] and leaves the trades that were stored before. *)
Theorem addTrade_then_get_and_delete
        (newId : string) (created updated : Z) (tradeData : Trade)
        (store store' : Store) (t : Trade) :
  id tradeData = None -> absentId newId store ->
  DataManager.addTrade newId created updated tradeData store
  = (store', Returned t) ->
  id t = Some newId
  /\ DataManager.getTrade newId store' = (store', Returned t)
  /\ DataManager.deleteTrade newId store' = (store, Returned true).
Proof.
  intros Hid Habs H.
  destruct (addTrade_returned _ _ _ _ _ _ _ H) as [_ [Ht Hs]].
  assert (Hidt : id t = Some newId).
  { rewrite Ht. apply newTradeObject_id. exact Hid. }
  split; [exact Hidt|]. subst store'. split.
  - unfold DataManager.getTrade, bind, DataManager.loadTrades.
    rewrite (find_after_absent _ _ _ Habs Hidt). reflexivity.
  - unfold DataManager.deleteTrade, bind, DataManager.loadTrades.
    rewrite (filter_after_absent _ _ _ Habs Hidt).
    rewrite length_app. cbn [List.length].
    destruct (Nat.eqb_spec (List.length store) (List.length store + 1));
      [lia | reflexivity].
Qed.

Lemma addTrade_then_get_and_delete_witness :
  DataManager.getTrade "trade_1" Samples.oneTradeStore
  = (Samples.oneTradeStore, Returned Samples.storedAapl)
  /\ DataManager.deleteTrade "trade_1" Samples.oneTradeStore
     = ([], Returned true).
Proof.
  apply (addTrade_then_get_and_delete "trade_1" 30 30 Samples.aapl []
           Samples.oneTradeStore Samples.storedAapl).
  - reflexivity.
  - constructor.
  - reflexivity.
Defined.

Lemma filter_removes_id (tradeId : string) (store : Store) :
  absentId tradeId
    (filter (fun trade : Trade => negb (textIs (id trade) tradeId)) store).
Proof.
  unfold absentId. induction store as [|x r IH]; cbn [filter]; [constructor|].
  destruct (textIs (id x) tradeId) eqn:E; cbn [negb]; [exact IH|].
  constructor; [|exact IH].
  intro H. apply textIs_true in H. congruence.
Qed.

Lemma filter_shorter (tradeId : string) (store : Store) (t : Trade) :
  In t store -> id t = Some tradeId ->
  (List.length (filter (fun trade : Trade => negb (textIs (id trade) tradeId))
                       store) < List.length store)%nat.
Proof.
  intros Hin Ht. induction store as [|x r IH]; [contradiction|].
  cbn [filter List.length].
  pose proof (filter_length_le
                (fun trade : Trade => negb (textIs (id trade) tradeId)) r) as Hle.
  destruct Hin as [->|Hin].
  - rewrite (proj2 (textIs_true _ _) Ht). cbn [negb]. lia.
  - specialize (IH Hin).
    destruct (negb (textIs (id x) tradeId)); cbn [List.length]; lia.
Qed.

(** When some stored trade has the identifier, [deleteTrade] returns [true]
    and the store keeps exactly the trades with another identifier, in their
    order: every trade with the identifier goes, not only the first, and a
    later [getTrade] or [deleteTrade] on it throws. *)
Theorem deleteTrade_removes_every_match
        (tradeId : string) (store : Store) (t : Trade) :
  In t store -> id t = Some tradeId ->
  let store' :=
    filter (fun trade : Trade => negb (textIs (id trade) tradeId)) store in
  DataManager.deleteTrade tradeId store = (store', Returned true)
  /\ absentId tradeId store'
  /\ (forall u : Trade, In u store' <-> In u store /\ id u <> Some tradeId)
  /\ DataManager.getTrade tradeId store'
     = (store', Thrown "Trade not found"%string)
  /\ DataManager.deleteTrade tradeId store'
     = (store', Thrown "Trade not found"%string).
Proof.
  intros Hin Ht store'.
  pose proof (filter_removes_id tradeId store) as Habs. fold store' in Habs.
  split.
  { unfold DataManager.deleteTrade, bind, DataManager.loadTrades.
    fold store'. pose proof (filter_shorter tradeId store t Hin Ht) as Hlt.
    fold store' in Hlt.
    destruct (Nat.eqb_spec (List.length store') (List.length store));
      [lia | reflexivity]. }
  split; [exact Habs|].
  split.
  { intro u. unfold store'. rewrite filter_In, negb_true_iff.
    split; intros [H1 H2]; split; try exact H1.
    - intro E. apply textIs_true in E. congruence.
    - apply textIs_false. exact H2. }
  split.
  { unfold DataManager.getTrade, bind, DataManager.loadTrades.
    rewrite (absent_find _ _ Habs). reflexivity. }
  { unfold DataManager.deleteTrade, bind, DataManager.loadTrades.
    rewrite (absent_filter _ _ Habs), Nat.eqb_refl. reflexivity. }
Qed.

Lemma deleteTrade_removes_every_match_witness :
  DataManager.deleteTrade "trade_1" Samples.oneTradeStore = ([], Returned true).
Proof.
  apply (deleteTrade_removes_every_match "trade_1" Samples.oneTradeStore
                                        Samples.storedAapl).
  - left. reflexivity.
  - reflexivity.
Defined.

End StoreRoundTrips.

Section StoreUpdates.

Lemma setAt_length {A : Type} (i : nat) (v : A) (l : list A) :
  List.length (setAt i v l) = List.length l.
Proof.
  revert i. induction l as [|x r IH]; intro i.
  - destruct i; reflexivity.
  - destruct i; cbn [setAt List.length]; [|rewrite IH]; reflexivity.
Qed.

Lemma setAt_other {A : Type} (i j : nat) (v : A) (l : list A) :
  j <> i -> nth_error (setAt i v l) j = nth_error l j.
Proof.
  revert i j. induction l as [|x r IH]; intros i j H.
  - destruct i; reflexivity.
  - destruct i, j; cbn [setAt nth_error]; try reflexivity; try lia.
    apply IH. lia.
Qed.

Lemma findIndex_first {A : Type} (p : A -> bool) (l : list A) (i : nat) :
  findIndex p l = Some i ->
  (exists x, nth_error l i = Some x /\ p x = true)
  /\ (forall j y, (j < i)%nat -> nth_error l j = Some y -> p y = false).
Proof.
  revert i. induction l as [|x r IH]; intros i H; cbn [findIndex] in H.
  - discriminate H.
  - destruct (p x) eqn:E.
    + injection H as <-. split; [exists x; auto | intros j y Hj; lia].
    + destruct (findIndex p r) as [k|]; [|discriminate H].
      injection H as <-. destruct (IH k eq_refl) as [Hx Hbefore]. split.
      * exact Hx.
      * intros j y Hj Hy. destruct j as [|j]; cbn [nth_error] in Hy.
        -- injection Hy as <-. exact E.
        -- apply (Hbefore j y); [lia | exact Hy].
Qed.

(** When [updateTrade] returns, the store has as many trades as before; the
    trade changed is the first one with the identifier and every other
    position is untouched; the trade returned carries the clock reading as
    [updatedAt] and, unless the update names them, the [createdAt] it had and
    its identifier. *)
Theorem updateTrade_changes_first_match_only
        (now : Z) (tradeId : string) (updates : Updates)
        (store store' : Store) (t : Trade) :
  DataManager.updateTrade now tradeId updates store = (store', Returned t) ->
  List.length store' = List.length store
  /\ updatedAt t = Some now
  /\ exists (index : nat) (old : Trade),
       nth_error store index = Some old
       /\ id old = Some tradeId
       /\ nth_error store' index = Some t
       /\ (forall j u, (j < index)%nat -> nth_error store j = Some u ->
                       id u <> Some tradeId)
       /\ (forall j, j <> index -> nth_error store' j = nth_error store j)
       /\ (u_createdAt updates = None -> createdAt t = createdAt old)
       /\ (u_id updates = None -> id t = Some tradeId).
Proof.
  intro H.
  destruct (updateTrade_returned _ _ _ _ _ _ H) as [index [F [_ [Ht [Hs Hn]]]]].
  pose proof (findIndex_bound _ _ _ F) as Hb.
  destruct (findIndex_first _ _ _ F) as [[old [Hold Hp]] Hbefore].
  apply textIs_true in Hp.
  assert (Hnth : nth index store emptyTrade = old).
  { apply nth_error_nth. exact Hold. }
  split; [rewrite Hs; apply setAt_length|].
  split; [rewrite Ht; reflexivity|].
  exists index, old.
  split; [exact Hold|]. split; [exact Hp|].
  split.
  { rewrite <- Hn. apply nth_error_nth'. rewrite Hs, setAt_length. exact Hb. }
  split.
  { intros j u Hj Hu E. apply textIs_true in E.
    rewrite (Hbefore j u Hj Hu) in E. discriminate E. }
  split; [intros j Hj; rewrite Hs; apply setAt_other; exact Hj|].
  split.
  - intro Hc. rewrite Ht, Hnth. cbn. rewrite Hc. reflexivity.
  - intro Hi. rewrite Ht, Hnth. cbn. rewrite Hi. exact Hp.
Qed.

Lemma updateTrade_changes_first_match_only_witness :
  List.length [Samples.updatedAapl] = List.length Samples.oneTradeStore
  /\ updatedAt Samples.updatedAapl = Some 40%Z.
Proof.
  assert (H : DataManager.updateTrade 40 "trade_1" Samples.exitAt156
                                      Samples.oneTradeStore
               = ([Samples.updatedAapl], Returned Samples.updatedAapl))
    by (vm_compute; reflexivity).
  destruct (updateTrade_changes_first_match_only _ _ _ _ _ _ H)
    as [H1 [H2 _]].
  split; [exact H1 | exact H2].
Defined.

End StoreUpdates.

Section FormAndStore.

Lemma check_when (tested failed : bool) (message : string)
      (errors : list string) :
  (if tested then check failed message errors else errors)
  = errors ++ (if (tested && failed)%bool then [message] else []).
Proof.
  destruct tested; cbn [andb]; [apply check_app | symmetry; apply app_nil_r].
Qed.

(** The form's validator also collects the messages of all its violated
    rules, in order. *)
Lemma validateFormData_collects (formData : Trade) :
  TradeForm.validateFormData formData = violations (formRules formData).
Proof.
  unfold TradeForm.validateFormData, violations, formRules.
  cbv zeta. rewrite !check_when, !check_app.
  cbn [flat_map fst snd app].
  rewrite <- !app_assoc, app_nil_r. reflexivity.
Qed.

(** Data that the trade form accepts and that carries no risk amount (the
    form has no such field) is accepted by the store's validator, so
    [addTrade] does not throw on it. *)
Theorem form_accepted_is_store_accepted (formData : Trade) :
  TradeForm.validateFormData formData = [] ->
  truthy (riskAmount formData) = false ->
  DataManager.validateTrade formData = []
  /\ forall (newId : string) (created updated : Z) (store : Store),
       exists stored,
         DataManager.addTrade newId created updated formData store
         = (store ++ [stored], Returned stored).
Proof.
  intros H Hrisk.
  assert (Hv : DataManager.validateTrade formData = []).
  { rewrite validateFormData_collects, violations_nil in H.
    rewrite validateTrade_collects, violations_nil.
    unfold formRules in H. unfold storeRules.
    repeat match goal with
           | H : Forall _ (_ :: _) |- _ =>
               let Hh := fresh "Hrule" in
               pose proof (Forall_inv H) as Hh;
               apply Forall_inv_tail in H; cbn [fst] in Hh
           end.
    rewrite Hrisk, andb_false_r.
    repeat (constructor; [cbn [fst andb]; assumption || reflexivity|]).
    constructor. }
  split; [exact Hv|].
  intros newId created updated store.
  eexists. unfold DataManager.addTrade, bind, DataManager.loadTrades.
  rewrite Hv. reflexivity.
Qed.

Lemma form_accepted_is_store_accepted_witness :
  DataManager.validateTrade Samples.aaplTenShares = [].
Proof.
  apply (form_accepted_is_store_accepted Samples.aaplTenShares); reflexivity.
Defined.

End FormAndStore.

(** * Further properties of the performance summary *)

Section SummaryCounts.

Lemma countIf_le_length (p : Trade -> bool) (l : list Trade) :
  (Spec.countIf p l <= List.length l)%nat.
Proof.
  induction l as [|x r IH]; cbn [Spec.countIf List.length]; [lia|].
  destruct (p x); lia.
Qed.

Lemma winners_losers_le (l : list Trade) :
  (List.length (filter isWinner l) + List.length (filter isLoser l)
   <= List.length l)%nat.
Proof.
  induction l as [|x r IH]; cbn [filter List.length]; [lia|].
  destruct (isWinner x) eqn:W.
  - rewrite (winner_not_loser x W). cbn [List.length]. lia.
  - destruct (isLoser x); cbn [List.length]; lia.
Qed.

(** The counts of the summary: winners and losers are disjoint sets of
    closed trades, and with no closed trade every figure but the number of
    trades is 0. *)
Theorem summary_counts (trades : list Trade) :
  totalTrades (DataManager.summaryOf trades) = List.length trades
  /\ (winningTrades (DataManager.summaryOf trades)
      + losingTrades (DataManager.summaryOf trades)
      <= Spec.closedCount trades <= List.length trades)%nat
  /\ (Spec.closedCount trades = O ->
      DataManager.summaryOf trades
      = mkSummary (List.length trades) 0 0 (Fin 0) (Fin 0) (Fin 0) (Fin 0)
                  (Fin 0) (Fin 0) (Fin 0) (Fin 0) (Fin 0) (Fin 0) (Fin 0)
                  0 0 0).
Proof.
  unfold Spec.closedCount. rewrite <- filter_length_countIf.
  destruct trades as [|x r]; [repeat split; cbn; lia|].
  unfold DataManager.summaryOf. cbn [List.length Nat.eqb].
  cbn [totalTrades winningTrades losingTrades].
  split; [reflexivity|]. split.
  - split; [apply winners_losers_le|].
    rewrite filter_length_countIf. apply (countIf_le_length isClosed (x :: r)).
  - intro H. apply length_zero_iff_nil in H. rewrite H. reflexivity.
Qed.

Lemma summary_counts_witness :
  DataManager.summaryOf [Samples.aaplOpen]
  = mkSummary 1 0 0 (Fin 0) (Fin 0) (Fin 0) (Fin 0) (Fin 0) (Fin 0) (Fin 0)
              (Fin 0) (Fin 0) (Fin 0) (Fin 0) 0 0 0.
Proof.
  apply (proj2 (proj2 (summary_counts [Samples.aaplOpen]))).
  reflexivity.
Defined.

End SummaryCounts.

Section StreakBounds.

Lemma insertSorted_filter_length {A : Type} (c : A -> A -> num) (p : A -> bool)
      (x : A) (l : list A) :
  List.length (filter p (insertSorted c x l))
  = List.length (filter p (x :: l)).
Proof.
  induction l as [|y r IH]; cbn [insertSorted]; [reflexivity|].
  destruct (gt (c x y) (Fin 0)); [|reflexivity].
  cbn [filter] in *. destruct (p y), (p x); cbn [List.length] in *; lia.
Qed.

(** Sorting keeps the number of elements that satisfy a test. *)
Lemma sortBy_filter_length {A : Type} (c : A -> A -> num) (p : A -> bool)
      (l : list A) :
  List.length (filter p (sortBy c l)) = List.length (filter p l).
Proof.
  induction l as [|x r IH]; cbn [sortBy fold_right]; [reflexivity|].
  fold (sortBy c r). rewrite insertSorted_filter_length.
  cbn [filter]. destruct (p x); cbn [List.length]; rewrite IH; reflexivity.
Qed.

(** The loop keeps the counter between the two extremes, and the extremes
    within the numbers of winners and of losers seen. *)
Lemma streak_loop_bounds (l : list Trade) :
  forall (t b w : Z) (W L : nat),
    (w <= t <= b)%Z -> (b <= Z.of_nat W)%Z -> (- Z.of_nat L <= w)%Z ->
    let final := fold_left DataManager.streakStep l (t, b, w) in
    (snd final <= fst (fst final) <= snd (fst final))%Z
    /\ (snd (fst final)
        <= Z.of_nat (W + List.length (filter isWinner l)))%Z
    /\ (- Z.of_nat (L + List.length (filter isLoser l)) <= snd final)%Z.
Proof.
  induction l as [|x r IH]; intros t b w W L Ht Hb Hw; cbn [fold_left filter].
  - cbn [fst snd List.length]. lia.
  - rewrite streakStep_eq. cbv zeta.
    unfold isWinner at 1, isLoser at 1.
    destruct (gt (profitLoss x) (Fin 0)) eqn:G.
    + assert (Hl : lt (profitLoss x) (Fin 0) = false)
        by (apply (winner_not_loser x); exact G).
      rewrite Hl. cbn [List.length].
      replace (W + S (List.length (filter isWinner r)))%nat
        with (S W + List.length (filter isWinner r))%nat by lia.
      apply IH; destruct (Z.leb_spec 0 t); lia.
    + destruct (lt (profitLoss x) (Fin 0)) eqn:Hl; cbn [List.length].
      * replace (L + S (List.length (filter isLoser r)))%nat
          with (S L + List.length (filter isLoser r))%nat by lia.
        apply IH; destruct (Z.leb_spec t 0); lia.
      * apply IH; lia.
Qed.

(** [calculateStreaks] returns [worst <= current <= best], with [best] at
    most the number of winning trades it was given and [worst] at least
    minus the number of losing ones. *)
Theorem streaks_within_counts (trades : list Trade) :
  let streaks := DataManager.calculateStreaks trades in
  (worst streaks <= current streaks <= best streaks)%Z
  /\ (best streaks <= Z.of_nat (List.length (filter isWinner trades)))%Z
  /\ (- Z.of_nat (List.length (filter isLoser trades)) <= worst streaks)%Z.
Proof.
  destruct trades as [|x r]; [cbn; lia|].
  cbv zeta. rewrite calculateStreaks_unfold by discriminate.
  cbn [current best worst].
  pose proof (streak_loop_bounds
                (sortBy DataManager.byExitDateDescending (x :: r))
                0 0 0 0 0) as H.
  cbv zeta in H. rewrite !sortBy_filter_length in H.
  apply H; lia.
Qed.

End StreakBounds.

(** * Finite profit/loss *)

Section FiniteProfitLoss.

Lemma finitePL_Fin (t : Trade) : finitePL t -> profitLoss t = Fin (plQ t).
Proof.
  unfold finitePL, plQ. destruct (profitLoss t); cbn; try discriminate.
  reflexivity.
Qed.

Lemma map_profitLoss_finite (l : list Trade) :
  Forall finitePL l ->
  map (fun t : Trade => profitLoss t) l = map Fin (map plQ l).
Proof.
  intro H. induction H as [|x r Hx Hr IH]; cbn [map]; [reflexivity|].
  rewrite (finitePL_Fin x Hx), IH. reflexivity.
Qed.

Lemma isLoser_finite (t : Trade) :
  finitePL t -> isLoser t = Qltb (plQ t) 0.
Proof. intro H. unfold isLoser. rewrite (finitePL_Fin t H). reflexivity. Qed.

Lemma isWinner_finite (t : Trade) :
  finitePL t -> isWinner t = Qltb 0 (plQ t).
Proof.
  intro H. unfold isWinner, gt. rewrite (finitePL_Fin t H). reflexivity.
Qed.

Lemma filter_Forall {A : Type} (P : A -> Prop) (p : A -> bool) (l : list A) :
  Forall P l -> Forall P (filter p l).
Proof.
  intro H. induction H as [|x r Hx Hr IH]; cbn [filter]; [constructor|].
  destruct (p x); [constructor; assumption | exact IH].
Qed.

End FiniteProfitLoss.

(** * Further properties of the drawdown and of the averages *)

Section DrawdownPercent.

Lemma drawdownPercentStep_eq (p m r : num) (x : Trade) :
  Calculator.drawdownPercentStep (p, m, r) x
  = let r' := add r (profitLoss x) in
    let p' := max p r' in
    (p',
     if gt p' (Fin 0)
     then max m (mul (div (sub p' r') p') (Fin 100))
     else m,
     r').
Proof. reflexivity. Qed.

Lemma percent_loop_not_negative (l : list Trade) :
  forall p m r : num,
    lt m (Fin 0) = false ->
    lt (snd (fst (fold_left Calculator.drawdownPercentStep l (p, m, r))))
       (Fin 0) = false.
Proof.
  induction l as [|x rest IH]; intros p m r Hm; cbn [fold_left].
  - exact Hm.
  - rewrite drawdownPercentStep_eq. cbv zeta. apply IH.
    destruct (gt (max p (add r (profitLoss x))) (Fin 0));
      [apply max_not_negative|]; exact Hm.
Qed.

Lemma add_not_positive (x y : num) :
  gt x (Fin 0) = false -> gt y (Fin 0) = false -> gt (add x y) (Fin 0) = false.
Proof.
  unfold gt. destruct x as [a| | |], y as [b| | |]; cbn [add lt];
    try discriminate; try reflexivity.
  intros Ha Hb. apply Qltb_ge in Ha, Hb. apply Qltb_ge. lra.
Qed.

Lemma peak_stays_at_zero (p r : num) :
  p = Fin 0 \/ p = NaN -> gt r (Fin 0) = false ->
  (max p r = Fin 0 \/ max p r = NaN) /\ gt (max p r) (Fin 0) = false.
Proof.
  intros [->| ->] Hr; [|split; [right|]; reflexivity].
  unfold gt in Hr. destruct r as [a| | |]; cbn [lt] in Hr;
    try discriminate Hr.
  - unfold max. cbn [lt]. rewrite Hr. split; [left|]; reflexivity.
  - split; [left|]; reflexivity.
  - split; [right|]; reflexivity.
Qed.

Lemma percent_loop_no_winner (l : list Trade) :
  Forall (fun t => isWinner t = false) l ->
  forall p r : num,
    p = Fin 0 \/ p = NaN -> gt r (Fin 0) = false ->
    snd (fst (fold_left Calculator.drawdownPercentStep l (p, Fin 0, r)))
    = Fin 0.
Proof.
  intro H. induction H as [|x rest Hx Hrest IH]; intros p r Hp Hr;
    cbn [fold_left].
  - reflexivity.
  - rewrite drawdownPercentStep_eq. cbv zeta.
    pose proof (add_not_positive r (profitLoss x) Hr Hx) as Hr'.
    destruct (peak_stays_at_zero p _ Hp Hr') as [Hp' Hg].
    rewrite Hg. apply IH; assumption.
Qed.

Lemma maxDrawdownPercent_unfold (trades : list Trade) :
  Calculator.calculateMaxDrawdownPercent trades
  = if Nat.eqb (List.length (filter isClosed trades)) 0 then Fin 0
    else snd (fst (fold_left Calculator.drawdownPercentStep
                     (sortBy Calculator.byExitDateAscending
                             (filter isClosed trades))
                     (Fin 0, Fin 0, Fin 0))).
Proof.
  unfold Calculator.calculateMaxDrawdownPercent.
  destruct (Nat.eqb (List.length (filter isClosed trades)) 0); [reflexivity|].
  destruct (fold_left _ _ _) as [[p m] r]. reflexivity.
Qed.

(** The percentage drawdown is never below 0, and it is measured only
    while the peak of the running total is above 0: when no closed trade
    wins it is 0 whatever was lost (two losses of 1 and 2 give an absolute
    drawdown of 3 and a percentage of 0), and when the total falls below
    zero it exceeds 100 (+100, -150, +50 gives 150). *)
Theorem maxDrawdownPercent_measured_above_zero :
  (forall trades : list Trade,
     lt (Calculator.calculateMaxDrawdownPercent trades) (Fin 0) = false)
  /\ (forall trades : list Trade,
        Forall (fun t => isClosed t = true -> isWinner t = false) trades ->
        Calculator.calculateMaxDrawdownPercent trades = Fin 0)
  /\ Calculator.calculateMaxDrawdown Samples.twoLosers = Fin 3
  /\ Calculator.calculateMaxDrawdownPercent Samples.twoLosers = Fin 0
  /\ eqv (Calculator.calculateMaxDrawdownPercent Samples.drawdownTrades)
         (Fin 150).
Proof.
  split.
  { intro trades. rewrite maxDrawdownPercent_unfold.
    destruct (Nat.eqb _ 0); [reflexivity|].
    apply percent_loop_not_negative. reflexivity. }
  split.
  { intros trades H. rewrite maxDrawdownPercent_unfold.
    destruct (Nat.eqb _ 0); [reflexivity|].
    apply percent_loop_no_winner.
    - apply sortBy_Forall. apply closed_all. exact H.
    - left. reflexivity.
    - reflexivity. }
  repeat split; vm_compute; reflexivity.
Qed.

Lemma maxDrawdownPercent_measured_above_zero_witness :
  Calculator.calculateMaxDrawdownPercent Samples.twoLosers = Fin 0.
Proof.
  apply (proj1 (proj2 maxDrawdownPercent_measured_above_zero)
               Samples.twoLosers).
  repeat constructor.
Defined.

End DrawdownPercent.

Section CalculatorAndSummary.

Lemma negative_shape (x : num) :
  negative x -> (exists a, x = Fin a /\ a < 0) \/ x = NInf.
Proof.
  unfold negative. destruct x as [a| | |]; cbn [lt]; try discriminate.
  - intro H. apply Qltb_lt in H. left. exists a. auto.
  - right. reflexivity.
Qed.

Lemma losers_sum_negative (losers : list Trade) :
  Forall (fun t => isLoser t = true) losers -> losers <> [] ->
  negative (sumOf (fun t : Trade => profitLoss t) losers).
Proof.
  intros H Hne. destruct H as [|x r Hx Hr]; [contradiction|].
  unfold sumOf. cbn [fold_left].
  apply sum_negative; [exact Hr|]. apply add_zero_negative. exact Hx.
Qed.

Lemma count_positive (n : nat) : n <> O -> 0 < inject_Z (Z.of_nat n).
Proof.
  intro H. change (inject_Z 0 < inject_Z (Z.of_nat n)).
  rewrite <- Zlt_Qlt. lia.
Qed.

(** Dividing by a positive count commutes with the absolute value. *)
Lemma abs_div_count (x : num) (n : nat) :
  negative x -> n <> O ->
  eqv (div (abs x) (ofNat n)) (abs (div x (ofNat n))).
Proof.
  intros Hx Hn. unfold ofNat.
  pose proof (proj1 (isZero_false _) (ofNat_nonzero n Hn)) as Hnz.
  pose proof (count_positive n Hn) as Hpos.
  destruct (negative_shape x Hx) as [[a [-> Ha]]| ->].
  - cbn [abs]. rewrite !div_Fin_nonzero by exact Hnz. cbn [abs eqv].
    unfold Qdiv. rewrite Qabs_Qmult, Qabs_Qinv.
    rewrite (Qabs_pos (inject_Z (Z.of_nat n))); [reflexivity|].
    apply Qlt_le_weak. exact Hpos.
  - cbn [abs div].
    assert (E : Qltb (inject_Z (Z.of_nat n)) 0 = false)
      by (apply Qltb_ge; apply Qlt_le_weak; exact Hpos).
    rewrite E. exact I.
Qed.

(** The calculator's separate functions return the figures of the store's
    summary for average win, largest win, largest loss and average
    risk/reward; the average loss is the exception: the summary reports its
    magnitude and the calculator the signed value, which is never above 0. *)
Theorem calculator_agrees_with_summary (trades : list Trade) :
  averageWin (DataManager.summaryOf trades)
  = Calculator.calculateAverageWin trades
  /\ largestWin (DataManager.summaryOf trades)
     = Calculator.calculateLargestWin trades
  /\ largestLoss (DataManager.summaryOf trades)
     = Calculator.calculateLargestLoss trades
  /\ averageRiskReward (DataManager.summaryOf trades)
     = Calculator.calculateAverageRiskReward trades
  /\ eqv (averageLoss (DataManager.summaryOf trades))
         (abs (Calculator.calculateAverageLoss trades))
  /\ gt (Calculator.calculateAverageLoss trades) (Fin 0) = false.
Proof.
  unfold Calculator.calculateAverageWin, Calculator.calculateLargestWin,
    Calculator.calculateLargestLoss, Calculator.calculateAverageRiskReward,
    Calculator.calculateAverageLoss.
  rewrite <- !filter_filter.
  destruct trades as [|x r]; [repeat split; reflexivity|].
  unfold DataManager.summaryOf. cbn [List.length Nat.eqb].
  cbn [averageWin largestWin largestLoss averageRiskReward averageLoss].
  set (closed := filter isClosed (x :: r)).
  set (winners := filter isWinner closed).
  set (losers := filter isLoser closed).
  split; [destruct winners; reflexivity|].
  split; [destruct winners; reflexivity|].
  split; [destruct losers; reflexivity|].
  split; [destruct closed; reflexivity|].
  assert (Hl : Forall (fun t => isLoser t = true) losers)
    by apply filter_all.
  destruct losers as [|y ys] eqn:El; [split; reflexivity|].
  cbn [List.length Nat.ltb Nat.leb Nat.eqb].
  pose proof (losers_sum_negative (y :: ys) Hl ltac:(discriminate)) as Hneg.
  split.
  - apply abs_div_count; [exact Hneg | discriminate].
  - destruct (negative_shape _ Hneg) as [[a [E Ha]]|E]; rewrite E.
    + unfold ofNat. rewrite div_Fin_nonzero.
      * unfold gt. cbn [lt]. apply Qltb_ge.
        assert (Hpos : 0 < inject_Z (Z.of_nat (S (List.length ys))))
          by (apply count_positive; discriminate).
        unfold Qdiv. 
        assert (0 < / inject_Z (Z.of_nat (S (List.length ys))))
          by (apply Qinv_lt_0_compat; exact Hpos).
        assert (0 <= (- a) * / inject_Z (Z.of_nat (S (List.length ys))))
          by (apply Qmult_le_0_compat; lra).
        lra.
      * apply isZero_false. apply ofNat_nonzero. discriminate.
    + unfold ofNat. cbn [div].
      destruct (Qltb (inject_Z (Z.of_nat (S (List.length ys)))) 0) eqn:E';
        [|reflexivity].
      apply Qltb_lt in E'.
      pose proof (count_positive (S (List.length ys)) ltac:(discriminate)).
      lra.
Qed.

End CalculatorAndSummary.

(** * The equity curve *)

Section EquityCurve.

Lemma equity_loop (l : list Trade) :
  forall (r : num) (acc : list EquityPoint),
    fold_left Calculator.equityStep l (r, acc)
    = (fold_left add (map equityChange l) r, acc ++ curveFrom r l).
Proof.
  induction l as [|x rest IH]; intros r acc; cbn [fold_left map curveFrom].
  - rewrite app_nil_r. reflexivity.
  - unfold Calculator.equityStep at 2. fold (equityChange x).
    rewrite IH, <- app_assoc. reflexivity.
Qed.

Lemma curveFrom_maps (l : list Trade) : forall r : num,
  map pointDate (curveFrom r l) = map (fun t : Trade => exitDate t) l
  /\ map pointTradeId (curveFrom r l) = map (fun t : Trade => id t) l
  /\ map pointSymbol (curveFrom r l) = map (fun t : Trade => symbol t) l
  /\ map pointPL (curveFrom r l) = map (fun t => Some (equityChange t)) l
  /\ map equity (curveFrom r l) = runningSums r (map equityChange l).
Proof.
  induction l as [|x rest IH]; intro r; cbn [curveFrom map runningSums].
  - repeat split; reflexivity.
  - destruct (IH (add r (equityChange x))) as [H1 [H2 [H3 [H4 H5]]]].
    cbn [pointDate pointTradeId pointSymbol pointPL equity].
    rewrite H1, H2, H3, H4, H5. repeat split; reflexivity.
Qed.

Lemma equity_curve_shape (now : Z) (trades : list Trade)
        (initialCapital : option Q) :
  let start := Fin (startingEquity initialCapital) in
  let sorted :=
    sortBy Calculator.byExitDateAscending (filter isClosed trades) in
  let curve := Calculator.getEquityCurveData now trades initialCapital in
  curve <> []
  /\ (Spec.closedCount trades = O ->
      curve = [mkPoint (Instant now) start None None None])
  /\ (Spec.closedCount trades <> O ->
      List.length curve = Spec.closedCount trades
      /\ map pointDate curve = map (fun t : Trade => exitDate t) sorted
      /\ map pointTradeId curve = map (fun t : Trade => id t) sorted
      /\ map pointSymbol curve = map (fun t : Trade => symbol t) sorted
      /\ map pointPL curve = map (fun t => Some (equityChange t)) sorted
      /\ map equity curve = runningSums start (map equityChange sorted)).
Proof.
  cbv zeta. unfold Calculator.getEquityCurveData, Spec.closedCount.
  rewrite <- filter_length_countIf.
  replace (match initialCapital with Some c => Fin c | None => Fin 10000 end)
    with (Fin (startingEquity initialCapital))
    by (destruct initialCapital; reflexivity).
  destruct (filter isClosed trades) as [|x r] eqn:Ec.
  - cbn [List.length Nat.eqb]. split; [discriminate|].
    split; [reflexivity | intro H; contradiction].
  - cbn [List.length Nat.eqb]. rewrite equity_loop. cbn [snd app].
    set (sorted := sortBy Calculator.byExitDateAscending (x :: r)).
    assert (Hlen : List.length sorted = S (List.length r))
      by (unfold sorted; rewrite sortBy_length; reflexivity).
    destruct (curveFrom_maps sorted (Fin (startingEquity initialCapital)))
      as [H1 [H2 [H3 [H4 H5]]]].
    split.
    + intro E. apply (f_equal (@List.length _)) in E.
      rewrite <- (length_map pointDate), H1, length_map, Hlen in E.
      discriminate E.
    + split; [discriminate|]. intros _.
      split; [|repeat split; assumption].
      rewrite <- (length_map pointDate), H1, length_map. exact Hlen.
Qed.


(** [getEquityCurveData] never returns an empty curve.  With no closed
    trade it is the single point of the initial capital at the clock
    reading.  Otherwise, when the closed trades all have a valid exit
    date, it has one point per closed trade, in ascending order of exit
    date (trades of one date in the order of the collection), each
    carrying the trade's exit date, identifier, symbol and
    [profitLoss || 0], and an equity that is the initial capital plus the
    amounts up to and including that trade. *)
Theorem equityCurve_points (now : Z) (trades sorted : list Trade)
        (initialCapital : option Q) :
  let start := Fin (startingEquity initialCapital) in
  let curve := Calculator.getEquityCurveData now trades initialCapital in
  curve <> []
  /\ (Spec.closedCount trades = O ->
      curve = [mkPoint (Instant now) start None None None])
  /\ (Spec.closedCount trades <> O ->
      Forall hasExitInstant (filter isClosed trades) ->
      inExitOrder (filter isClosed trades) sorted ->
      List.length curve = Spec.closedCount trades
      /\ map pointDate curve = map (fun t : Trade => exitDate t) sorted
      /\ map pointTradeId curve = map (fun t : Trade => id t) sorted
      /\ map pointSymbol curve = map (fun t : Trade => symbol t) sorted
      /\ map pointPL curve = map (fun t => Some (equityChange t)) sorted
      /\ map equity curve = runningSums start (map equityChange sorted)).
Proof.
  cbv zeta.
  destruct (equity_curve_shape now trades initialCapital) as [H1 [H2 H3]].
  split; [exact H1|]. split; [exact H2|].
  intros Hne Hi Ho. specialize (H3 Hne). cbv zeta in H3.
  change Calculator.byExitDateAscending
    with DataManager.byExitDateAscending in H3.
  rewrite (sortBy_is_exit_order _ sorted Hi Ho) in H3. exact H3.
Qed.

Lemma equityCurve_points_witness :
  Calculator.getEquityCurveData 99 [Samples.aaplOpen] None
  = [mkPoint (Instant 99) (Fin 10000) None None None]
  /\ map equity (Calculator.getEquityCurveData 99 Samples.drawdownTrades None)
     = runningSums (Fin (startingEquity None))
                   (map equityChange Samples.drawdownTrades).
Proof.
  split.
  - apply (proj1 (proj2 (equityCurve_points 99 [Samples.aaplOpen] [] None))).
    reflexivity.
  - assert (Hne : Spec.closedCount Samples.drawdownTrades <> O)
      by discriminate.
    assert (Hi : Forall hasExitInstant
                   (filter isClosed Samples.drawdownTrades))
      by (repeat constructor; eexists; reflexivity).
    assert (Ho : inExitOrder (filter isClosed Samples.drawdownTrades)
                             Samples.drawdownTrades).
    { split; [|intro ms; reflexivity].
      repeat (apply SSorted_cons || apply SSorted_nil || apply Forall_cons
              || apply Forall_nil);
        unfold exitsNoLater; vm_compute; discriminate. }
    apply (proj2 (proj2 (equityCurve_points 99 Samples.drawdownTrades
                           Samples.drawdownTrades None)) Hne Hi Ho).
Defined.

End EquityCurve.

(** * Grouped performance *)

Section Grouping.

Context {A : Type} (keyOf : A -> text).

Lemma textIs_unique (s : text) (k k' : string) :
  textIs s k = true -> textIs s k' = true -> k = k'.
Proof.
  intros H H'. apply textIs_true in H, H'. congruence.
Qed.

Lemma existsb_textIs (s : text) (keys : list string) :
  existsb (textIs s) keys = true <-> exists k, In k keys /\ s = Some k.
Proof.
  rewrite existsb_exists. split; intros [k [Hin H]]; exists k;
    (split; [exact Hin|]); apply textIs_true; exact H.
Qed.

(** Groups taken on distinct keys share no trade: their sizes add up to
    the number of trades whose key is one of the keys. *)
Lemma groups_partition (keys : list string) (l : list A) :
  NoDup keys ->
  fold_right (fun key n => (List.length (withKey keyOf key l) + n)%nat) O keys
  = List.length (withKeyIn keyOf keys l).
Proof.
  intro Hnd. induction Hnd as [|k ks Hk Hks IH]; cbn [fold_right].
  - unfold withKeyIn. cbn [existsb].
    induction l as [|x r IHl]; [reflexivity | exact IHl].
  - rewrite IH. unfold withKey, withKeyIn. clear IH.
    induction l as [|x r IHl]; [reflexivity|].
    cbn [existsb] in IHl. cbn [filter existsb].
    destruct (textIs (keyOf x) k) eqn:E; cbn [orb List.length].
    + assert (Hno : existsb (textIs (keyOf x)) ks = false).
      { destruct (existsb (textIs (keyOf x)) ks) eqn:E'; [|reflexivity].
        apply existsb_exists in E'. destruct E' as [k' [Hin Hk']].
        rewrite (textIs_unique _ _ _ E Hk') in Hk. contradiction. }
      rewrite Hno. cbn [List.length]. lia.
    + destruct (existsb (textIs (keyOf x)) ks); cbn [List.length]; lia.
Qed.

Lemma distinct_In (l : list string) (x : string) :
  In x (distinct l) <-> In x l.
Proof.
  induction l as [|y r IH]; cbn [distinct]; [reflexivity|].
  cbn [In]. rewrite filter_In, IH, negb_true_iff.
  destruct (String.eqb_spec x y) as [->|Hne].
  - split; [intros _; left; reflexivity | intros _; left; reflexivity].
  - split.
    + intros [E|[H _]]; [left; exact E | right; exact H].
    + intros [E|H]; [left; exact E | right; split; [exact H | reflexivity]].
Qed.

Lemma distinct_NoDup (l : list string) : NoDup (distinct l).
Proof.
  induction l as [|y r IH]; cbn [distinct]; [constructor|].
  constructor.
  - rewrite filter_In, String.eqb_refl. intros [_ H]. discriminate H.
  - apply NoDup_filter. exact IH.
Qed.

Lemma truthyTexts_In (l : list A) (k : string) :
  In k (truthyTexts (map keyOf l))
  <-> k <> EmptyString /\ exists x, In x l /\ keyOf x = Some k.
Proof.
  unfold truthyTexts. rewrite in_flat_map. split.
  - intros [v [Hv Hk]]. apply in_map_iff in Hv. destruct Hv as [x [Hx Hin]].
    destruct v as [s|]; [|contradiction].
    destruct s as [|c s']; cbn [nonEmpty] in Hk; [contradiction|].
    destruct Hk as [<-|[]]. split; [discriminate|]. exists x. auto.
  - intros [Hne [x [Hin Hx]]]. exists (Some k). split.
    + rewrite <- Hx. apply in_map. exact Hin.
    + destruct k; [contradiction|]. left. reflexivity.
Qed.

(** The keys the strategy and emotional-state analyses group by. *)
Lemma group_keys (l : list A) :
  let keys := distinct (truthyTexts (map keyOf l)) in
  NoDup keys
  /\ (forall k, In k keys
                <-> k <> EmptyString /\ exists x, In x l /\ keyOf x = Some k)
  /\ withKeyIn keyOf keys l = filter (fun x => nonEmpty (keyOf x)) l.
Proof.
  cbv zeta. split; [apply distinct_NoDup|]. split.
  - intro k. rewrite distinct_In. apply truthyTexts_In.
  - unfold withKeyIn. 
    assert (Hsub : forall r : list A,
               (forall x, In x r -> In x l) ->
               filter (fun x => existsb (textIs (keyOf x))
                                        (distinct (truthyTexts (map keyOf l)))) r
               = filter (fun x => nonEmpty (keyOf x)) r).
    { induction r as [|x r IH]; intro Hr; [reflexivity|].
      cbn [filter]. rewrite IH by (intros y Hy; apply Hr; right; exact Hy).
      assert (E : existsb (textIs (keyOf x))
                          (distinct (truthyTexts (map keyOf l)))
                  = nonEmpty (keyOf x)).
      { apply eq_true_iff_eq. rewrite existsb_textIs. split.
        - intros [k [Hin Hk]]. rewrite distinct_In, truthyTexts_In in Hin.
          rewrite Hk. destruct k; [destruct Hin as [Hne _]; contradiction|].
          reflexivity.
        - intro Hne. destruct (keyOf x) as [k|] eqn:Ek; [|discriminate Hne].
          exists k. split; [|reflexivity].
          rewrite distinct_In, truthyTexts_In. split.
          + intro E0. subst k. discriminate Hne.
          + exists x. split; [apply Hr; left; reflexivity | exact Ek]. }
      rewrite E. reflexivity. }
    apply Hsub. auto.
Qed.

(** A field value that gets a group: not empty and not "__proto__". *)
Lemma ownKey_true (k : string) : ownKey k = true <-> k <> "__proto__"%string.
Proof.
  unfold ownKey. rewrite negb_true_iff.
  destruct (String.eqb_spec k "__proto__"); split; congruence.
Qed.

(** The keys that get an entry of the result. *)
Lemma own_group_keys (l : list A) :
  let keys := filter ownKey (distinct (truthyTexts (map keyOf l))) in
  NoDup keys
  /\ (forall k, In k keys
                <-> k <> EmptyString /\ k <> "__proto__"%string
                    /\ exists x, In x l /\ keyOf x = Some k)
  /\ withKeyIn keyOf keys l
     = filter (fun x => (nonEmpty (keyOf x)
                         && negb (textIs (keyOf x) "__proto__"))%bool) l.
Proof.
  cbv zeta. destruct (group_keys l) as [Hnd [Hkeys _]].
  assert (Hin : forall k,
             In k (filter ownKey (distinct (truthyTexts (map keyOf l))))
             <-> k <> EmptyString /\ k <> "__proto__"%string
                 /\ exists x, In x l /\ keyOf x = Some k).
  { intro k. rewrite filter_In, Hkeys, ownKey_true. tauto. }
  split; [apply NoDup_filter; exact Hnd|]. split; [exact Hin|].
  unfold withKeyIn.
  assert (Hsub : forall r : list A,
             (forall x, In x r -> In x l) ->
             filter (fun x => existsb (textIs (keyOf x))
                                (filter ownKey
                                   (distinct (truthyTexts (map keyOf l))))) r
             = filter (fun x => (nonEmpty (keyOf x)
                                 && negb (textIs (keyOf x) "__proto__"))%bool)
                      r).
  { induction r as [|x r IH]; intro Hr; [reflexivity|].
    cbn [filter]. rewrite IH by (intros y Hy; apply Hr; right; exact Hy).
    assert (E : existsb (textIs (keyOf x))
                        (filter ownKey (distinct (truthyTexts (map keyOf l))))
                = (nonEmpty (keyOf x)
                   && negb (textIs (keyOf x) "__proto__"))%bool).
    { apply eq_true_iff_eq.
      rewrite existsb_textIs, andb_true_iff, negb_true_iff. split.
      - intros [k [Hk Ek]]. apply Hin in Hk. destruct Hk as [H0 [Hp _]].
        rewrite Ek. split.
        + destruct k; [contradiction | reflexivity].
        + cbn [textIs]. apply String.eqb_neq. exact Hp.
      - intros [Hne Hp]. destruct (keyOf x) as [k|] eqn:Ek; [|discriminate Hne].
        exists k. split; [|reflexivity]. apply Hin. split; [|split].
        + intro E0. subst k. discriminate Hne.
        + cbn [textIs] in Hp. apply String.eqb_neq. exact Hp.
        + exists x. split; [apply Hr; left; reflexivity | exact Ek]. }
    rewrite E. reflexivity. }
  apply Hsub. auto.
Qed.

End Grouping.

Section GroupedPerformance.

Lemma groupedTotal_map {A : Type} (trades : list A) (keys : list string)
      (group : string -> list Trade) (size : string -> nat) :
  (forall key, List.length (group key) = size key) ->
  groupedTotal (map (fun key => (key, Calculator.groupPerformance (group key)))
                    keys)
  = fold_right (fun key n => (size key + n)%nat) O keys.
Proof.
  intro H. unfold groupedTotal. induction keys as [|k ks IH]; [reflexivity|].
  cbn [map fold_right snd Calculator.groupPerformance groupTotalTrades].
  rewrite IH, H. reflexivity.
Qed.

Lemma In_length_positive {A : Type} (x : A) (l : list A) :
  In x l -> (0 < List.length l)%nat.
Proof. destruct l; [contradiction | cbn; lia]. Qed.

Lemma assetTypes_NoDup : NoDup Calculator.assetTypes.
Proof.
  unfold Calculator.assetTypes.
  repeat constructor; cbn [In]; intuition discriminate.
Qed.

(** [getPerformanceByAssetType] always reports the four asset types, in
    the order stocks, forex, crypto, options, even with no trade at all.
    Each group counts the trades of its asset type, of any status; the
    winners and losers of a group are disjoint; and the groups share no
    trade, so that their sizes add up to the number of trades whose asset
    type is one of the four. *)
Theorem assetType_groups (trades : list Trade) :
  let result := Calculator.getPerformanceByAssetType trades in
  map fst result = Calculator.assetTypes
  /\ (forall key group,
        In (key, group) result ->
        groupTotalTrades group
        = List.length (withKey (fun t : Trade => assetType t) key trades)
        /\ (groupWinningTrades group + groupLosingTrades group
            <= groupTotalTrades group)%nat)
  /\ groupedTotal result
     = List.length (withKeyIn (fun t : Trade => assetType t)
                              Calculator.assetTypes trades)
  /\ (groupedTotal result <= List.length trades)%nat.
Proof.
  cbv zeta. unfold Calculator.getPerformanceByAssetType.
  split; [rewrite map_map; cbn [fst]; apply map_id|].
  split.
  { intros key group Hin. apply in_map_iff in Hin.
    destruct Hin as [k [E _]]. injection E as <- <-.
    cbn [Calculator.groupPerformance groupTotalTrades groupWinningTrades
         groupLosingTrades].
    split; [reflexivity | apply winners_losers_le]. }
  assert (Hsum : groupedTotal
                   (map (fun key : string =>
                           (key, Calculator.groupPerformance
                                   (filter (fun trade : Trade =>
                                              textIs (assetType trade) key)
                                           trades)))
                        Calculator.assetTypes)
                 = List.length (withKeyIn (fun t : Trade => assetType t)
                                          Calculator.assetTypes trades)).
  { rewrite (groupedTotal_map trades Calculator.assetTypes
               (fun key => filter (fun trade : Trade =>
                                     textIs (assetType trade) key) trades)
               (fun key => List.length
                             (withKey (fun t : Trade => assetType t) key trades)))
      by reflexivity.
    apply (groups_partition (fun t : Trade => assetType t)).
    apply assetTypes_NoDup. }
  split; [exact Hsum|].
  rewrite Hsum. apply filter_length_le.
Qed.

(** The common shape of the strategy and emotional-state analyses. *)
Lemma journal_groups (keyOf : JournalTrade -> text) (trades : list JournalTrade) :
  let result :=
    map (fun key : string =>
           (key, Calculator.groupPerformance
                   (map journalTrade
                        (filter (fun trade : JournalTrade =>
                                   textIs (keyOf trade) key) trades))))
        (filter ownKey (distinct (truthyTexts (map keyOf trades)))) in
  NoDup (map fst result)
  /\ (forall key, In key (map fst result)
                  <-> key <> EmptyString /\ key <> "__proto__"%string
                      /\ exists t, In t trades /\ keyOf t = Some key)
  /\ (forall key group,
        In (key, group) result ->
        groupTotalTrades group = List.length (withKey keyOf key trades)
        /\ (0 < groupTotalTrades group)%nat)
  /\ groupedTotal result
     = List.length
         (filter (fun t => (nonEmpty (keyOf t)
                            && negb (textIs (keyOf t) "__proto__"))%bool)
                 trades).
Proof.
  cbv zeta.
  destruct (own_group_keys keyOf trades) as [Hnd [Hkeys Hcover]].
  assert (Hfst : forall keys : list string,
             map fst
               (map (fun key : string =>
                       (key, Calculator.groupPerformance
                               (map journalTrade
                                    (filter (fun trade : JournalTrade =>
                                               textIs (keyOf trade) key)
                                            trades))))
                    keys) = keys).
  { intro keys. rewrite map_map. cbn [fst]. apply map_id. }
  rewrite Hfst.
  split; [exact Hnd|]. split; [exact Hkeys|]. split.
  { intros key group Hin. apply in_map_iff in Hin.
    destruct Hin as [k [E Hk]]. injection E as <- <-.
    cbn [Calculator.groupPerformance groupTotalTrades].
    rewrite length_map. split; [reflexivity|].
    apply Hkeys in Hk. destruct Hk as [_ [_ [t [Hin Ht]]]].
    assert (Hin' : In t (filter (fun trade : JournalTrade =>
                                   textIs (keyOf trade) k) trades)).
    { apply filter_In. split; [exact Hin | apply textIs_true; exact Ht]. }
    apply (In_length_positive _ _ Hin'). }
  rewrite (groupedTotal_map trades _
             (fun key => map journalTrade
                             (filter (fun trade : JournalTrade =>
                                        textIs (keyOf trade) key) trades))
             (fun key => List.length (withKey keyOf key trades)))
    by (intro key; apply length_map).
  rewrite (groups_partition keyOf _ trades Hnd), Hcover. reflexivity.
Qed.

(** [getPerformanceByStrategy] and [getPerformanceByEmotionalState] report
    one group for each distinct value of the field that is neither empty
    nor "__proto__", and no other; a group counts the trades with that
    value and is never empty; and the group sizes add up to the number of
    trades with such a value: a trade with no strategy (or no emotional
    state), or with one named "__proto__", is in no group. *)
Theorem journal_groups_partition (trades : list JournalTrade) :
  (let result := Calculator.getPerformanceByStrategy trades in
   NoDup (map fst result)
   /\ (forall key, In key (map fst result)
                   <-> key <> EmptyString /\ key <> "__proto__"%string
                       /\ exists t, In t trades /\ strategy t = Some key)
   /\ (forall key group,
         In (key, group) result ->
         groupTotalTrades group
         = List.length (withKey (fun t : JournalTrade => strategy t) key trades)
         /\ (0 < groupTotalTrades group)%nat)
   /\ groupedTotal result
      = List.length
          (filter (fun t : JournalTrade =>
                     (nonEmpty (strategy t)
                      && negb (textIs (strategy t) "__proto__"))%bool)
                  trades))
  /\ (let result := Calculator.getPerformanceByEmotionalState trades in
      NoDup (map fst result)
      /\ (forall key, In key (map fst result)
                      <-> key <> EmptyString /\ key <> "__proto__"%string
                          /\ exists t, In t trades
                                       /\ emotionalState t = Some key)
      /\ (forall key group,
            In (key, group) result ->
            groupTotalTrades group
            = List.length (withKey (fun t : JournalTrade => emotionalState t)
                                   key trades)
            /\ (0 < groupTotalTrades group)%nat)
      /\ groupedTotal result
         = List.length
             (filter (fun t : JournalTrade =>
                        (nonEmpty (emotionalState t)
                         && negb (textIs (emotionalState t) "__proto__"))%bool)
                     trades)).
Proof.
  split.
  - exact (journal_groups (fun t : JournalTrade => strategy t) trades).
  - exact (journal_groups (fun t : JournalTrade => emotionalState t) trades).
Qed.

Lemma journal_groups_partition_witness :
  groupTotalTrades
    (Calculator.groupPerformance
       (map journalTrade
            (filter (fun t : JournalTrade =>
                       textIs (strategy t) "Momentum Breakout")
                    [Samples.journalAapl; Samples.journalUntagged])))
  = 1%nat.
Proof.
  destruct (journal_groups_partition
              [Samples.journalAapl; Samples.journalUntagged])
    as [[_ [_ [H _]]] _].
  destruct (H "Momentum Breakout"%string
              (Calculator.groupPerformance
                 (map journalTrade
                      (filter (fun t : JournalTrade =>
                                 textIs (strategy t) "Momentum Breakout")
                              [Samples.journalAapl; Samples.journalUntagged]))))
    as [E _].
  - left. reflexivity.
  - rewrite E. reflexivity.
Defined.

(** The strategy named "__proto__" gets no group; its trade still counts
    in the group of its emotional state. *)
Lemma strategy_named_proto_has_no_group :
  map fst (Calculator.getPerformanceByStrategy
             [Samples.journalProto; Samples.journalAapl])
  = ["Momentum Breakout"%string]
  /\ map (fun entry => (fst entry, groupTotalTrades (snd entry)))
         (Calculator.getPerformanceByEmotionalState
            [Samples.journalProto; Samples.journalAapl])
     = [("calm"%string, 2%nat)].
Proof. split; reflexivity. Qed.

Lemma assetType_groups_witness :
  groupTotalTrades (Calculator.groupPerformance Samples.threeTrades) = 3%nat.
Proof.
  destruct (assetType_groups Samples.threeTrades) as [_ [H _]].
  destruct (H "stocks"%string
              (Calculator.groupPerformance Samples.threeTrades)) as [E _].
  - left. reflexivity.
  - rewrite E. reflexivity.
Defined.

End GroupedPerformance.

(** * Monthly performance *)

Section Monthly.

Variable monthKey : date -> string.

Lemma fold_left_invariant {S B : Type} (f : S -> B -> S)
      (P : list B -> S -> Prop) (l : list B) :
  forall (pre : list B) (a : S),
    P pre a ->
    (forall pre x a, P pre a -> P (pre ++ [x]) (f a x)) ->
    P (pre ++ l) (fold_left f l a).
Proof.
  induction l as [|x r IH]; intros pre a H Hstep; cbn [fold_left].
  - rewrite app_nil_r. exact H.
  - replace (pre ++ x :: r) with ((pre ++ [x]) ++ r)
      by (rewrite <- app_assoc; reflexivity).
    apply IH; [apply Hstep; exact H | exact Hstep].
Qed.

Lemma entryOf_upsert {V : Type} (key k : string) (f : option V -> V)
      (object : list (string * V)) :
  entryOf k (upsert key f object)
  = if String.eqb k key then Some (f (entryOf key object))
    else entryOf k object.
Proof.
  unfold entryOf. induction object as [|[k0 v0] r IH]; cbn [upsert find fst snd].
  - rewrite (String.eqb_sym key k). destruct (String.eqb k key); reflexivity.
  - destruct (String.eqb_spec k0 key) as [->|Hne]; cbn [find fst snd].
    + rewrite (String.eqb_sym key k).
      destruct (String.eqb k key); reflexivity.
    + destruct (String.eqb_spec k0 k) as [->|Hne'].
      * destruct (String.eqb_spec k key) as [->|_];
          [contradiction | reflexivity].
      * rewrite IH. destruct (String.eqb_spec k key) as [->|_].
        -- destruct (String.eqb_spec k0 key); [contradiction | reflexivity].
        -- reflexivity.
Qed.

Lemma upsert_keys {V : Type} (key : string) (f : option V -> V)
      (object : list (string * V)) :
  map fst (upsert key f object)
  = if existsb (String.eqb key) (map fst object) then map fst object
    else map fst object ++ [key].
Proof.
  induction object as [|[k0 v0] r IH]; cbn [upsert map fst existsb app].
  - reflexivity.
  - rewrite (String.eqb_sym key k0).
    destruct (String.eqb k0 key); cbn [orb map fst].
    + reflexivity.
    + rewrite IH. destruct (existsb (String.eqb key) (map fst r)); reflexivity.
Qed.

Lemma upsert_NoDup {V : Type} (key : string) (f : option V -> V)
      (object : list (string * V)) :
  NoDup (map fst object) -> NoDup (map fst (upsert key f object)).
Proof.
  intro H. rewrite upsert_keys.
  destruct (existsb (String.eqb key) (map fst object)) eqn:E; [exact H|].
  apply NoDup_app; [exact H | repeat constructor; intros [] |].
  intros x Hx [<-|[]].
  assert (existsb (String.eqb key) (map fst object) = true).
  { apply existsb_exists. exists key.
    split; [exact Hx | apply String.eqb_refl]. }
  congruence.
Qed.

Lemma entryOf_In {V : Type} (object : list (string * V)) (k : string) (v : V) :
  NoDup (map fst object) ->
  (In (k, v) object <-> entryOf k object = Some v).
Proof.
  unfold entryOf. induction object as [|[k0 v0] r IH]; intro H;
    cbn [find fst snd In].
  - split; [contradiction | discriminate].
  - inversion H as [|? ? Hk0 Hr]; subst.
    destruct (String.eqb_spec k0 k) as [->|Hne]; cbn [snd].
    + split.
      * intros [E|Hin]; [injection E as <-; reflexivity|].
        exfalso. apply Hk0. apply (in_map fst) in Hin. exact Hin.
      * intro E. injection E as <-. left. reflexivity.
    + rewrite <- (IH Hr). split.
      * intros [E|Hin]; [injection E as E1 _; contradiction | exact Hin].
      * intro Hin. right. exact Hin.
Qed.

(** The trades of the month [key] among [l]. *)
Lemma inMonth_snoc (key : string) (l : list Trade) (t : Trade) :
  withKey (monthKeyOf monthKey) key (l ++ [t])
  = if String.eqb (monthKey (exitDate t)) key
    then withKey (monthKeyOf monthKey) key l ++ [t]
    else withKey (monthKeyOf monthKey) key l.
Proof.
  unfold withKey. rewrite filter_app. cbn [filter monthKeyOf textIs].
  destruct (String.eqb (monthKey (exitDate t)) key);
    [reflexivity | apply app_nil_r].
Qed.

Lemma monthOf_snoc (key : string) (ts : list Trade) (t : Trade) :
  mkMonth (month (monthOf key ts))
          (monthTrades (monthOf key ts) ++ [t])
          (add (monthTotalPL (monthOf key ts)) (orElse (profitLoss t) (Fin 0)))
          (if gt (profitLoss t) (Fin 0)
           then S (monthWinningTrades (monthOf key ts))
           else monthWinningTrades (monthOf key ts))
          (if gt (profitLoss t) (Fin 0)
           then monthLosingTrades (monthOf key ts)
           else if lt (profitLoss t) (Fin 0)
           then S (monthLosingTrades (monthOf key ts))
           else monthLosingTrades (monthOf key ts))
          (monthWinRate (monthOf key ts))
          (monthProfitFactor (monthOf key ts))
  = monthOf key (ts ++ [t]).
Proof.
  unfold monthOf.
  cbn [month monthTrades monthTotalPL monthWinningTrades monthLosingTrades
       monthWinRate monthProfitFactor].
  rewrite map_app, fold_left_app, !filter_app, !length_app.
  cbn [map fold_left filter]. fold (equityChange t).
  change (gt (profitLoss t) (Fin 0)) with (isWinner t).
  change (lt (profitLoss t) (Fin 0)) with (isLoser t).
  destruct (isWinner t) eqn:G.
  - rewrite (winner_not_loser t G). cbn [List.length]. f_equal; lia.
  - destruct (isLoser t); cbn [List.length]; f_equal; lia.
Qed.

Lemma monthStep_gathers (pre : list Trade) (t : Trade)
      (acc : list (string * MonthData)) :
  gathered monthKey pre acc ->
  gathered monthKey (pre ++ [t]) (Calculator.monthStep monthKey acc t).
Proof.
  intros [Hnd Hacc]. unfold Calculator.monthStep. cbv zeta. split.
  - apply upsert_NoDup. exact Hnd.
  - intro key. rewrite entryOf_upsert, inMonth_snoc, (String.eqb_sym key).
    destruct (String.eqb_spec (monthKey (exitDate t)) key) as [E|Hne].
    + rewrite (Hacc (monthKey (exitDate t))), E.
      destruct (withKey (monthKeyOf monthKey) key pre) as [|y ys].
      * cbn [app]. f_equal. apply (monthOf_snoc key [] t).
      * cbn [app]. f_equal. apply (monthOf_snoc key (y :: ys) t).
    + apply Hacc.
Qed.

Lemma first_pass_gathers (closed : list Trade) :
  gathered monthKey closed
           (fold_left (Calculator.monthStep monthKey) closed []).
Proof.
  apply (fold_left_invariant (Calculator.monthStep monthKey)
           (gathered monthKey) closed [] []).
  - split; [constructor | intro key; reflexivity].
  - intros pre x a H. apply monthStep_gathers. exact H.
Qed.

End Monthly.

Section MonthlyGroups.

Variable monthKey : date -> string.

Lemma filter_true {A : Type} (p : A -> bool) (l : list A) :
  (forall x, In x l -> p x = true) -> filter p l = l.
Proof.
  induction l as [|x r IH]; intro H; cbn [filter]; [reflexivity|].
  rewrite (H x (or_introl eq_refl)), IH; [reflexivity|].
  intros y Hy. apply H. right. exact Hy.
Qed.

Lemma fold_left_add_map {A : Type} (f : A -> num) (l : list A) :
  forall a : num,
    fold_left add (map f l) a = fold_left (fun sum x => add sum (f x)) l a.
Proof.
  induction l as [|x r IH]; intro a; cbn [map fold_left]; [reflexivity|].
  apply IH.
Qed.

Lemma monthlyTotal_by_key (result : list (string * MonthData))
      (size : string -> nat) :
  (forall key data, In (key, data) result ->
                    List.length (monthTrades data) = size key) ->
  monthlyTotal result
  = fold_right (fun key n => (size key + n)%nat) O (map fst result).
Proof.
  unfold monthlyTotal. induction result as [|[k d] r IH]; intro H;
    cbn [map fold_right fst snd]; [reflexivity|].
  rewrite (H k d (or_introl eq_refl)), IH; [reflexivity|].
  intros key data Hin. apply H. right. exact Hin.
Qed.

(** The win rate set in the second pass is the calculator's win rate of
    the month's trades, which are all closed. *)
Lemma monthMetrics_of_closed (key : string) (ts : list Trade) :
  Forall (fun t => isClosed t = true) ts ->
  Calculator.monthMetrics (monthOf key ts)
  = mkMonth key ts (sumOf equityChange ts)
            (List.length (filter isWinner ts))
            (List.length (filter isLoser ts))
            (Calculator.calculateWinRate ts)
            (Calculator.calculateProfitFactor ts).
Proof.
  intro H. unfold Calculator.monthMetrics, monthOf, Calculator.calculateWinRate.
  cbn [month monthTrades monthTotalPL monthWinningTrades monthLosingTrades].
  rewrite (filter_true isClosed ts)
    by (intros x Hx; rewrite Forall_forall in H; apply H; exact Hx).
  unfold sumOf. rewrite (fold_left_add_map equityChange).
  destruct ts as [|x r]; reflexivity.
Qed.

(** [getMonthlyPerformance] keeps one entry for each month in which a
    closed trade exited.  The entry of a month holds exactly the closed
    trades of that month, in their order, counts the winners and losers
    among them, adds up their [profitLoss || 0], and reports the win rate
    and the profit factor the calculator computes for those trades.  Every
    closed trade is in the entry of its month and in no other: the numbers
    of trades of the months add up to the number of closed trades. *)
Theorem monthly_groups (trades : list Trade) :
  let closed := filter isClosed trades in
  let result := Calculator.getMonthlyPerformance monthKey trades in
  NoDup (map fst result)
  /\ (forall key data,
        In (key, data) result ->
        month data = key
        /\ monthTrades data = withKey (monthKeyOf monthKey) key closed
        /\ monthTrades data <> []
        /\ monthTotalPL data = sumOf equityChange (monthTrades data)
        /\ monthWinningTrades data
           = List.length (filter isWinner (monthTrades data))
        /\ monthLosingTrades data
           = List.length (filter isLoser (monthTrades data))
        /\ monthWinRate data = Calculator.calculateWinRate (monthTrades data)
        /\ monthProfitFactor data
           = Calculator.calculateProfitFactor (monthTrades data))
  /\ (forall t, In t closed ->
                exists data, In (monthKey (exitDate t), data) result)
  /\ monthlyTotal result = List.length closed.
Proof.
  cbv zeta. unfold Calculator.getMonthlyPerformance.
  set (closed := filter isClosed trades).
  set (monthlyData := fold_left (Calculator.monthStep monthKey) closed []).
  destruct (first_pass_gathers monthKey closed) as [Hnd Hacc].
  fold monthlyData in Hnd, Hacc.
  assert (Hkeys : map fst (map (fun entry : string * MonthData =>
                                  (fst entry,
                                   Calculator.monthMetrics (snd entry)))
                               monthlyData)
                  = map fst monthlyData).
  { rewrite map_map. reflexivity. }
  assert (Hclosed : forall key,
             Forall (fun t => isClosed t = true)
                    (withKey (monthKeyOf monthKey) key closed)).
  { intro key. unfold withKey, closed. apply filter_Forall, filter_all. }
  assert (Hentry : forall key data,
             In (key, data)
                (map (fun entry : string * MonthData =>
                        (fst entry, Calculator.monthMetrics (snd entry)))
                     monthlyData) ->
             withKey (monthKeyOf monthKey) key closed <> []
             /\ data = Calculator.monthMetrics
                         (monthOf key (withKey (monthKeyOf monthKey) key
                                               closed))).
  { intros key data Hin. apply in_map_iff in Hin.
    destruct Hin as [[k d0] [E Hin]]. cbn [fst snd] in E.
    injection E as -> <-.
    apply (entryOf_In monthlyData key d0 Hnd) in Hin.
    rewrite Hacc in Hin.
    destruct (withKey (monthKeyOf monthKey) key closed) as [|y ys];
      [discriminate Hin|].
    injection Hin as <-. split; [discriminate | reflexivity]. }
  split; [rewrite Hkeys; exact Hnd|].
  split.
  { intros key data Hin. destruct (Hentry key data Hin) as [Hne ->].
    rewrite (monthMetrics_of_closed key _ (Hclosed key)).
    cbn [month monthTrades monthTotalPL monthWinningTrades monthLosingTrades
         monthWinRate monthProfitFactor].
    repeat split; try reflexivity. exact Hne. }
  assert (Hcover : forall t, In t closed ->
             exists d0, In (monthKey (exitDate t), d0) monthlyData).
  { intros t Hin.
    assert (Hin' : In t (withKey (monthKeyOf monthKey)
                                 (monthKey (exitDate t)) closed)).
    { apply filter_In. split; [exact Hin|].
      cbn [monthKeyOf textIs]. apply String.eqb_refl. }
    pose proof (Hacc (monthKey (exitDate t))) as He.
    destruct (withKey (monthKeyOf monthKey) (monthKey (exitDate t)) closed)
      as [|y ys] eqn:Ew; [contradiction|].
    eexists. apply (entryOf_In monthlyData _ _ Hnd). exact He. }
  split.
  { intros t Hin. destruct (Hcover t Hin) as [d0 Hd0].
    exists (Calculator.monthMetrics d0).
    apply in_map_iff. exists (monthKey (exitDate t), d0).
    split; [reflexivity | exact Hd0]. }
  rewrite (monthlyTotal_by_key _
             (fun key => List.length
                           (withKey (monthKeyOf monthKey) key closed))).
  - rewrite Hkeys, (groups_partition (monthKeyOf monthKey) _ closed Hnd).
    unfold withKeyIn. rewrite filter_true; [reflexivity|].
    intros t Hin. destruct (Hcover t Hin) as [d0 Hd0].
    apply existsb_exists. exists (monthKey (exitDate t)). split.
    + apply (in_map fst) in Hd0. exact Hd0.
    + cbn [monthKeyOf textIs]. apply String.eqb_refl.
  - intros key data Hin. destruct (Hentry key data Hin) as [_ ->].
    reflexivity.
Qed.

End MonthlyGroups.

Section MonthlyWitness.

Lemma monthly_groups_witness :
  exists data,
    In ("2024-01"%string, data)
       (Calculator.getMonthlyPerformance Samples.sampleMonthKey
                                         Samples.threeTrades).
Proof.
  destruct (monthly_groups Samples.sampleMonthKey Samples.threeTrades)
    as [_ [_ [H _]]].
  apply (H (Samples.closedTrade 520 1)).
  left. reflexivity.
Defined.

End MonthlyWitness.

(** * Extremes and the sign of the risk *)

Section Extremes.

Lemma min_Fin (a b : Q) : min (Fin a) (Fin b) = Fin (Qmin a b).
Proof.
  unfold min, lt, Qltb, Qmin, GenericMinMax.gmin, Qle_bool, Qcompare.
  destruct (Z.compare_spec (Qnum a * QDen b) (Qnum b * QDen a));
    destruct (Z.leb_spec (Qnum a * QDen b) (Qnum b * QDen a));
    simpl; try reflexivity; lia.
Qed.

Lemma max_loop_Fin (qs : list Q) : forall a : Q,
  fold_left max (map Fin qs) (Fin a) = Fin (fold_left Qmax qs a).
Proof.
  induction qs as [|q r IH]; intro a; cbn [map fold_left]; [reflexivity|].
  rewrite max_Fin. apply IH.
Qed.

Lemma min_loop_Fin (qs : list Q) : forall a : Q,
  fold_left min (map Fin qs) (Fin a) = Fin (fold_left Qmin qs a).
Proof.
  induction qs as [|q r IH]; intro a; cbn [map fold_left]; [reflexivity|].
  rewrite min_Fin. apply IH.
Qed.

Lemma running_min_le_start (ds : list Q) :
  forall m : Q, fold_left Qmin ds m <= m.
Proof.
  induction ds as [|d r IH]; intro m; cbn [fold_left].
  - apply Qle_refl.
  - eapply Qle_trans; [apply IH | apply Q.le_min_l].
Qed.

Lemma running_min_le_all (ds : list Q) :
  forall m : Q, Forall (fun d => fold_left Qmin ds m <= d) ds.
Proof.
  induction ds as [|d r IH]; intro m; cbn [fold_left].
  - constructor.
  - constructor; [|apply IH].
    eapply Qle_trans; [apply running_min_le_start | apply Q.le_min_r].
Qed.

Lemma running_min_attained (ds : list Q) :
  forall m : Q, fold_left Qmin ds m = m \/ In (fold_left Qmin ds m) ds.
Proof.
  induction ds as [|d r IH]; intro m; cbn [fold_left].
  - left. reflexivity.
  - destruct (IH (Qmin m d)) as [H|H].
    + rewrite H. unfold Qmin, GenericMinMax.gmin.
      destruct (m ?= d); [left | left | right; left]; reflexivity.
    + right. right. exact H.
Qed.

(** The greatest and the least of a non-empty list of finite results, as
    [Math.max(...)] and [Math.min(...)] return them. *)
Lemma extremes_of_finite (l : list Trade) :
  Forall finitePL l -> l <> [] ->
  exists hi lo : Q,
    maxOf (map (fun t : Trade => profitLoss t) l) = Fin hi
    /\ minOf (map (fun t : Trade => profitLoss t) l) = Fin lo
    /\ In hi (map plQ l) /\ In lo (map plQ l)
    /\ Forall (fun t => lo <= plQ t <= hi) l.
Proof.
  intros H Hne. rewrite (map_profitLoss_finite l H).
  destruct l as [|x r]; [contradiction|]. clear Hne.
  unfold maxOf, minOf. cbn [map fold_left].
  change (max NInf (Fin (plQ x))) with (Fin (plQ x)).
  change (min PInf (Fin (plQ x))) with (Fin (plQ x)).
  rewrite max_loop_Fin, min_loop_Fin.
  exists (fold_left Qmax (map plQ r) (plQ x)),
         (fold_left Qmin (map plQ r) (plQ x)).
  split; [reflexivity|]. split; [reflexivity|].
  split; [destruct (running_max_attained (map plQ r) (plQ x)) as [E|E];
          [left; symmetry; exact E | right; exact E]|].
  split; [destruct (running_min_attained (map plQ r) (plQ x)) as [E|E];
          [left; symmetry; exact E | right; exact E]|].
  constructor.
  - split; [apply running_min_le_start | apply running_max_ge_start].
  - pose proof (running_max_ge_all (map plQ r) (plQ x)) as Hmax.
    pose proof (running_min_le_all (map plQ r) (plQ x)) as Hmin.
    rewrite Forall_map in Hmax, Hmin. rewrite Forall_forall in *.
    intros t Ht. split; [apply Hmin | apply Hmax]; exact Ht.
Qed.

(** On closed trades of finite profit/loss: when some closed trade won,
    [calculateLargestWin] is the profit/loss of one of the closed trades,
    is above 0 and no closed trade has a greater one; when none won it is
    0.  Likewise [calculateLargestLoss] is the least profit/loss, below 0,
    when some closed trade lost, and 0 when none did. *)
Theorem largest_win_and_loss (trades : list Trade) :
  Forall finitePL (filter isClosed trades) ->
  (Spec.winningCount trades = O -> Calculator.calculateLargestWin trades = Fin 0)
  /\ (Spec.winningCount trades <> O ->
      exists (w : Q) (t : Trade),
        Calculator.calculateLargestWin trades = Fin w
        /\ In t trades /\ isClosed t = true /\ profitLoss t = Fin w
        /\ 0 < w
        /\ forall u, In u trades -> isClosed u = true -> plQ u <= w)
  /\ (Spec.losingCount trades = O -> Calculator.calculateLargestLoss trades = Fin 0)
  /\ (Spec.losingCount trades <> O ->
      exists (w : Q) (t : Trade),
        Calculator.calculateLargestLoss trades = Fin w
        /\ In t trades /\ isClosed t = true /\ profitLoss t = Fin w
        /\ w < 0
        /\ forall u, In u trades -> isClosed u = true -> w <= plQ u).
Proof.
  intro H.
  unfold Spec.winningCount, Spec.losingCount,
    Calculator.calculateLargestWin, Calculator.calculateLargestLoss.
  rewrite <- !filter_length_countIf, <- !filter_filter.
  set (closed := filter isClosed trades) in *.
  assert (Hmember : forall (p : Trade -> bool) (q : Q),
             In q (map plQ (filter p closed)) ->
             exists t, In t trades /\ isClosed t = true /\ p t = true
                       /\ profitLoss t = Fin q).
  { intros p q Hq. apply in_map_iff in Hq. destruct Hq as [t [<- Ht]].
    apply filter_In in Ht. destruct Ht as [Ht Hp].
    pose proof Ht as Hfin. rewrite Forall_forall in H. apply H in Hfin.
    apply filter_In in Ht. destruct Ht as [Ht Hc].
    exists t. repeat split; try assumption. apply finitePL_Fin. exact Hfin. }
  assert (Hfinite : forall u, In u trades -> isClosed u = true -> finitePL u).
  { intros u Hu Hc. rewrite Forall_forall in H. apply H.
    apply filter_In. auto. }
  split; [intro E; rewrite E; reflexivity|].
  split.
  { intro Hne.
    destruct (extremes_of_finite (filter isWinner closed)
                (filter_Forall _ _ _ H))
      as [hi [lo [Hhi [_ [Hin [_ Hall]]]]]].
    { intro E. rewrite E in Hne. contradiction. }
    destruct (Hmember isWinner hi Hin) as [t [Ht [Hc [Hw Hpl]]]].
    exists hi, t.
    destruct (Nat.eqb_spec (List.length (filter isWinner closed)) 0);
      [contradiction|].
    split; [exact Hhi|]. split; [exact Ht|]. split; [exact Hc|].
    split; [exact Hpl|].
    assert (Hpos : 0 < hi).
    { unfold isWinner, gt in Hw. rewrite Hpl in Hw. apply Qltb_lt. exact Hw. }
    split; [exact Hpos|].
    intros u Hu Hcu. pose proof (Hfinite u Hu Hcu) as Hfu.
    destruct (isWinner u) eqn:Wu.
    - rewrite Forall_forall in Hall. apply Hall.
      apply filter_In. split; [apply filter_In; auto | exact Wu].
    - rewrite (isWinner_finite u Hfu) in Wu. apply Qltb_ge in Wu. lra. }
  split; [intro E; rewrite E; reflexivity|].
  { intro Hne.
    destruct (extremes_of_finite (filter isLoser closed)
                (filter_Forall _ _ _ H))
      as [hi [lo [_ [Hlo [_ [Hin Hall]]]]]].
    { intro E. rewrite E in Hne. contradiction. }
    destruct (Hmember isLoser lo Hin) as [t [Ht [Hc [Hw Hpl]]]].
    exists lo, t.
    destruct (Nat.eqb_spec (List.length (filter isLoser closed)) 0);
      [contradiction|].
    split; [exact Hlo|]. split; [exact Ht|]. split; [exact Hc|].
    split; [exact Hpl|].
    assert (Hneg : lo < 0).
    { unfold isLoser in Hw. rewrite Hpl in Hw. apply Qltb_lt. exact Hw. }
    split; [exact Hneg|].
    intros u Hu Hcu. pose proof (Hfinite u Hu Hcu) as Hfu.
    destruct (isLoser u) eqn:Lu.
    - rewrite Forall_forall in Hall. apply Hall.
      apply filter_In. split; [apply filter_In; auto | exact Lu].
    - rewrite (isLoser_finite u Hfu) in Lu. apply Qltb_ge in Lu. lra. }
Qed.

Lemma largest_win_and_loss_witness :
  exists (w : Q) (t : Trade),
    Calculator.calculateLargestWin Samples.threeTrades = Fin w
    /\ In t Samples.threeTrades /\ isClosed t = true /\ profitLoss t = Fin w
    /\ 0 < w
    /\ forall u, In u Samples.threeTrades -> isClosed u = true -> plQ u <= w.
Proof.
  apply (proj1 (proj2 (largest_win_and_loss Samples.threeTrades
                         ltac:(repeat constructor)))).
  discriminate.
Defined.

End Extremes.

Section RiskSign.

Lemma product_sign (a s : Q) :
  0 < s -> (0 < a * s -> 0 < a) /\ (a * s < 0 -> a < 0)
           /\ (0 < a -> 0 <= a * s) /\ (a < 0 -> a * s <= 0).
Proof.
  intro Hs. repeat split; intro H; nra.
Qed.

Lemma gt_Fin (a : Q) : gt (Fin a) (Fin 0) = true -> 0 < a.
Proof. unfold gt, lt. apply Qltb_lt. Qed.

Lemma lt_Fin (a : Q) : lt (Fin a) (Fin 0) = true -> a < 0.
Proof. unfold lt. apply Qltb_lt. Qed.

(** The sign of a price difference times a positive size. *)
Lemma signed_amount (d s : Q) (lossSide profitSide : Prop) :
  0 < s -> (0 < d <-> lossSide) -> (d < 0 <-> profitSide) ->
  (gt (Fin (d * s)) (Fin 0) = true -> lossSide)
  /\ (lt (Fin (d * s)) (Fin 0) = true -> profitSide)
  /\ (lossSide -> le (Fin 0) (Fin (d * s)) = true)
  /\ (profitSide -> le (Fin (d * s)) (Fin 0) = true).
Proof.
  intros Ps Hl Hp. destruct (product_sign d s Ps) as [A [B [C D]]].
  split; [|split; [|split]].
  - intro H. apply Hl, A, gt_Fin, H.
  - intro H. apply Hp, B, lt_Fin, H.
  - intro H. apply le_Fin, C, Hl, H.
  - intro H. apply le_Fin, D, Hp, H.
Qed.

(** With a positive position size the sign of the risk amount follows the
    side of the stop loss: a risk above 0 means a stop on the loss side of
    the entry price (below it for a long trade, above it otherwise), a risk
    below 0 a stop on the profit side; a stop on the loss side never gives
    a risk below 0 and a stop on the profit side never one above 0.
    Nothing clamps the value.  The reward amount mirrors this for the take
    profit. *)
Theorem risk_and_reward_follow_the_side (trade : Trade) (e s : Q) :
  entryPrice trade = Some e -> positionSize trade = Some s -> 0 < s ->
  (forall x : Q,
     stopLoss trade = Some x -> ~ x == 0 ->
     let risk := DataManager.calculateRiskAmount trade in
     let lossSide := if textIs (direction trade) "long" then x < e else e < x in
     let profitSide :=
       if textIs (direction trade) "long" then e < x else x < e in
     (gt risk (Fin 0) = true -> lossSide)
     /\ (lt risk (Fin 0) = true -> profitSide)
     /\ (lossSide -> le (Fin 0) risk = true)
     /\ (profitSide -> le risk (Fin 0) = true))
  /\ (forall y : Q,
        takeProfit trade = Some y -> ~ y == 0 ->
        let reward := DataManager.calculateRewardAmount trade in
        let profitSide :=
          if textIs (direction trade) "long" then e < y else y < e in
        let lossSide :=
          if textIs (direction trade) "long" then y < e else e < y in
        (gt reward (Fin 0) = true -> profitSide)
        /\ (lt reward (Fin 0) = true -> lossSide)
        /\ (profitSide -> le (Fin 0) reward = true)
        /\ (lossSide -> le reward (Fin 0) = true)).
Proof.
  intros He Hs Ps. split.
  - intros x Hx Hnz. cbv zeta. unfold DataManager.calculateRiskAmount.
    rewrite Hx, He, Hs. unfold present. cbn [toNum truthy].
    rewrite (proj2 (isZero_false x) Hnz). cbn [negb].
    destruct (textIs (direction trade) "long"); cbn [sub add neg mul];
      apply signed_amount; try exact Ps; split; intro H; lra.
  - intros y Hy Hnz. cbv zeta. unfold DataManager.calculateRewardAmount.
    rewrite Hy, He, Hs. unfold present. cbn [toNum truthy].
    rewrite (proj2 (isZero_false y) Hnz). cbn [negb].
    destruct (textIs (direction trade) "long"); cbn [sub add neg mul];
      apply signed_amount; try exact Ps; split; intro H; lra.
Qed.

Lemma risk_and_reward_follow_the_side_witness :
  lt (DataManager.calculateRiskAmount Samples.longStopAbove) (Fin 0) = true
  /\ le (DataManager.calculateRiskAmount Samples.longStopAbove) (Fin 0) = true.
Proof.
  destruct (proj1 (risk_and_reward_follow_the_side Samples.longStopAbove
                     150 10 eq_refl eq_refl ltac:(reflexivity)) 160)
    as [_ [_ [_ H]]].
  - reflexivity.
  - intro H. discriminate H.
  - split; [reflexivity|]. apply H. reflexivity.
Defined.

End RiskSign.
